(** * Branded image generation workflow: a shallow embedding

    The development follows [image_gen_main.py].  The class
    [BrandedImageGenerator] becomes a record of the attributes set by
    [load_config]; its methods become functions over that record.  Calls
    into the outside world (the clock, the file system, the imaging
    library) go through an explicit [World] that is threaded by a small
    state-and-exception monad.

    What the model leaves out or fixes:
    - [print] calls: console output influences nothing the program
      returns or writes;
    - strings are sequences of one-byte characters, as for ASCII text;
    - [os.path] is the POSIX one;
    - floats are IEEE 754 binary64, computed with the library's
      executable specification of floating-point arithmetic;
    - the pixel content of images is abstract, their size and mode are
      not; the imaging library reads the two sides of a size as C
      integers of 32 bits, and what it has the memory to build is a
      parameter of the library;
    - the methods are modelled on configurations whose values have the
      types the program expects; [load_config] itself is modelled on the
      untyped JSON document. *)

From Stdlib Require Import String Ascii List ZArith Lia Bool Arith.
From Stdlib Require Import SpecFloat.
Import ListNotations.

Local Open Scope list_scope.
Local Open Scope string_scope.

(** ** Python strings *)

Module Py.

(** [sep.join(ls)] *)
Definition join (sep : string) (ls : list string) : string :=
  String.concat sep ls.

(** [s.startswith(p)] *)
Definition startswith (s p : string) : bool := String.prefix p s.

(** [s.endswith("/")], the only use of [endswith] that is needed. *)
Fixpoint ends_with_slash (s : string) : bool :=
  match s with
  | EmptyString => false
  | String c EmptyString => Ascii.eqb c "/"
  | String _ rest => ends_with_slash rest
  end.

(** [s.replace(' ', '_')] *)
Fixpoint replace_space (s : string) : string :=
  match s with
  | EmptyString => EmptyString
  | String c rest =>
      String (if Ascii.eqb c " " then "_"%char else c) (replace_space rest)
  end.

(** [s[:n]] for a non-negative [n] *)
Fixpoint take (n : nat) (s : string) : string :=
  match n, s with
  | O, _ => EmptyString
  | _, EmptyString => EmptyString
  | S k, String c rest => String c (take k rest)
  end.

(** Truthiness of a string: the empty string is falsy. *)
Definition truthy (s : string) : bool :=
  match s with EmptyString => false | _ => true end.

(** [t in s] as a proposition: [t] occurs verbatim inside [s]. *)
Definition occurs_in (t s : string) : Prop :=
  exists before after, s = before ++ t ++ after.

Definition digit (n : nat) : ascii := ascii_of_nat (48 + n).

(** Decimal digits of [n], most significant first; [fuel] bounds the
    number of digits. *)
Fixpoint digits_aux (fuel n : nat) (acc : string) : string :=
  match fuel with
  | O => acc
  | S f =>
      let acc' := String (digit (n mod 10)) acc in
      if (n <? 10)%nat then acc' else digits_aux f (n / 10) acc'
  end.

(** [str(n)] for a natural number *)
Definition str_nat (n : nat) : string := digits_aux (S n) n EmptyString.

(** [str(z)] for an integer *)
Definition str (z : Z) : string :=
  match z with
  | Z0 => "0"
  | Zpos p => str_nat (Pos.to_nat p)
  | Zneg p => "-" ++ str_nat (Pos.to_nat p)
  end.

(** [f"{n:0{w}d}"]: decimal, left-padded with zeros to width [w] *)
Fixpoint zfill_aux (k : nat) (s : string) : string :=
  match k with
  | O => s
  | S k' => String "0" (zfill_aux k' s)
  end.

Definition zfill (w n : nat) : string :=
  let s := str_nat n in zfill_aux (w - String.length s) s.

End Py.

(** ** [os.path] on a POSIX system *)

Module OsPath.

Definition isabs (p : string) : bool := Py.startswith p "/".

(** One round of the loop of [posixpath.join]. *)
Definition join_step (path b : string) : string :=
  if Py.startswith b "/" then b
  else if negb (Py.truthy path) || Py.ends_with_slash path then path ++ b
  else path ++ "/" ++ b.

(** [os.path.join(a, *p)] *)
Definition join (a : string) (p : list string) : string :=
  fold_left join_step p a.

(** [s.split('/')] *)
Fixpoint split_slash (s : string) : list string :=
  match s with
  | EmptyString => [EmptyString]
  | String c rest =>
      if Ascii.eqb c "/" then EmptyString :: split_slash rest
      else match split_slash rest with
           | hd :: tl => String c hd :: tl
           | [] => [String c EmptyString]
           end
  end.

(** The number [initial_slashes] of [posixpath.normpath]: 0, 1, or 2
    when the path starts with exactly two slashes. *)
Definition initial_slashes (path : string) : nat :=
  if Py.startswith path "/" then
    if Py.startswith path "//" && negb (Py.startswith path "///")
    then 2 else 1
  else 0.

(** One round of the loop over the components.  [new_comps] is kept
    most recent first, so [append] is a cons and [pop] drops the head. *)
Definition norm_step (slashes : nat) (new_comps : list string)
    (comp : string) : list string :=
  if (comp =? "") || (comp =? ".") then new_comps
  else if negb (comp =? "..")
          || (Nat.eqb slashes 0 && match new_comps with [] => true | _ => false end)
          || match new_comps with last :: _ => last =? ".." | [] => false end
  then comp :: new_comps
  else match new_comps with _ :: rest => rest | [] => [] end.

Fixpoint slashes_string (n : nat) : string :=
  match n with O => EmptyString | S k => String "/" (slashes_string k) end.

(** [os.path.normpath(path)] *)
Definition normpath (path : string) : string :=
  if negb (Py.truthy path) then "."
  else
    let slashes := initial_slashes path in
    let comps := rev (fold_left (norm_step slashes) (split_slash path) []) in
    let joined := Py.join "/" comps in
    let path' := if Nat.eqb slashes 0 then joined
                 else slashes_string slashes ++ joined in
    if Py.truthy path' then path' else ".".

(** [os.path.abspath(path)], with [cwd] the value of [os.getcwd()]. *)
Definition abspath (cwd path : string) : string :=
  normpath (if isabs path then path else join cwd [path]).

End OsPath.

(** ** Exceptions and outcomes *)

Inductive exn : Type :=
| KeyError (key : string)
| TypeError
| IndexError
| ValueError
| AttributeError
| ZeroDivisionError
| OverflowError
| MemoryError
| OSError.

Inductive outcome (A : Type) : Type :=
| Ok (a : A)
| Raise (e : exn).

Arguments Ok {A} a.
Arguments Raise {A} e.

(** ** Python floats: IEEE 754 binary64 *)

Module PyFloat.

Definition prec : Z := 53.
Definition emax : Z := 1024.

(** [float(z)] for an integer; exact when [|z| < 2^53]. *)
Definition of_int (z : Z) : spec_float :=
  binary_normalize prec emax z 0 false.

Definition mul (x y : spec_float) : spec_float := SFmul prec emax x y.

(** [a / b] on integers (true division): the correctly rounded quotient.
    The operands are converted exactly when they are below [2^53] in
    absolute value, which image sizes are. *)
Definition true_div (a b : Z) : outcome spec_float :=
  if Z.eqb b 0 then Raise ZeroDivisionError
  else Ok (SFdiv prec emax (of_int a) (of_int b)).

(** [int(x)]: truncation toward zero. *)
Definition to_int (x : spec_float) : outcome Z :=
  match x with
  | S754_zero _ => Ok 0%Z
  | S754_infinity _ => Raise OverflowError
  | S754_nan => Raise ValueError
  | S754_finite s m e =>
      let a := if Z.leb 0 e then (Zpos m * 2 ^ e)%Z
               else (Zpos m / 2 ^ (- e))%Z in
      Ok (if s then (- a)%Z else a)
  end.

End PyFloat.

(** ** Parsed JSON documents, as [json.load] returns them *)

#[local] Set Warnings "-register-all".

Inductive json : Type :=
| JNull
| JBool (b : bool)
| JNum (z : Z)
| JStr (s : string)
| JArr (items : list json)
| JObj (fields : list (string * json)).

Module Json.

Fixpoint assoc (key : string) (fields : list (string * json)) : option json :=
  match fields with
  | [] => None
  | (k, v) :: rest => if k =? key then Some v else assoc key rest
  end.

(** [d[key]] *)
Definition getitem (d : json) (key : string) : outcome json :=
  match d with
  | JObj fields =>
      match assoc key fields with
      | Some v => Ok v
      | None => Raise (KeyError key)
      end
  | _ => Raise TypeError
  end.

(** [d.get(key, None)]; Python's [None] is [JNull]. *)
Definition get (d : json) (key : string) : outcome json :=
  match d with
  | JObj fields =>
      match assoc key fields with
      | Some v => Ok v
      | None => Ok JNull
      end
  | _ => Raise AttributeError
  end.

End Json.

(** ** The configuration, seen with its intended types *)

Record SizeConfig : Type := {
  size_name : string;
  size_width : Z;
  size_height : Z
}.

Record BrandSection : Type := {
  colors : list string;
  style_keywords : string
}.

Record VariantsSection : Type := {
  format : string;
  sizes : list SizeConfig
}.

Record Config : Type := {
  brand : BrandSection;
  image_variants : VariantsSection
}.

(** The attributes of a [BrandedImageGenerator] that the pipeline reads. *)
Record Generator : Type := {
  config : Config;
  brand_colors : list string;
  output_dir : string;
  logo_path : option string
}.

(** ** Results *)

Record VariantResult : Type := {
  vr_name : string;
  vr_size : string;
  vr_path : string;
  vr_url : string
}.

Record GenerationResult : Type := {
  gr_prompt : string;
  gr_timestamp : string;
  gr_variants : list VariantResult
}.

(** One entry of the list given to [batch_process]: a bare string, or a
    dict with a ['prompt'] and possibly a ['name']. *)
Inductive prompt_data : Type :=
| PromptText (prompt : string)
| PromptDict (prompt : string) (name : option string).

(** ** [datetime] *)

Record datetime : Type := {
  year : nat; month : nat; day : nat;
  hour : nat; minute : nat; second : nat; microsecond : nat
}.

(** [d.strftime('%Y%m%d_%H%M%S')], for years of four digits *)
Definition strftime_compact (d : datetime) : string :=
  Py.zfill 4 (year d) ++ Py.zfill 2 (month d) ++ Py.zfill 2 (day d) ++ "_"
  ++ Py.zfill 2 (hour d) ++ Py.zfill 2 (minute d) ++ Py.zfill 2 (second d).

(** [d.isoformat()] *)
Definition isoformat (d : datetime) : string :=
  Py.zfill 4 (year d) ++ "-" ++ Py.zfill 2 (month d) ++ "-" ++ Py.zfill 2 (day d)
  ++ "T" ++ Py.zfill 2 (hour d) ++ ":" ++ Py.zfill 2 (minute d) ++ ":"
  ++ Py.zfill 2 (second d)
  ++ (if Nat.eqb (microsecond d) 0 then "" else "." ++ Py.zfill 6 (microsecond d)).

(** ** Images

    The imaging library is external.  Its pixel-level operations are an
    interface; sizes and modes, which the program reads and computes
    with, are explicit fields of an image. *)

Inductive mode : Type := RGB | RGBA.

Class Imaging : Type := {
  Pixels : Type;
  (** what [create_base_image] draws on its canvas, given the fill colour *)
  placeholder_px : string -> Pixels;
  (** [convert]: from one mode to another *)
  convert_px : mode -> mode -> Pixels -> Pixels;
  (** Lanczos resampling from one size to another *)
  resample_px : Z * Z -> Z * Z -> Pixels -> Pixels;
  (** what resampling from one size to another raises, if anything, when
      the library is given a size it has parsed and found positive: a
      [MemoryError] for a result beyond what it can allocate *)
  resample_fault : Z * Z -> Z * Z -> option exn;
  (** alpha compositing of an overlay of a given size onto a base of a
      given size at a position, the overlay being its own mask *)
  paste_px : Z * Z -> Pixels -> Z * Z -> Pixels -> Z * Z -> Pixels
}.

Section Pipeline.

Context {PIL : Imaging}.

Record Image : Type := {
  width : Z;
  height : Z;
  image_mode : mode;
  pixels : Pixels
}.

Definition image_size (img : Image) : Z * Z := (width img, height img).

(** [img.convert(m)] *)
Definition convert (m : mode) (img : Image) : Image :=
  {| width := width img; height := height img; image_mode := m;
     pixels := convert_px (image_mode img) m (pixels img) |}.

(** [img.copy()] *)
Definition copy (img : Image) : Image := img.

(** Whether an integer fits the C [int] the library parses a side into. *)
Definition c_int (z : Z) : bool :=
  Z.leb (-2147483648) z && Z.leb z 2147483647.

(** [img.resize(size, Image.Resampling.LANCZOS)]: a copy when the size
    is unchanged; otherwise an [OverflowError] when a side does not fit a
    C [int], a [ValueError] when a side is below 1, and whatever the
    resampling itself raises. *)
Definition resize (size : Z * Z) (img : Image) : outcome Image :=
  let '(w, h) := size in
  if Z.eqb w (width img) && Z.eqb h (height img) then Ok (copy img)
  else if negb (c_int w && c_int h) then Raise OverflowError
  else if Z.ltb w 1 || Z.ltb h 1 then Raise ValueError
  else match resample_fault (image_size img) size with
       | Some e => Raise e
       | None =>
           Ok {| width := w; height := h; image_mode := image_mode img;
                 pixels := resample_px (image_size img) size (pixels img) |}
       end.

(** [base.paste(overlay, position, overlay)], as a value *)
Definition paste (base overlay : Image) (position : Z * Z) : Image :=
  {| width := width base; height := height base;
     image_mode := image_mode base;
     pixels := paste_px (image_size base) (pixels base)
                        (image_size overlay) (pixels overlay) position |}.

(** ** The outside world *)

Record World : Type := {
  (** [datetime.now()]: the value read at the n-th reading *)
  now_at : nat -> datetime;
  clock_reads : nat;
  (** [os.getcwd()] *)
  getcwd : string;
  (** [os.path.exists] *)
  path_exists : string -> bool;
  (** [Image.open(path)], decoded *)
  image_file : string -> outcome Image;
  (** [open(path)] followed by [json.load] *)
  json_file : string -> outcome json;
  (** whether the n-th rendering of a base image fails, and how *)
  render_fault : nat -> option exn;
  provider_calls : nat;
  (** whether the n-th [save] fails, and how *)
  save_fault : nat -> option exn;
  save_calls : nat;
  (** the files written so far, most recent first *)
  saved : list (string * Image)
}.

(** ** Computations: state and exceptions *)

Definition M (A : Type) : Type := World -> outcome A * World.

Definition ret {A} (a : A) : M A := fun w => (Ok a, w).

Definition raise {A} (e : exn) : M A := fun w => (Raise e, w).

Definition bind {A B} (m : M A) (k : A -> M B) : M B :=
  fun w =>
    match m w with
    | (Ok a, w') => k a w'
    | (Raise e, w') => (Raise e, w')
    end.

(** [try: m  except Exception: handler] *)
Definition try_except {A} (m : M A) (handler : exn -> M A) : M A :=
  fun w =>
    match m w with
    | (Ok a, w') => (Ok a, w')
    | (Raise e, w') => handler e w'
    end.

Definition lift {A} (o : outcome A) : M A := fun w => (o, w).

Definition gets {A} (f : World -> A) : M A := fun w => (Ok (f w), w).

End Pipeline.

Declare Scope py_scope.
Delimit Scope py_scope with py.
Notation "x <- m ;; k" := (bind m (fun x => k))
  (at level 61, m at next level, right associativity) : py_scope.
Notation "m ;;; k" := (bind m (fun _ => k))
  (at level 61, right associativity) : py_scope.

Local Open Scope py_scope.

Section Methods.

Context {PIL : Imaging}.

(** *** Calls into the outside world *)

(** [datetime.now()] *)
Definition datetime_now : M datetime := fun w =>
  (Ok (now_at w (clock_reads w)),
   {| now_at := now_at w; clock_reads := S (clock_reads w);
      getcwd := getcwd w; path_exists := path_exists w;
      image_file := image_file w; json_file := json_file w;
      render_fault := render_fault w; provider_calls := provider_calls w;
      save_fault := save_fault w; save_calls := save_calls w;
      saved := saved w |}).

(** The drawing done by [create_base_image] on a fresh 1024x1024
    canvas: [Image.new], the gradient lines, the font and the text. *)
Definition draw_placeholder (color : string) : M Pixels := fun w =>
  (match render_fault w (provider_calls w) with
   | Some e => Raise e
   | None => Ok (placeholder_px color)
   end,
   {| now_at := now_at w; clock_reads := clock_reads w;
      getcwd := getcwd w; path_exists := path_exists w;
      image_file := image_file w; json_file := json_file w;
      render_fault := render_fault w; provider_calls := S (provider_calls w);
      save_fault := save_fault w; save_calls := save_calls w;
      saved := saved w |}).

(** [img.save(filepath, quality=95)] *)
Definition save (img : Image) (filepath : string) : M unit := fun w =>
  let fault := save_fault w (save_calls w) in
  (match fault with Some e => Raise e | None => Ok tt end,
   {| now_at := now_at w; clock_reads := clock_reads w;
      getcwd := getcwd w; path_exists := path_exists w;
      image_file := image_file w; json_file := json_file w;
      render_fault := render_fault w; provider_calls := provider_calls w;
      save_fault := save_fault w; save_calls := S (save_calls w);
      saved := match fault with
               | Some _ => saved w
               | None => (filepath, img) :: saved w
               end |}).

(** [Image.open(path)] *)
Definition image_open (path : string) : M Image :=
  fun w => (image_file w path, w).

(** [json.load(open(path))] *)
Definition json_load (path : string) : M json :=
  fun w => (json_file w path, w).

(** *** [load_config] *)

(** The attributes as [load_config] sets them: untyped JSON values. *)
Record Loaded : Type := {
  loaded_config : json;
  loaded_brand_colors : json;
  loaded_output_dir : json;
  loaded_logo_path : json
}.

Definition load_config (config_path : string) : M Loaded :=
  cfg <- json_load config_path ;;
  brand_section <- lift (Json.getitem cfg "brand") ;;
  brand_colors_v <- lift (Json.getitem brand_section "colors") ;;
  storage_section <- lift (Json.getitem cfg "storage") ;;
  output_dir_v <- lift (Json.getitem storage_section "output_directory") ;;
  brand_section' <- lift (Json.getitem cfg "brand") ;;
  logo_path_v <- lift (Json.get brand_section' "logo_path") ;;
  ret {| loaded_config := cfg; loaded_brand_colors := brand_colors_v;
         loaded_output_dir := output_dir_v; loaded_logo_path := logo_path_v |}.

(** *** [enhance_prompt_with_brand] *)

Definition enhance_prompt_with_brand (g : Generator) (user_prompt : string)
    : string :=
  let brand_style := style_keywords (brand (config g)) in
  let color_desc := "using colors: " ++ Py.join ", " (brand_colors g) in
  user_prompt ++ ", " ++ brand_style ++ ", " ++ color_desc
  ++ ", professional marketing image, high quality, detailed".

(** *** [create_base_image] *)

Definition create_base_image (g : Generator) (prompt : string) : M Image :=
  match brand_colors g with
  | [] => raise IndexError
  | color :: _ =>
      px <- draw_placeholder color ;;
      ret {| width := 1024; height := 1024; image_mode := RGB; pixels := px |}
  end.

(** *** [generate_image_with_gemini] *)

Definition generate_image_with_gemini (g : Generator) (prompt : string)
    : M (option Image) :=
  try_except
    (let enhanced_prompt := enhance_prompt_with_brand g prompt in
     img <- create_base_image g enhanced_prompt ;;
     ret (Some img))
    (fun _ => ret None).

(** *** [apply_branding] *)

(** The size handed to [logo.resize]: lines 111 to 113. *)
Definition logo_target_size (img logo : Image) : outcome (Z * Z) :=
  let logo_width := (width img / 10)%Z in
  match PyFloat.true_div logo_width (width logo) with
  | Raise e => Raise e
  | Ok logo_ratio =>
      match PyFloat.to_int
              (PyFloat.mul (PyFloat.of_int (height logo)) logo_ratio) with
      | Raise e => Raise e
      | Ok logo_height => Ok (logo_width, logo_height)
      end
  end.

Definition logo_position (img : Image) (logo_size : Z * Z) : Z * Z :=
  let '(logo_width, logo_height) := logo_size in
  (width img - logo_width - 20, height img - logo_height - 20)%Z.

Definition apply_branding (g : Generator) (img : Image) : M Image :=
  match logo_path g with
  | None => ret img
  | Some path =>
      if negb (Py.truthy path) then ret img
      else
        exists_ <- gets (fun w => path_exists w path) ;;
        if negb exists_ then ret img
        else
        try_except
          (opened <- image_open path ;;
           let logo := convert RGBA opened in
           target <- lift (logo_target_size img logo) ;;
           logo' <- lift (resize target logo) ;;
           let position := logo_position img target in
           let img_copy := convert RGBA (copy img) in
           let img_copy' := paste img_copy logo' position in
           ret (convert RGB img_copy'))
          (fun _ => ret img)
  end.

(** *** [generate_variants] *)

Definition variant_filename (g : Generator) (prompt_name name timestamp : string)
    : string :=
  prompt_name ++ "_" ++ name ++ "_" ++ timestamp ++ "."
  ++ format (image_variants (config g)).

(** The body of the [for] loop, over the sizes still to do; [variants]
    is the list built so far. *)
Fixpoint generate_variants_loop (g : Generator) (base_image : Image)
    (prompt_name timestamp : string) (todo : list SizeConfig)
    (variants : list VariantResult) : M (list VariantResult) :=
  match todo with
  | [] => ret variants
  | size_config :: rest =>
      let name := size_name size_config in
      let width := size_width size_config in
      let height := size_height size_config in
      resized_img <- lift (resize (width, height) base_image) ;;
      let filename := variant_filename g prompt_name name timestamp in
      let filepath := OsPath.join (output_dir g) [name; filename] in
      save resized_img filepath ;;;
      cwd <- gets getcwd ;;
      generate_variants_loop g base_image prompt_name timestamp rest
        (variants ++
           [{| vr_name := name;
               vr_size := Py.str width ++ "x" ++ Py.str height;
               vr_path := filepath;
               vr_url := "file://" ++ OsPath.abspath cwd filepath |}])%list
  end.

Definition generate_variants (g : Generator) (base_image : Image)
    (prompt_name : string) : M (list VariantResult) :=
  now <- datetime_now ;;
  let timestamp := strftime_compact now in
  generate_variants_loop g base_image prompt_name timestamp
    (sizes (image_variants (config g))) [].

(** *** [process_prompt] *)

(** [prompt.replace(' ', '_')[:30]] *)
Definition derived_name (prompt : string) : string :=
  Py.take 30 (Py.replace_space prompt).

(** The name in force after the first two lines of [process_prompt]. *)
Definition resolve_name (prompt : string) (prompt_name : option string)
    : string :=
  match prompt_name with
  | Some n => if Py.truthy n then n else derived_name prompt
  | None => derived_name prompt
  end.

Definition process_prompt (g : Generator) (prompt : string)
    (prompt_name : option string) : M (option GenerationResult) :=
  let prompt_name := resolve_name prompt prompt_name in
  base_image <- generate_image_with_gemini g prompt ;;
  match base_image with
  | None => ret None
  | Some base_image =>
      branded_image <- apply_branding g base_image ;;
      variants <- generate_variants g branded_image prompt_name ;;
      now <- datetime_now ;;
      ret (Some {| gr_prompt := prompt;
                   gr_timestamp := isoformat now;
                   gr_variants := variants |})
  end.

(** *** [batch_process] *)

(** The pair [(prompt, name)] computed for the [i]-th entry. *)
Definition entry_prompt_name (i : nat) (entry : prompt_data) : string * string :=
  match entry with
  | PromptDict prompt name =>
      (prompt,
       match name with
       | Some n => n
       | None => "prompt_" ++ Py.str_nat i
       end)
  | PromptText prompt => (prompt, "prompt_" ++ Py.str_nat i)
  end.

(** The loop over [enumerate(prompts, 1)], from index [i] on. *)
Fixpoint batch_loop (g : Generator) (i : nat) (prompts : list prompt_data)
    (results : list GenerationResult) : M (list GenerationResult) :=
  match prompts with
  | [] => ret results
  | prompt_data :: rest =>
      let '(prompt, name) := entry_prompt_name i prompt_data in
      result <- process_prompt g prompt (Some name) ;;
      batch_loop g (S i) rest
        match result with
        | Some r => (results ++ [r])%list
        | None => results
        end
  end.

Definition batch_process (g : Generator) (prompts : list prompt_data)
    : M (list GenerationResult) :=
  batch_loop g 1 prompts [].

End Methods.

(** ** From the loaded JSON values to the typed view

    The pipeline methods are modelled on configurations whose values have
    the intended types: strings for colours, keywords, names, format and
    directory, integers for widths and heights.  [Decode] recognises
    them; it is not part of the program. *)

Module Decode.

Definition as_string (v : json) : option string :=
  match v with JStr s => Some s | _ => None end.

Definition as_int (v : json) : option Z :=
  match v with JNum z => Some z | _ => None end.

Fixpoint all_some {A} (l : list (option A)) : option (list A) :=
  match l with
  | [] => Some []
  | Some a :: rest =>
      match all_some rest with Some r => Some (a :: r) | None => None end
  | None :: _ => None
  end.

Definition as_strings (v : json) : option (list string) :=
  match v with JArr items => all_some (map as_string items) | _ => None end.

Definition field (key : string) (v : json) : option json :=
  match v with JObj fields => Json.assoc key fields | _ => None end.

Definition as_size (v : json) : option SizeConfig :=
  match field "name" v, field "width" v, field "height" v with
  | Some (JStr n), Some (JNum w), Some (JNum h) =>
      Some {| size_name := n; size_width := w; size_height := h |}
  | _, _, _ => None
  end.

Definition as_sizes (v : json) : option (list SizeConfig) :=
  match v with JArr items => all_some (map as_size items) | _ => None end.

Definition as_config (cfg : json) : option Config :=
  match field "brand" cfg, field "image_variants" cfg with
  | Some b, Some iv =>
      match field "colors" b, field "style_keywords" b,
            field "format" iv, field "sizes" iv with
      | Some cs, Some (JStr kw), Some (JStr fmt), Some szs =>
          match as_strings cs, as_sizes szs with
          | Some cs', Some szs' =>
              Some {| brand := {| colors := cs'; style_keywords := kw |};
                      image_variants := {| format := fmt; sizes := szs' |} |}
          | _, _ => None
          end
      | _, _, _, _ => None
      end
  | _, _ => None
  end.

Definition as_logo_path (v : json) : option (option string) :=
  match v with
  | JNull => Some None
  | JStr s => Some (Some s)
  | _ => None
  end.

Definition generator (l : Loaded) : option Generator :=
  match as_config (loaded_config l), as_strings (loaded_brand_colors l),
        as_string (loaded_output_dir l), as_logo_path (loaded_logo_path l) with
  | Some c, Some cs, Some d, Some lp =>
      Some {| config := c; brand_colors := cs; output_dir := d; logo_path := lp |}
  | _, _, _, _ => None
  end.

End Decode.

(** ** Concrete configurations and worlds *)

Module Scenario.

(** A small model of the imaging library: a pixel buffer is the
    description of how it was made. *)
Definition imaging : Imaging :=
  {| Pixels := string;
     placeholder_px := fun color => "canvas " ++ color;
     convert_px := fun _ _ p => p;
     resample_px := fun _ _ p => "resampled " ++ p;
     resample_fault :=
       fun _ size =>
         if Z.ltb 268435456 (fst size * snd size) then Some MemoryError
         else None;
     paste_px := fun _ base _ overlay _ => base ++ " + " ++ overlay |}.

Definition size (n : string) (w h : Z) : SizeConfig :=
  {| size_name := n; size_width := w; size_height := h |}.

(** The scenario of the specification: three colours, one variant. *)
Definition summer_config : Config :=
  {| brand := {| colors := ["#0066CC"; "#00A3E0"; "#FFFFFF"];
                 style_keywords := "modern, clean" |};
     image_variants := {| format := "jpg"; sizes := [size "thumb" 400 400] |} |}.

Definition summer : Generator :=
  {| config := summer_config;
     brand_colors := colors (brand summer_config);
     output_dir := "generated_images";
     logo_path := None |}.

Definition json_size (n : string) (w h : Z) : json :=
  JObj [("name", JStr n); ("width", JNum w); ("height", JNum h)].

(** A [config.json] in the shape [setup_script.py] writes, with the
    colours and sizes left open. *)
Definition config_json (cs : list string) (szs : list json) : json :=
  JObj [("api", JObj [("gemini_api_key", JStr "YOUR_GEMINI_API_KEY_HERE")]);
        ("brand", JObj [("name", JStr "TechBrand Inc.");
                        ("colors", JArr (map JStr cs));
                        ("style_keywords",
                         JStr "modern, clean, professional, minimalist");
                        ("logo_path", JStr "assets/logo.png")]);
        ("image_variants", JObj [("format", JStr "jpg"); ("sizes", JArr szs)]);
        ("storage", JObj [("output_directory", JStr "generated_images");
                          ("organize_by_date", JBool true)]);
        ("notification", JObj [("enabled", JBool true);
                               ("webhook_url", JStr "");
                               ("email", JStr "")])].

Definition no_colors_json : json :=
  config_json [] [json_size "thumbnail" 400 400].

Definition duplicate_names_json : json :=
  config_json ["#0066CC"] [json_size "thumb" 400 400; json_size "thumb" 600 200].

Definition clock (n : nat) : datetime :=
  {| year := 2024; month := 6; day := 1;
     hour := 12; minute := 0; second := n; microsecond := 0 |}.

(** A logo with alpha; the one [setup_script.py] draws is 200x200. *)
Definition logo (w h : Z) : @Image imaging :=
  @Build_Image imaging w h RGBA "logo".

Definition canvas (w h : Z) : @Image imaging :=
  @Build_Image imaging w h RGB "canvas".

(** A world in which [config.json] holds [doc], the logo file is the
    given image, the n-th rendering fails as [render] says and the n-th
    save as [save] says. *)
Definition world (doc : json) (logo_file : outcome (@Image imaging))
    (render save : nat -> option exn) : @World imaging :=
  @Build_World imaging
    clock 0 "/srv/app"
    (fun p => p =? "assets/logo.png")
    (fun p => if p =? "assets/logo.png" then logo_file else Raise OSError)
    (fun p => if p =? "config.json" then Ok doc else Raise OSError)
    render 0 save 0 [].

Definition no_fault : nat -> option exn := fun _ => None.

Definition fault_at (k : nat) (e : exn) : nat -> option exn :=
  fun n => if Nat.eqb n k then Some e else None.

(** Two variants, no logo. *)
Definition two_sizes : Generator :=
  {| config :=
       {| brand := brand summer_config;
          image_variants :=
            {| format := "jpg";
               sizes := [size "thumb" 400 400; size "banner" 1920 1080] |} |};
     brand_colors := colors (brand summer_config);
     output_dir := "generated_images";
     logo_path := None |}.

(** The scenario of the specification with a logo path. *)
Definition with_logo (path : string) : Generator :=
  {| config := summer_config;
     brand_colors := colors (brand summer_config);
     output_dir := "generated_images";
     logo_path := Some path |}.

(** No logo file can be read, nothing fails. *)
Definition plain_world : @World imaging :=
  world no_colors_json (Raise OSError) no_fault no_fault.

(** The logo file holds a 200x200 image, nothing fails. *)
Definition logo_world : @World imaging :=
  world duplicate_names_json (Ok (logo 200 200)) no_fault no_fault.

(** As [plain_world], but the second rendering fails. *)
Definition second_render_fails : @World imaging :=
  world no_colors_json (Raise OSError) (fault_at 1 ValueError) no_fault.

(** As [plain_world], but the save with the given number fails. *)
Definition save_fails_at (k : nat) : @World imaging :=
  world no_colors_json (Raise OSError) no_fault (fault_at k OSError).

Definition batch3 : list prompt_data :=
  [PromptText "Summer sale";
   PromptDict "Product launch" (Some "launch");
   PromptDict "Web banner" None].

End Scenario.

(** * Startup and notification

    The methods of [BrandedImageGenerator] outside the pipeline:
    [setup_gemini], [create_directories] and [send_notification].  They
    touch neither the clock nor the image files, so each is given the
    part of the world it acts on. *)

(** ** More of Python's values *)

Module PyVal.

(** [bool(v)] for a JSON value *)
Definition truthy (v : json) : bool :=
  match v with
  | JNull => false
  | JBool b => b
  | JNum z => negb (Z.eqb z 0)
  | JStr s => Py.truthy s
  | JArr items => match items with [] => false | _ :: _ => true end
  | JObj fields => match fields with [] => false | _ :: _ => true end
  end.

(** [d.get(key, default)] *)
Definition get (d : json) (key : string) (default : json) : outcome json :=
  match d with
  | JObj fields =>
      match Json.assoc key fields with
      | Some v => Ok v
      | None => Ok default
      end
  | _ => Raise AttributeError
  end.

(** [x or y], with [y] the outcome of evaluating the right operand *)
Definition or_else (x : json) (y : outcome json) : outcome json :=
  if truthy x then Ok x else y.

(** [s * n] *)
Fixpoint times (s : string) (n : nat) : string :=
  match n with
  | O => EmptyString
  | S k => s ++ times s k
  end.

Definition newline : string := String (ascii_of_nat 10) EmptyString.

End PyVal.

(** ** [load_config] on the object

    [load_config] assigns the attributes of [self] one after the other,
    so an exception part of the way leaves the earlier assignments in
    place.  [Self.load_config] follows the attributes; the function
    [load_config] above is its outcome when it returns. *)

(** The four attributes [load_config] assigns, each unset until then. *)
Record Attributes : Type := {
  self_config : option json;
  self_brand_colors : option json;
  self_output_dir : option json;
  self_logo_path : option json
}.

Module Self.

(** The world is only read. *)
Definition load_config `{PIL : Imaging} (config_path : string)
    (self : Attributes) (w : World) : outcome unit * Attributes :=
  match json_file w config_path with
  | Raise e => (Raise e, self)
  | Ok cfg =>
      let self :=
        {| self_config := Some cfg;
           self_brand_colors := self_brand_colors self;
           self_output_dir := self_output_dir self;
           self_logo_path := self_logo_path self |} in
      match Json.getitem cfg "brand" with
      | Raise e => (Raise e, self)
      | Ok brand_section =>
      match Json.getitem brand_section "colors" with
      | Raise e => (Raise e, self)
      | Ok brand_colors_v =>
      let self :=
        {| self_config := self_config self;
           self_brand_colors := Some brand_colors_v;
           self_output_dir := self_output_dir self;
           self_logo_path := self_logo_path self |} in
      match Json.getitem cfg "storage" with
      | Raise e => (Raise e, self)
      | Ok storage_section =>
      match Json.getitem storage_section "output_directory" with
      | Raise e => (Raise e, self)
      | Ok output_dir_v =>
      let self :=
        {| self_config := self_config self;
           self_brand_colors := self_brand_colors self;
           self_output_dir := Some output_dir_v;
           self_logo_path := self_logo_path self |} in
      match Json.getitem cfg "brand" with
      | Raise e => (Raise e, self)
      | Ok brand_section' =>
      match Json.get brand_section' "logo_path" with
      | Raise e => (Raise e, self)
      | Ok logo_path_v =>
          (Ok tt,
           {| self_config := self_config self;
              self_brand_colors := self_brand_colors self;
              self_output_dir := self_output_dir self;
              self_logo_path := Some logo_path_v |})
      end end end end end end
  end.

End Self.

(** The attributes after a load that returned [l]. *)
Definition attributes_of (l : Loaded) : Attributes :=
  {| self_config := Some (loaded_config l);
     self_brand_colors := Some (loaded_brand_colors l);
     self_output_dir := Some (loaded_output_dir l);
     self_logo_path := Some (loaded_logo_path l) |}.

(** ** [setup_gemini] *)

(** [getenv] is [os.getenv]; the result is the key handed to
    [genai.configure], which only stores it. *)
Definition setup_gemini (getenv : string -> option string) (cfg : json)
    : outcome json :=
  let from_env :=
    match getenv "GEMINI_API_KEY" with Some s => JStr s | None => JNull end in
  let from_config :=
    match Json.getitem cfg "api" with
    | Ok api => Json.getitem api "gemini_api_key"
    | Raise e => Raise e
    end in
  match PyVal.or_else from_env from_config with
  | Raise e => Raise e
  | Ok api_key =>
      if negb (PyVal.truthy api_key) then Raise ValueError else Ok api_key
  end.

(** ** [create_directories] *)

(** The directories asked of [Path(...).mkdir(parents=True,
    exist_ok=True)], as the strings given to [Path], most recent first. *)
Record Disk : Type := {
  mkdir_fault : nat -> option exn;
  mkdir_calls : nat;
  made : list string
}.

Definition mkdir (path : string) (d : Disk) : outcome unit * Disk :=
  match mkdir_fault d (mkdir_calls d) with
  | Some e =>
      (Raise e, {| mkdir_fault := mkdir_fault d;
                   mkdir_calls := S (mkdir_calls d);
                   made := made d |})
  | None =>
      (Ok tt, {| mkdir_fault := mkdir_fault d;
                 mkdir_calls := S (mkdir_calls d);
                 made := path :: made d |})
  end.

(** The directory [create_directories] asks for one size. *)
Definition size_directory (g : Generator) (sc : SizeConfig) : string :=
  output_dir g ++ "/" ++ size_name sc.

(** The [for] loop of [create_directories]. *)
Fixpoint create_size_directories (g : Generator) (todo : list SizeConfig)
    (d : Disk) : outcome unit * Disk :=
  match todo with
  | [] => (Ok tt, d)
  | sc :: rest =>
      match mkdir (size_directory g sc) d with
      | (Ok _, d') => create_size_directories g rest d'
      | (Raise e, d') => (Raise e, d')
      end
  end.

Definition create_directories (g : Generator) (d : Disk)
    : outcome unit * Disk :=
  match mkdir (output_dir g) d with
  | (Ok _, d') =>
      create_size_directories g (sizes (image_variants (config g))) d'
  | (Raise e, d') => (Raise e, d')
  end.

(** ** [send_notification] *)

(** How a [requests.post] ends: a response with its status code, or an
    exception with its text. *)
Inductive reply : Type :=
| Responded (status_code : Z)
| Refused (text : string).

(** The console and the network, as [send_notification] uses them. *)
Record Outbox : Type := {
  (** the arguments of [print], most recent first *)
  printed : list string;
  (** how the n-th [requests.post] ends *)
  post_reply : nat -> reply;
  post_calls : nat;
  (** the posts attempted: url, message and results, most recent first *)
  posted : list (json * string * list GenerationResult)
}.

Definition print (line : string) (o : Outbox) : Outbox :=
  {| printed := line :: printed o; post_reply := post_reply o;
     post_calls := post_calls o; posted := posted o |}.

(** The inner loop: one line per variant. *)
Definition add_variant (message : string) (variant : VariantResult) : string :=
  message ++ "  - " ++ vr_name variant ++ ": " ++ vr_url variant
  ++ PyVal.newline.

(** The body of the outer loop. *)
Definition add_result (message : string) (result : GenerationResult) : string :=
  let message := message ++ "Prompt: " ++ gr_prompt result ++ PyVal.newline in
  let message :=
    message ++ "Generated at: " ++ gr_timestamp result ++ PyVal.newline in
  let message := message ++ "Variants:" ++ PyVal.newline in
  let message := fold_left add_variant (gr_variants result) message in
  message ++ PyVal.newline.

Definition notification_header : string :=
  "Image Generation Complete!" ++ PyVal.newline ++ PyVal.newline.

(** The message [send_notification] builds. *)
Definition notification_message (results : list GenerationResult) : string :=
  fold_left add_result results notification_header.

Definition rule : string := PyVal.times "=" 60.

(** The [try] block around [requests.post]: the exception is caught and
    reported. *)
Definition post_webhook (webhook_url : json) (message : string)
    (results : list GenerationResult) (o : Outbox) : Outbox :=
  let o' := {| printed := printed o; post_reply := post_reply o;
               post_calls := S (post_calls o);
               posted := (webhook_url, message, results) :: posted o |} in
  match post_reply o (post_calls o) with
  | Responded status_code =>
      print ("Webhook notification sent: " ++ Py.str status_code) o'
  | Refused text => print ("Error sending webhook: " ++ text) o'
  end.

(** [cfg] is [self.config]. *)
Definition send_notification (cfg : json) (results : list GenerationResult)
    (o : Outbox) : outcome unit * Outbox :=
  match PyVal.get cfg "notification" (JObj []) with
  | Raise e => (Raise e, o)
  | Ok notification_config =>
      match PyVal.get notification_config "enabled" (JBool false) with
      | Raise e => (Raise e, o)
      | Ok enabled =>
          if negb (PyVal.truthy enabled) then
            (Ok tt, print (PyVal.newline ++ "Notifications disabled") o)
          else
            let message := notification_message results in
            let o1 := print message
                        (print rule
                           (print "NOTIFICATION"
                              (print (PyVal.newline ++ rule) o))) in
            match PyVal.get notification_config "webhook_url" JNull with
            | Raise e => (Raise e, o1)
            | Ok webhook_url =>
                if PyVal.truthy webhook_url
                then (Ok tt, post_webhook webhook_url message results o1)
                else (Ok tt, o1)
            end
      end
  end.

(** * The setup script

    [setup_script.py]: what it writes, what it asks and what it leaves
    alone.  Console output is left out, as for the generator. *)

Module SetupScript.

(** [s.lower()] on ASCII text *)
Definition lower_char (c : ascii) : ascii :=
  let n := nat_of_ascii c in
  if (65 <=? n)%nat && (n <=? 90)%nat then ascii_of_nat (n + 32) else c.

Fixpoint lower (s : string) : string :=
  match s with
  | EmptyString => EmptyString
  | String c rest => String (lower_char c) (lower rest)
  end.

(** What a file written by the script holds. *)
Inductive content : Type :=
| ConfigFile (doc : json)
| EnvFile (text : string)
| LogoFile.

(** Why the script stops before its end: [input] met the end of the
    input, or an exception was raised and not caught. *)
Inductive stop : Type :=
| EndOfInput
| Uncaught (e : exn).

Inductive ended : Type :=
| Returned
| Stopped (why : stop).

Record Desk : Type := {
  (** [os.path.exists] *)
  present : string -> bool;
  (** what [input] will return, in order *)
  answers : list string;
  (** whether [open(path, 'w')] fails *)
  open_fault : string -> option exn;
  (** whether [Path(path).mkdir] fails *)
  make_fault : string -> option exn;
  (** whether drawing or saving the logo fails *)
  logo_fault : option exn;
  (** the files written, most recent first *)
  written : list (string * content);
  (** the directories asked for, most recent first *)
  directories : list string
}.

Definition now_present (path : string) (d : Desk) : string -> bool :=
  fun p => (p =? path) || present d p.

(** [with open(path, 'w') as f: ...] *)
Definition write_file (path : string) (c : content) (d : Desk) : ended * Desk :=
  match open_fault d path with
  | Some e => (Stopped (Uncaught e), d)
  | None =>
      (Returned,
       {| present := now_present path d; answers := answers d;
          open_fault := open_fault d; make_fault := make_fault d;
          logo_fault := logo_fault d;
          written := (path, c) :: written d;
          directories := directories d |})
  end.

Definition json_size (n : string) (w h : Z) (description : string) : json :=
  JObj [("name", JStr n); ("width", JNum w); ("height", JNum h);
        ("description", JStr description)].

(** The dictionary [create_config] dumps. *)
Definition config : json :=
  JObj [("api", JObj [("gemini_api_key", JStr "YOUR_GEMINI_API_KEY_HERE")]);
        ("brand",
         JObj [("name", JStr "TechBrand Inc.");
               ("colors", JArr [JStr "#0066CC"; JStr "#00A3E0"; JStr "#FFFFFF"]);
               ("style_keywords",
                JStr "modern, clean, professional, minimalist");
               ("logo_path", JStr "assets/logo.png")]);
        ("image_variants",
         JObj [("format", JStr "jpg");
               ("sizes",
                JArr [json_size "social_square" 1080 1080
                        "Instagram/Facebook square post";
                      json_size "social_story" 1080 1920
                        "Instagram/Facebook story";
                      json_size "web_banner" 1920 1080
                        "Website banner/hero image";
                      json_size "email_header" 600 200 "Email header image";
                      json_size "thumbnail" 400 400 "Thumbnail/preview"])]);
        ("storage",
         JObj [("output_directory", JStr "generated_images");
               ("organize_by_date", JBool true)]);
        ("notification",
         JObj [("enabled", JBool true); ("webhook_url", JStr "");
               ("email", JStr "")])].

Definition create_config (d : Desk) : ended * Desk :=
  write_file "config.json" (ConfigFile config) d.

Definition env_content : string :=
  "# Gemini API Key" ++ PyVal.newline
  ++ "GEMINI_API_KEY=your_gemini_api_key_here" ++ PyVal.newline
  ++ PyVal.newline
  ++ "# Optional: Webhook URL for notifications" ++ PyVal.newline
  ++ "WEBHOOK_URL=https://your-webhook-url.com/notify" ++ PyVal.newline.

Definition create_env_file (d : Desk) : ended * Desk :=
  write_file ".env" (EnvFile env_content) d.

Definition dirs : list string :=
  ["assets";
   "generated_images";
   "generated_images/social_square";
   "generated_images/social_story";
   "generated_images/web_banner";
   "generated_images/email_header";
   "generated_images/thumbnail"].

(** [Path(dir_path).mkdir(parents=True, exist_ok=True)] *)
Definition make_directory (path : string) (d : Desk) : ended * Desk :=
  match make_fault d path with
  | Some e => (Stopped (Uncaught e), d)
  | None =>
      (Returned,
       {| present := now_present path d; answers := answers d;
          open_fault := open_fault d; make_fault := make_fault d;
          logo_fault := logo_fault d;
          written := written d;
          directories := path :: directories d |})
  end.

Fixpoint make_directories (todo : list string) (d : Desk) : ended * Desk :=
  match todo with
  | [] => (Returned, d)
  | dir_path :: rest =>
      match make_directory dir_path d with
      | (Returned, d') => make_directories rest d'
      | (Stopped why, d') => (Stopped why, d')
      end
  end.

Definition create_directories (d : Desk) : ended * Desk :=
  make_directories dirs d.

(** The whole body is inside [try: ... except Exception]. *)
Definition create_placeholder_logo (d : Desk) : ended * Desk :=
  match logo_fault d with
  | Some _ => (Returned, d)
  | None =>
      (Returned,
       {| present := now_present "assets/logo.png" d; answers := answers d;
          open_fault := open_fault d; make_fault := make_fault d;
          logo_fault := logo_fault d;
          written := ("assets/logo.png", LogoFile) :: written d;
          directories := directories d |})
  end.

(** [input(...)] *)
Definition input (d : Desk) : option string * Desk :=
  match answers d with
  | [] => (None, d)
  | a :: rest =>
      (Some a,
       {| present := present d; answers := rest;
          open_fault := open_fault d; make_fault := make_fault d;
          logo_fault := logo_fault d;
          written := written d; directories := directories d |})
  end.

(** The block [main] runs for [config.json] and again for [.env]:
    create the file, after asking when it is there already. *)
Definition create_or_ask (path : string) (create : Desk -> ended * Desk)
    (d : Desk) : ended * Desk :=
  if present d path then
    match input d with
    | (None, d') => (Stopped EndOfInput, d')
    | (Some response, d') =>
        if negb (lower response =? "y") then (Returned, d') else create d'
    end
  else create d.

Definition main (d : Desk) : ended * Desk :=
  match create_or_ask "config.json" create_config d with
  | (Stopped why, d1) => (Stopped why, d1)
  | (Returned, d1) =>
      match create_or_ask ".env" create_env_file d1 with
      | (Stopped why, d2) => (Stopped why, d2)
      | (Returned, d2) =>
          match create_directories d2 with
          | (Stopped why, d3) => (Stopped why, d3)
          | (Returned, d3) =>
              if negb (present d3 "assets/logo.png")
              then create_placeholder_logo d3
              else (Returned, d3)
          end
      end
  end.

End SetupScript.

(** [d'] comes from [d] by steps of the script that write files at
    [paths] only: the faults are those of [d], what was there is still
    there, the answers left are a tail of those of [d], and the files and
    directories of [d] are below the new ones. *)
Definition setup_step (paths : list string)
    (d d' : SetupScript.Desk) : Prop :=
  SetupScript.open_fault d' = SetupScript.open_fault d
  /\ SetupScript.make_fault d' = SetupScript.make_fault d
  /\ SetupScript.logo_fault d' = SetupScript.logo_fault d
  /\ (forall q, SetupScript.present d q = true ->
                SetupScript.present d' q = true)
  /\ (exists used,
        SetupScript.answers d = (used ++ SetupScript.answers d')%list)
  /\ (exists new,
        SetupScript.written d' = (new ++ SetupScript.written d)%list
        /\ Forall (fun f => In (fst f) paths) new)
  /\ exists made,
      SetupScript.directories d'
      = (made ++ SetupScript.directories d)%list.

(** The line of the message for one variant, and the block for one
    result. *)
Definition variant_line (variant : VariantResult) : string :=
  "  - " ++ vr_name variant ++ ": " ++ vr_url variant ++ PyVal.newline.

Definition result_block (result : GenerationResult) : string :=
  "Prompt: " ++ gr_prompt result ++ PyVal.newline
  ++ "Generated at: " ++ gr_timestamp result ++ PyVal.newline
  ++ "Variants:" ++ PyVal.newline
  ++ String.concat "" (map variant_line (gr_variants result))
  ++ PyVal.newline.

(** * More configurations and worlds *)

Module Cases.

(** Two variants that share the name ["thumb"]. *)
Definition duplicate_thumb : Generator :=
  {| config :=
       {| brand := brand Scenario.summer_config;
          image_variants :=
            {| format := "jpg";
               sizes := [Scenario.size "thumb" 400 400;
                         Scenario.size "thumb" 600 200] |} |};
     brand_colors := ["#0066CC"];
     output_dir := "generated_images";
     logo_path := None |}.

(** The scenario of the specification with other sizes. *)
Definition with_sizes (szs : list SizeConfig) : Generator :=
  {| config :=
       {| brand := brand Scenario.summer_config;
          image_variants := {| format := "jpg"; sizes := szs |} |};
     brand_colors := ["#0066CC"];
     output_dir := "generated_images";
     logo_path := None |}.

(** An object on which [load_config] has not run yet. *)
Definition unset : Attributes :=
  {| self_config := None; self_brand_colors := None;
     self_output_dir := None; self_logo_path := None |}.

(** The first rendering fails. *)
Definition first_render_fails : @World Scenario.imaging :=
  Scenario.world Scenario.no_colors_json (Raise OSError)
    (Scenario.fault_at 0 ValueError) Scenario.no_fault.

Definition sample_variant : VariantResult :=
  {| vr_name := "thumb"; vr_size := "400x400";
     vr_path := "generated_images/thumb/a.jpg";
     vr_url := "file:///srv/app/generated_images/thumb/a.jpg" |}.

Definition sample_result : GenerationResult :=
  {| gr_prompt := "Summer sale";
     gr_timestamp := "2024-06-01T12:00:01";
     gr_variants := [sample_variant] |}.


(** An empty directory; the logo cannot be drawn. *)
Definition empty_desk : SetupScript.Desk :=
  {| SetupScript.present := fun _ => false;
     SetupScript.answers := [];
     SetupScript.open_fault := fun _ => None;
     SetupScript.make_fault := fun _ => None;
     SetupScript.logo_fault := Some OSError;
     SetupScript.written := [];
     SetupScript.directories := [] |}.

End Cases.

(** * Reference functions

    Pure descriptions of what the methods compute; the properties below
    relate the methods to them. *)

Section Reference.

Context {PIL : Imaging}.

(** The branded image on the path where every step succeeds. *)
Definition composed (img logo : Image) (target : Z * Z) : Image :=
  convert RGB
    (paste (convert RGBA (copy img)) logo (logo_position img target)).

(** What [apply_branding] returns, as a function of what the world
    holds at the logo path. *)
Definition branded (g : Generator) (img : Image) (w : World) : Image :=
  match logo_path g with
  | None => img
  | Some path =>
      if Py.truthy path && path_exists w path then
        match image_file w path with
        | Raise _ => img
        | Ok opened =>
            let logo := convert RGBA opened in
            match logo_target_size img logo with
            | Raise _ => img
            | Ok target =>
                match resize target logo with
                | Raise _ => img
                | Ok logo' => composed img logo' target
                end
            end
        end
      else img
  end.

(** [z] is the float [x] with its fractional part dropped. *)
Definition truncates (x : spec_float) (z : Z) : Prop :=
  match x with
  | S754_zero _ => z = 0%Z
  | S754_finite s m e =>
      (if s then (z <= 0)%Z else (0 <= z)%Z)
      /\ (Z.abs z * 2 ^ Z.max 0 (- e) <= Zpos m * 2 ^ Z.max 0 e
          < (Z.abs z + 1) * 2 ^ Z.max 0 (- e))%Z
  | _ => False
  end.

(** [z] is an integer nearest to the fraction [num / den]. *)
Definition nearest (z num den : Z) : Prop :=
  (Z.abs (2 * (z * den - num)) <= Z.abs den)%Z.

(** The path under which one variant is stored. *)
Definition variant_path (g : Generator) (prompt_name timestamp : string)
    (sc : SizeConfig) : string :=
  OsPath.join (output_dir g)
    [size_name sc; variant_filename g prompt_name (size_name sc) timestamp].

(** The entry appended to [variants] for one size. *)
Definition variant_result (g : Generator) (prompt_name timestamp cwd : string)
    (sc : SizeConfig) : VariantResult :=
  {| vr_name := size_name sc;
     vr_size := Py.str (size_width sc) ++ "x" ++ Py.str (size_height sc);
     vr_path := variant_path g prompt_name timestamp sc;
     vr_url := "file://"
               ++ OsPath.abspath cwd (variant_path g prompt_name timestamp sc) |}.

(** Both sides of a configured size are at least 1. *)
Definition positive_size (sc : SizeConfig) : Prop :=
  (1 <= size_width sc)%Z /\ (1 <= size_height sc)%Z.

(** A configured size that [resize] accepts for an image of size
    [from]: that very size, or one with both sides at least 1 and within
    a C [int] that the library has the memory to resample to. *)
Definition resizable (from : Z * Z) (sc : SizeConfig) : Prop :=
  (size_width sc, size_height sc) = from
  \/ ((1 <= size_width sc <= 2147483647)%Z
      /\ (1 <= size_height sc <= 2147483647)%Z
      /\ resample_fault from (size_width sc, size_height sc) = None).

(** The file found at [path] after the writes recorded in [files], most
    recent first: the last one written there. *)
Fixpoint stored_in (files : list (string * Image)) (path : string)
    : option Image :=
  match files with
  | [] => None
  | (p, img) :: rest => if p =? path then Some img else stored_in rest path
  end.

Definition stored (w : World) (path : string) : option Image :=
  stored_in (saved w) path.

(** ['/' in s] *)
Fixpoint has_slash (s : string) : bool :=
  match s with
  | EmptyString => false
  | String c rest => Ascii.eqb c "/" || has_slash rest
  end.

(** [w'] is [w] after [dc] readings of the clock, [dp] renderings and
    [ds] saves: what the world answers is unchanged. *)
Definition advances (w w' : World) (dc dp ds : nat) : Prop :=
  now_at w' = now_at w /\ getcwd w' = getcwd w
  /\ path_exists w' = path_exists w /\ image_file w' = image_file w
  /\ json_file w' = json_file w
  /\ render_fault w' = render_fault w /\ save_fault w' = save_fault w
  /\ clock_reads w' = clock_reads w + dc
  /\ provider_calls w' = provider_calls w + dp
  /\ save_calls w' = save_calls w + ds.

(** Whether the base image of the [k]-th prompt from now is provided:
    there is a first brand colour and the rendering does not fail. *)
Definition provision_ok (g : Generator) (w : World) (k : nat) : bool :=
  match brand_colors g with
  | [] => false
  | _ :: _ =>
      match render_fault w (provider_calls w + k) with
      | None => true
      | Some _ => false
      end
  end.

(** The entries of a batch whose base image is provided, in order. *)
Fixpoint provisioned (g : Generator) (w : World) (k : nat)
    (prompts : list prompt_data) : list prompt_data :=
  match prompts with
  | [] => []
  | entry :: rest =>
      if provision_ok g w k then entry :: provisioned g w (S k) rest
      else provisioned g w (S k) rest
  end.

Definition prompt_text (entry : prompt_data) : string :=
  match entry with
  | PromptText prompt => prompt
  | PromptDict prompt _ => prompt
  end.

(** The result of a prompt processed under [name] by a world that
    started as [w] and has read the clock [c] times since. *)
Definition expected_result (g : Generator) (w : World) (c : nat)
    (prompt : string) (name : option string) : GenerationResult :=
  {| gr_prompt := prompt;
     gr_timestamp := isoformat (now_at w (clock_reads w + c + 1));
     gr_variants :=
       map (variant_result g (resolve_name prompt name)
              (strftime_compact (now_at w (clock_reads w + c))) (getcwd w))
           (sizes (image_variants (config g))) |}.

(** The results of a batch when no export fails: one for each entry
    whose base image is provided.  [i] is the index of [enumerate], [k]
    the number of entries already handled and [c] the number of clock
    readings already made. *)
Fixpoint expected_results (g : Generator) (w : World) (i k c : nat)
    (prompts : list prompt_data) : list GenerationResult :=
  match prompts with
  | [] => []
  | entry :: rest =>
      if provision_ok g w k then
        expected_result g w c (fst (entry_prompt_name i entry))
          (Some (snd (entry_prompt_name i entry)))
        :: expected_results g w (S i) (S k) (c + 2) rest
      else expected_results g w (S i) (S k) c rest
  end.

(** An entry that gives no name: a bare string, or a dict without the
    ['name'] key. *)
Definition unnamed (entry : prompt_data) : Prop :=
  match entry with
  | PromptText _ => True
  | PromptDict _ None => True
  | PromptDict _ (Some _) => False
  end.

(** The list of results after one more [process_prompt]. *)
Definition collect (results : list GenerationResult)
    (result : option GenerationResult) : list GenerationResult :=
  match result with
  | Some r => (results ++ [r])%list
  | None => results
  end.

End Reference.

(** * Properties *)

(** ** Strings *)

Lemma prefix_app (p s : string) : String.prefix p (p ++ s) = true.
Proof.
  induction p as [|c p IH]; simpl.
  - destruct s; reflexivity.
  - rewrite IH. destruct (ascii_dec c c) as [_|N]; [reflexivity|contradiction].
Qed.

Lemma app_assoc_string (a b c : string) : (a ++ b) ++ c = a ++ (b ++ c).
Proof. induction a as [|x a IH]; simpl; [reflexivity|now rewrite IH]. Qed.

Lemma app_empty_r (a : string) : a ++ "" = a.
Proof. induction a as [|x a IH]; simpl; [reflexivity|now rewrite IH]. Qed.

Lemma occurs_in_join (sep c : string) (l : list string) :
  In c l -> Py.occurs_in c (Py.join sep l).
Proof.
  unfold Py.join, Py.occurs_in.
  induction l as [|x l IH]; intros Hin; [contradiction|].
  destruct Hin as [->|Hin].
  - destruct l as [|y l]; simpl.
    + exists "", "". now rewrite app_empty_r.
    + exists "", (sep ++ String.concat sep (y :: l)). reflexivity.
  - destruct (IH Hin) as (before & after & E).
    destruct l as [|y l]; [contradiction|].
    exists (x ++ sep ++ before), after.
    change (String.concat sep (x :: y :: l)) with (x ++ sep ++ String.concat sep (y :: l)).
    rewrite E. now rewrite !app_assoc_string.
Qed.

Lemma occurs_in_context (t s before after : string) :
  Py.occurs_in t s -> Py.occurs_in t (before ++ s ++ after).
Proof.
  intros (b & a & ->). exists (before ++ b), (a ++ after).
  now rewrite !app_assoc_string.
Qed.

(** ** C1: prompt enhancement *)

(** C1. For every generator with at least one brand colour and every
    user prompt, [enhance_prompt_with_brand] returns the prompt, the style
    keywords, "using colors: " with the comma-joined colours and the fixed
    qualifiers, joined by ", "; the result starts with the prompt and
    contains every brand colour verbatim; on the "Summer sale" scenario it
    is the string the specification gives. *)
Theorem enhance_prompt_with_brand_spec :
  (forall (g : Generator) (user_prompt : string),
      brand_colors g <> [] ->
      enhance_prompt_with_brand g user_prompt
      = user_prompt ++ ", " ++ style_keywords (brand (config g))
        ++ ", using colors: " ++ Py.join ", " (brand_colors g)
        ++ ", professional marketing image, high quality, detailed"
      /\ Py.startswith (enhance_prompt_with_brand g user_prompt) user_prompt = true
      /\ forall c, In c (brand_colors g) ->
           Py.occurs_in c (enhance_prompt_with_brand g user_prompt))
  /\ enhance_prompt_with_brand Scenario.summer "Summer sale"
     = "Summer sale, modern, clean, using colors: #0066CC, #00A3E0, #FFFFFF, professional marketing image, high quality, detailed".
Proof.
  split; [|reflexivity].
  intros g user_prompt _. unfold enhance_prompt_with_brand. cbv zeta.
  split; [|split].
  - now rewrite !app_assoc_string.
  - apply prefix_app.
  - intros c Hc.
    pose proof (occurs_in_context c (Py.join ", " (brand_colors g))
                  (user_prompt ++ ", " ++ style_keywords (brand (config g))
                   ++ ", using colors: ")
                  ", professional marketing image, high quality, detailed"
                  (occurs_in_join ", " c _ Hc)) as Hocc.
    now rewrite !app_assoc_string in Hocc.
Qed.

(** ** The brand compositor *)

Section Branding.

Context {PIL : Imaging}.

Lemma convert_size (m : mode) (img : Image) :
  image_size (convert m img) = image_size img.
Proof. reflexivity. Qed.

Lemma paste_size (base overlay : Image) (position : Z * Z) :
  image_size (paste base overlay position) = image_size base.
Proof. reflexivity. Qed.

Lemma resize_size (size : Z * Z) (img out : Image) :
  resize size img = Ok out -> image_size out = size.
Proof.
  destruct size as [w h]. unfold resize, image_size.
  destruct (Z.eqb w (width img) && Z.eqb h (height img)) eqn:Esame.
  - apply andb_prop in Esame as [Ew Eh].
    apply Z.eqb_eq in Ew, Eh. intros [= <-]. unfold copy. congruence.
  - destruct (negb (c_int w && c_int h)); [discriminate|].
    destruct (Z.ltb w 1 || Z.ltb h 1); [discriminate|].
    destruct (resample_fault _ _); [discriminate|].
    intros [= <-]. reflexivity.
Qed.

(** [apply_branding] never raises and never changes the world. *)
Lemma apply_branding_returns (g : Generator) (img : Image) (w : World) :
  apply_branding g img w = (Ok (branded g img w), w).
Proof.
  unfold apply_branding, branded.
  destruct (logo_path g) as [path|]; [|reflexivity].
  destruct (Py.truthy path); [|reflexivity].
  unfold bind, gets, try_except, image_open, lift, ret. cbn [negb andb].
  destruct (path_exists w path); [|reflexivity]. cbn [negb].
  destruct (image_file w path) as [opened|e]; [|reflexivity].
  destruct (logo_target_size img (convert RGBA opened)) as [target|e];
    [|reflexivity].
  destruct (resize target (convert RGBA opened)) as [logo'|e]; reflexivity.
Qed.

Lemma branded_size (g : Generator) (img : Image) (w : World) :
  image_size (branded g img w) = image_size img.
Proof.
  unfold branded.
  destruct (logo_path g) as [path|]; [|reflexivity].
  destruct (Py.truthy path && path_exists w path); [|reflexivity].
  destruct (image_file w path) as [opened|e]; [|reflexivity].
  destruct (logo_target_size img (convert RGBA opened)) as [target|e];
    [|reflexivity].
  destruct (resize target (convert RGBA opened)) as [logo'|e]; reflexivity.
Qed.

End Branding.

(** ** C5: no usable logo *)

(** C5. For every image: if the logo path is unset (absent or empty),
    or names no existing file, or names a file that cannot be read as an
    image, [apply_branding] returns the very image it was given, raises
    nothing and leaves the world as it was. *)
Theorem apply_branding_without_logo `{PIL : Imaging}
    (g : Generator) (img : Image) (w : World) :
  (logo_path g = None
   \/ exists path, logo_path g = Some path
        /\ (path = "" \/ path_exists w path = false
            \/ exists e, image_file w path = Raise e)) ->
  apply_branding g img w = (Ok img, w).
Proof.
  intros H. rewrite apply_branding_returns. f_equal. f_equal.
  unfold branded.
  destruct H as [->|(path & -> & H)]; [reflexivity|].
  destruct H as [->|[->|(e & ->)]].
  - reflexivity.
  - now rewrite andb_false_r.
  - now destruct (Py.truthy path && path_exists w path).
Qed.

(** ** C7: branding keeps the dimensions *)

(** C7. For every input image, whatever the logo, [apply_branding]
    returns an image with exactly the width and height of its input; with
    a logo file that opens and scales, that image is the input with the
    scaled logo composited onto it. *)
Theorem apply_branding_keeps_size `{PIL : Imaging}
    (g : Generator) (img : Image) (w : World) :
  exists out,
    apply_branding g img w = (Ok out, w)
    /\ width out = width img /\ height out = height img
    /\ forall path opened target logo',
         logo_path g = Some path -> Py.truthy path = true ->
         path_exists w path = true ->
         image_file w path = Ok opened ->
         logo_target_size img (convert RGBA opened) = Ok target ->
         resize target (convert RGBA opened) = Ok logo' ->
         out = composed img logo' target.
Proof.
  exists (branded g img w). split; [apply apply_branding_returns|].
  pose proof (branded_size g img w) as Hsize. unfold image_size in Hsize.
  injection Hsize as Hw Hh. repeat split; try assumption.
  intros path opened target logo' Hp Ht He Ho Htg Hr.
  unfold branded. now rewrite Hp, Ht, He, Ho, Htg, Hr.
Qed.

(** ** C6: the size the logo is scaled to *)

Lemma to_int_truncates (x : spec_float) (z : Z) :
  PyFloat.to_int x = Ok z -> truncates x z.
Proof.
  destruct x as [s| s| |s m e]; unfold PyFloat.to_int, truncates;
    try discriminate.
  - now intros [= <-].
  - intros H.
    set (a := if Z.leb 0 e then (Zpos m * 2 ^ e)%Z
              else (Zpos m / 2 ^ (- e))%Z) in H.
    assert (0 <= a
            /\ a * 2 ^ Z.max 0 (- e) <= Zpos m * 2 ^ Z.max 0 e
               < (a + 1) * 2 ^ Z.max 0 (- e))%Z as [Ha0 Ha].
    { subst a. destruct (Z.leb 0 e) eqn:Ee.
      - apply Z.leb_le in Ee.
        assert (0 < 2 ^ e)%Z by (apply Z.pow_pos_nonneg; lia).
        rewrite (Z.max_r 0 e), (Z.max_l 0 (- e)) by lia.
        change (2 ^ 0)%Z with 1%Z. nia.
      - apply Z.leb_gt in Ee.
        rewrite (Z.max_l 0 e), (Z.max_r 0 (- e)) by lia.
        change (2 ^ 0)%Z with 1%Z.
        assert (0 < 2 ^ (- e))%Z as Hd by (apply Z.pow_pos_nonneg; lia).
        pose proof (Z.div_pos (Zpos m) _ ltac:(lia) Hd) as Hq.
        pose proof (Z.mul_div_le (Zpos m) _ Hd) as Hlo.
        pose proof (Z.mul_succ_div_gt (Zpos m) _ Hd) as Hhi.
        lia. }
    clearbody a.
    destruct s; injection H as <-; (split; [lia|]).
    + rewrite Z.abs_opp, Z.abs_eq by lia. exact Ha.
    + rewrite Z.abs_eq by lia. exact Ha.
Qed.

(** [branded] when the logo file is there and opens. *)
Lemma branded_with_logo `{PIL : Imaging} (g : Generator) (img opened : Image)
    (w : World) (path : string) :
  logo_path g = Some path -> Py.truthy path = true ->
  path_exists w path = true -> image_file w path = Ok opened ->
  branded g img w
  = match logo_target_size img (convert RGBA opened) with
    | Raise _ => img
    | Ok target =>
        match resize target (convert RGBA opened) with
        | Raise _ => img
        | Ok logo' => composed img logo' target
        end
    end.
Proof.
  intros Hpath Htruthy Hexists Hopen. unfold branded.
  now rewrite Hpath, Htruthy, Hexists, Hopen.
Qed.

(** C6, as the code has it. For every base image and every valid logo
    (the path is set, the file exists and opens, its width is not zero),
    the width asked of [logo.resize] is the base width integer-divided by
    10 (10% rounded down, exact only for a multiple of 10), and the height
    is [logo.height * (logo_width / logo.width)] evaluated in binary64 and
    truncated toward zero by [int]; the logo that [resize] returns has
    exactly that size and is what [apply_branding] composites.  When the
    float product is not finite or [resize] refuses the size, nothing is
    scaled and the input comes back. *)
Theorem logo_target_size_spec `{PIL : Imaging}
    (g : Generator) (img opened : Image) (w : World) (path : string) :
  logo_path g = Some path -> Py.truthy path = true ->
  path_exists w path = true -> image_file w path = Ok opened ->
  width opened <> 0%Z ->
  let logo := convert RGBA opened in
  let logo_width := (width img / 10)%Z in
  (10 * logo_width <= width img < 10 * logo_width + 10)%Z
  /\ exists logo_ratio,
       PyFloat.true_div logo_width (width logo) = Ok logo_ratio
       /\ match PyFloat.to_int
                  (PyFloat.mul (PyFloat.of_int (height logo)) logo_ratio) with
          | Ok logo_height =>
              logo_target_size img logo = Ok (logo_width, logo_height)
              /\ truncates (PyFloat.mul (PyFloat.of_int (height logo)) logo_ratio)
                           logo_height
              /\ match resize (logo_width, logo_height) logo with
                 | Ok logo' =>
                     width logo' = logo_width /\ height logo' = logo_height
                     /\ apply_branding g img w
                        = (Ok (composed img logo' (logo_width, logo_height)), w)
                 | Raise _ => apply_branding g img w = (Ok img, w)
                 end
          | Raise _ => apply_branding g img w = (Ok img, w)
          end.
Proof.
  intros Hpath Htruthy Hexists Hopen Hw logo logo_width. split.
  - subst logo_width.
    pose proof (Z.mul_div_le (width img) 10 ltac:(lia)).
    pose proof (Z.mul_succ_div_gt (width img) 10 ltac:(lia)). lia.
  - rewrite apply_branding_returns,
      (branded_with_logo g img opened w path Hpath Htruthy Hexists Hopen).
    fold logo. unfold logo_target_size. fold logo_width.
    unfold PyFloat.true_div.
    change (width logo) with (width opened).
    destruct (Z.eqb (width opened) 0) eqn:E0;
      [apply Z.eqb_eq in E0; contradiction|].
    eexists. split; [reflexivity|].
    destruct (PyFloat.to_int _) as [logo_height|e] eqn:Eint; [|reflexivity].
    split; [reflexivity|]. split; [now apply to_int_truncates|].
    destruct (resize (logo_width, logo_height) logo) as [logo'|e] eqn:Hr;
      [|reflexivity].
    apply resize_size in Hr. unfold image_size in Hr.
    injection Hr as Hw' Hh'. repeat split; assumption.
Qed.

(** Closes [advances w w'] when [w'] is written out as a record. *)
Ltac advances_by_fields := unfold advances; cbn; repeat split; lia.

(** Closes [resizable from sc] and [Forall (resizable from) sizes] on
    concrete sizes that are resampled. *)
Ltac resizable_size :=
  right; split; [cbn; lia|split; [cbn; lia|reflexivity]].

Ltac resizable_sizes :=
  repeat first [apply Forall_nil | apply Forall_cons; [resizable_size|]].

Section Exporter.

Context {PIL : Imaging}.

Lemma advances_refl (w : World) : advances w w 0 0 0.
Proof. unfold advances. rewrite !Nat.add_0_r. repeat split. Qed.

Lemma advances_trans (w1 w2 w3 : World) (c p s c' p' s' : nat) :
  advances w1 w2 c p s -> advances w2 w3 c' p' s' ->
  advances w1 w3 (c + c') (p + p') (s + s').
Proof.
  unfold advances.
  intros (A1 & A2 & A3 & A4 & A5 & A6 & A7 & A8 & A9 & A10)
         (B1 & B2 & B3 & B4 & B5 & B6 & B7 & B8 & B9 & B10).
  repeat split; try congruence; lia.
Qed.

Lemma c_int_range (z : Z) :
  c_int z = true <-> (-2147483648 <= z <= 2147483647)%Z.
Proof.
  unfold c_int. rewrite andb_true_iff, !Z.leb_le. reflexivity.
Qed.

(** [resize] returns an image exactly for the sizes [resizable]
    describes. *)
Lemma resize_accepts (sc : SizeConfig) (img : Image) :
  resizable (image_size img) sc <->
  exists out, resize (size_width sc, size_height sc) img = Ok out.
Proof.
  unfold resizable, resize, image_size. split.
  - intros [E|(Hw & Hh & Hfit)].
    + injection E as -> ->. rewrite !Z.eqb_refl. cbn [andb]. eauto.
    + destruct (_ && _); [eauto|].
      rewrite (proj2 (c_int_range (size_width sc))) by lia.
      rewrite (proj2 (c_int_range (size_height sc))) by lia.
      cbn [andb negb].
      destruct (Z.ltb_spec (size_width sc) 1); [lia|].
      destruct (Z.ltb_spec (size_height sc) 1); [lia|].
      cbn [orb]. rewrite Hfit. eauto.
  - intros [out H].
    destruct (Z.eqb_spec (size_width sc) (width img)) as [Ew|_];
      [destruct (Z.eqb_spec (size_height sc) (height img)) as [Eh|_];
         [left; congruence|]|]; cbn [andb] in H; right.
    all: destruct (c_int (size_width sc)) eqn:Cw; [|discriminate].
    all: destruct (c_int (size_height sc)) eqn:Ch; [|discriminate].
    all: cbn [andb negb] in H.
    all: apply c_int_range in Cw, Ch.
    all: destruct (Z.ltb_spec (size_width sc) 1); [discriminate|].
    all: destruct (Z.ltb_spec (size_height sc) 1); [discriminate|].
    all: cbn [orb] in H.
    all: destruct (resample_fault _ _); [discriminate|].
    all: repeat split; lia.
Qed.

Lemma resize_resizable (sc : SizeConfig) (img : Image) :
  resizable (image_size img) sc ->
  exists out, resize (size_width sc, size_height sc) img = Ok out.
Proof. apply resize_accepts. Qed.

Lemma save_ok (img : Image) (filepath : string) (w : World) :
  save_fault w (save_calls w) = None ->
  exists w', save img filepath w = (Ok tt, w')
             /\ advances w w' 0 0 1
             /\ saved w' = (filepath, img) :: saved w.
Proof.
  intros H. unfold save. rewrite H. eexists. split; [reflexivity|].
  split; [|reflexivity]. advances_by_fields.
Qed.

Lemma save_fails (img : Image) (filepath : string) (w : World) (e : exn) :
  save_fault w (save_calls w) = Some e ->
  exists w', save img filepath w = (Raise e, w')
             /\ advances w w' 0 0 1 /\ saved w' = saved w.
Proof.
  intros H. unfold save. rewrite H. eexists. split; [reflexivity|].
  split; [|reflexivity]. advances_by_fields.
Qed.

Lemma save_advances (img : Image) (filepath : string) (w w' : World)
    (o : outcome unit) :
  save img filepath w = (o, w') -> advances w w' 0 0 1.
Proof.
  unfold save. intros [= _ <-]. advances_by_fields.
Qed.

(** The loop run over a concatenation is the loop over the first part
    followed by the loop over the second. *)
Lemma generate_variants_loop_app (g : Generator) (img : Image)
    (prompt_name timestamp : string) (done todo : list SizeConfig) :
  forall variants w,
    generate_variants_loop g img prompt_name timestamp (done ++ todo)%list
      variants w
    = bind (generate_variants_loop g img prompt_name timestamp done variants)
        (fun vs =>
           generate_variants_loop g img prompt_name timestamp todo vs) w.
Proof.
  induction done as [|sc done IH]; intros variants w.
  - reflexivity.
  - cbn [app generate_variants_loop]. unfold bind, lift, gets in *.
    destruct (resize _ img) as [resized|e]; [|reflexivity].
    destruct (save resized _ w) as [[[]|e] w1]; [|reflexivity].
    apply IH.
Qed.

(** Whatever the loop returns is the list it started from followed by
    one entry per size, in the order of the sizes. *)
Lemma generate_variants_loop_result (g : Generator) (img : Image)
    (prompt_name timestamp : string) (todo : list SizeConfig) :
  forall variants w vs w',
    generate_variants_loop g img prompt_name timestamp todo variants w
    = (Ok vs, w') ->
    vs = (variants
          ++ map (variant_result g prompt_name timestamp (getcwd w)) todo)%list
    /\ advances w w' 0 0 (length todo).
Proof.
  induction todo as [|sc todo IH]; intros variants w vs w'.
  - cbn. intros [= <- <-]. rewrite app_nil_r. split; [reflexivity|].
    apply advances_refl.
  - cbn [generate_variants_loop]. unfold bind, lift, gets.
    destruct (resize _ img) as [resized|e]; [|discriminate].
    destruct (save resized _ w) as [[[]|e] w1] eqn:Esave; [|discriminate].
    intros H. apply IH in H as [-> Hadv].
    apply save_advances in Esave.
    pose proof (advances_trans _ _ _ _ _ _ _ _ _ Esave Hadv) as Hall.
    destruct Esave as (_ & Hcwd & _).
    split; [|exact Hall].
    rewrite Hcwd. cbn [map]. rewrite <- app_assoc. reflexivity.
Qed.

(** With sizes that [resize] accepts and no failing save, the loop
    returns. *)
Lemma generate_variants_loop_ok (g : Generator) (img : Image)
    (prompt_name timestamp : string) (todo : list SizeConfig) :
  forall variants w,
    Forall (resizable (image_size img)) todo ->
    (forall j, j < length todo -> save_fault w (save_calls w + j) = None) ->
    exists vs w',
      generate_variants_loop g img prompt_name timestamp todo variants w
      = (Ok vs, w')
      /\ length (saved w') = length (saved w) + length todo.
Proof.
  induction todo as [|sc todo IH]; intros variants w Hpos Hsave.
  - exists variants, w. split; [reflexivity|]. cbn. lia.
  - inversion Hpos as [|? ? Hsc Hrest]; subst.
    cbn [generate_variants_loop]. unfold bind, lift, gets.
    destruct (resize_resizable sc img Hsc) as [resized ->].
    destruct (save_ok resized
                (OsPath.join (output_dir g)
                   [size_name sc;
                    variant_filename g prompt_name (size_name sc) timestamp])
                w) as (w1 & -> & Hadv & Hsaved).
    { specialize (Hsave 0). rewrite Nat.add_0_r in Hsave.
      apply Hsave. cbn. lia. }
    destruct Hadv as (_ & _ & _ & _ & _ & _ & Hsf & _ & _ & Hsc1).
    match goal with
    | |- context [generate_variants_loop _ _ _ _ todo ?v w1] =>
        destruct (IH v w1 Hrest) as (vs & w' & E & Hlen)
    end.
    { intros j Hj. rewrite Hsf, Hsc1.
      replace (save_calls w + 1 + j) with (save_calls w + S j) by lia.
      apply Hsave. cbn. lia. }
    exists vs, w'. split; [exact E|].
    rewrite Hlen, Hsaved. cbn. lia.
Qed.

Lemma generate_variants_result (g : Generator) (img : Image)
    (prompt_name : string) (w : World) (vs : list VariantResult) (w' : World) :
  generate_variants g img prompt_name w = (Ok vs, w') ->
  vs = map (variant_result g prompt_name
              (strftime_compact (now_at w (clock_reads w))) (getcwd w))
           (sizes (image_variants (config g)))
  /\ advances w w' 1 0 (length (sizes (image_variants (config g)))).
Proof.
  unfold generate_variants, bind, datetime_now. intros H.
  apply generate_variants_loop_result in H as [-> Hadv]. cbn in Hadv |- *.
  split; [reflexivity|].
  unfold advances in *. cbn in Hadv.
  destruct Hadv as (A1 & A2 & A3 & A4 & A5 & A6 & A7 & A8 & A9 & A10).
  repeat split; try assumption; lia.
Qed.

Lemma generate_variants_ok (g : Generator) (img : Image)
    (prompt_name : string) (w : World) :
  Forall (resizable (image_size img)) (sizes (image_variants (config g))) ->
  (forall j, j < length (sizes (image_variants (config g))) ->
             save_fault w (save_calls w + j) = None) ->
  exists vs w', generate_variants g img prompt_name w = (Ok vs, w').
Proof.
  intros Hpos Hsave. unfold generate_variants, bind, datetime_now.
  match goal with
  | |- context [generate_variants_loop _ _ _ ?ts ?todo ?v ?w1] =>
      destruct (generate_variants_loop_ok g img prompt_name ts todo v w1 Hpos)
        as (vs & w' & E & _)
  end.
  - exact Hsave.
  - exists vs, w'. exact E.
Qed.

(** A save that fails after [done] were written: the call raises, the
    files already written stay, no list comes back. *)
Lemma generate_variants_fault (g : Generator) (img : Image)
    (prompt_name : string) (w : World)
    (done : list SizeConfig) (sc : SizeConfig) (todo : list SizeConfig)
    (e : exn) :
  sizes (image_variants (config g)) = (done ++ sc :: todo)%list ->
  Forall (resizable (image_size img)) done -> resizable (image_size img) sc ->
  (forall j, j < length done -> save_fault w (save_calls w + j) = None) ->
  save_fault w (save_calls w + length done) = Some e ->
  exists w',
    generate_variants g img prompt_name w = (Raise e, w')
    /\ length (saved w') = length (saved w) + length done
    /\ advances w w' 1 0 (length done + 1).
Proof.
  intros Hsizes Hdone Hsc Hbefore Hfault.
  unfold generate_variants, bind at 1, datetime_now. rewrite Hsizes.
  rewrite generate_variants_loop_app. unfold bind at 1.
  match goal with
  | |- context [generate_variants_loop _ _ _ ?ts done ?v ?w1] =>
      destruct (generate_variants_loop_ok g img prompt_name ts done v w1 Hdone)
        as (vs & w2 & E & Hlen)
  end.
  { exact Hbefore. }
  rewrite E. apply generate_variants_loop_result in E as [_ Hadv].
  cbn [generate_variants_loop]. unfold bind, lift, gets.
  destruct (resize_resizable sc img Hsc) as [resized ->].
  destruct Hadv as (A1 & A2 & A3 & A4 & A5 & A6 & A7 & A8 & A9 & A10).
  cbn in A1, A2, A3, A4, A5, A6, A7, A8, A9, A10, Hlen.
  match goal with
  | |- context [save resized ?path w2] =>
      destruct (save_fails resized path w2 e) as (w3 & -> & Hadv3 & Hsaved3)
  end.
  { now rewrite A7, A10. }
  exists w3. split; [reflexivity|]. split; [congruence|].
  destruct Hadv3 as (B1 & B2 & B3 & B4 & B5 & B6 & B7 & B8 & B9 & B10).
  unfold advances. repeat split; try congruence; lia.
Qed.

End Exporter.

Lemma Forall2_map_self {A B} (P : A -> B -> Prop) (f : A -> B) (l : list A) :
  (forall a, In a l -> P a (f a)) -> Forall2 P l (map f l).
Proof.
  induction l as [|a l IH]; intros H; cbn; constructor.
  - apply H. now left.
  - apply IH. intros b Hb. apply H. now right.
Qed.

(** ** C8: one timestamp per export *)

(** C8. Within one [generate_variants] call the clock is read once, at
    the start; every variant the call returns is stored under
    [{prompt_name}_{variant name}_{timestamp}.{format}] inside
    [output_dir/variant name], with that one timestamp for all of them.
    When every configured size is one [resize] accepts for the image
    (its own size, or sides from 1 to 2147483647 that the library has the
    memory for) and no save fails, the call returns one variant per
    configured size. *)
Theorem generate_variants_shared_timestamp `{PIL : Imaging}
    (g : Generator) (img : Image) (prompt_name : string) (w : World) :
  let timestamp := strftime_compact (now_at w (clock_reads w)) in
  let all_sizes := sizes (image_variants (config g)) in
  (forall variants w',
      generate_variants g img prompt_name w = (Ok variants, w') ->
      Forall2
        (fun sc v =>
           vr_name v = size_name sc
           /\ vr_path v
              = OsPath.join (output_dir g)
                  [size_name sc;
                   prompt_name ++ "_" ++ size_name sc ++ "_" ++ timestamp
                   ++ "." ++ format (image_variants (config g))])
        all_sizes variants
      /\ clock_reads w' = clock_reads w + 1)
  /\ (Forall (resizable (image_size img)) all_sizes ->
      (forall j, j < length all_sizes ->
                 save_fault w (save_calls w + j) = None) ->
      exists variants w',
        generate_variants g img prompt_name w = (Ok variants, w')
        /\ length variants = length all_sizes).
Proof.
  intros timestamp all_sizes. split.
  - intros variants w' H.
    apply generate_variants_result in H as [-> Hadv].
    split.
    + apply Forall2_map_self. intros sc _. split; reflexivity.
    + apply Hadv.
  - intros Hpos Hsave.
    destruct (generate_variants_ok g img prompt_name w Hpos Hsave)
      as (vs & w' & E).
    exists vs, w'. split; [exact E|].
    apply generate_variants_result in E as [-> _]. apply length_map.
Qed.

(** ** Paths *)

Lemma isabs_cons (c : ascii) (rest : string) :
  OsPath.isabs (String c rest) = Ascii.eqb c "/".
Proof.
  unfold OsPath.isabs, Py.startswith. cbn [prefix].
  destruct (ascii_dec "/" c) as [<-|N].
  - rewrite Ascii.eqb_refl. now destruct rest.
  - symmetry. apply Ascii.eqb_neq. congruence.
Qed.

Lemma isabs_app (a b : string) :
  OsPath.isabs (a ++ b) = if Py.truthy a then OsPath.isabs a else OsPath.isabs b.
Proof. destruct a as [|c a]; cbn [append Py.truthy]; [reflexivity|]. now rewrite !isabs_cons. Qed.

Lemma isabs_truthy (p : string) : OsPath.isabs p = true -> Py.truthy p = true.
Proof. now destruct p. Qed.

(** A joined path is absolute exactly when one of its parts is. *)
Lemma isabs_join_step (path b : string) :
  OsPath.isabs (OsPath.join_step path b) = OsPath.isabs b || OsPath.isabs path.
Proof.
  unfold OsPath.join_step. fold (OsPath.isabs b).
  destruct (OsPath.isabs b) eqn:Eb; [now rewrite Eb|]. cbn [orb].
  destruct (negb (Py.truthy path) || Py.ends_with_slash path) eqn:Ec.
  - rewrite isabs_app. destruct (Py.truthy path) eqn:Et; [reflexivity|].
    rewrite Eb. destruct path; [reflexivity|discriminate].
  - rewrite isabs_app. destruct (Py.truthy path) eqn:Et; [reflexivity|].
    discriminate.
Qed.

Lemma isabs_normpath (path : string) :
  OsPath.isabs path = true -> OsPath.isabs (OsPath.normpath path) = true.
Proof.
  intros Habs. unfold OsPath.normpath.
  rewrite (isabs_truthy _ Habs). cbn [negb].
  unfold OsPath.initial_slashes. unfold OsPath.isabs in Habs. rewrite Habs.
  destruct (Py.startswith path "//" && negb (Py.startswith path "///"));
    cbn [Nat.eqb OsPath.slashes_string append Py.truthy]; apply isabs_cons.
Qed.

(** [os.path.abspath] returns an absolute path when the working
    directory is one, which [os.getcwd()] guarantees. *)
Lemma isabs_abspath (cwd path : string) :
  OsPath.isabs cwd = true -> OsPath.isabs (OsPath.abspath cwd path) = true.
Proof.
  intros Hcwd. unfold OsPath.abspath. apply isabs_normpath.
  destruct (OsPath.isabs path) eqn:Ep; [exact Ep|].
  cbn [OsPath.join fold_left]. rewrite isabs_join_step, Hcwd.
  apply orb_true_r.
Qed.

(** ** C9: what a variant records *)

(** C9, as the code has it. Every variant returned by
    [generate_variants] carries in its path field the joined path
    [os.path.join(output_dir, name, filename)] as it is, not resolved: it
    is absolute exactly when the output directory, the variant name or the
    file name is; its URL field is ["file://"] followed by
    [os.path.abspath] of that same path, which is absolute. *)
Theorem variant_result_path_and_url `{PIL : Imaging}
    (g : Generator) (img : Image) (prompt_name : string) (w w' : World)
    (variants : list VariantResult) :
  generate_variants g img prompt_name w = (Ok variants, w') ->
  OsPath.isabs (getcwd w) = true ->
  let timestamp := strftime_compact (now_at w (clock_reads w)) in
  Forall2
    (fun sc v =>
       let filename := variant_filename g prompt_name (size_name sc) timestamp in
       vr_path v = OsPath.join (output_dir g) [size_name sc; filename]
       /\ OsPath.isabs (vr_path v)
          = OsPath.isabs filename || (OsPath.isabs (size_name sc)
                                      || OsPath.isabs (output_dir g))
       /\ vr_url v = "file://" ++ OsPath.abspath (getcwd w) (vr_path v)
       /\ OsPath.isabs (OsPath.abspath (getcwd w) (vr_path v)) = true)
    (sizes (image_variants (config g))) variants.
Proof.
  intros H Hcwd timestamp.
  apply generate_variants_result in H as [-> _].
  apply Forall2_map_self. intros sc _. cbv zeta.
  cbn [vr_path vr_url variant_result]. unfold variant_path.
  repeat split.
  - cbn [OsPath.join fold_left]. now rewrite !isabs_join_step.
  - now apply isabs_abspath.
Qed.

(** ** The orchestrator *)

Section Orchestrator.

Context {PIL : Imaging}.

(** The provider: [None] exactly when there is no first colour or the
    rendering fails; the exception is swallowed. *)
Lemma generate_image_outcome (g : Generator) (prompt : string) (w : World) :
  exists o w',
    generate_image_with_gemini g prompt w = (Ok o, w')
    /\ (if provision_ok g w 0 then exists img, o = Some img else o = None)
    /\ advances w w' 0 (match brand_colors g with [] => 0 | _ => 1 end) 0
    /\ saved w' = saved w.
Proof.
  unfold generate_image_with_gemini, create_base_image, try_except,
    provision_ok.
  rewrite Nat.add_0_r.
  destruct (brand_colors g) as [|color rest].
  - exists None, w. split; [reflexivity|]. split; [reflexivity|].
    split; [apply advances_refl|reflexivity].
  - unfold bind, draw_placeholder, ret.
    destruct (render_fault w (provider_calls w)) as [e|];
      eexists; eexists; (split; [reflexivity|]); (split; [eauto|]);
      (split; [|reflexivity]); advances_by_fields.
Qed.

(** The image the provider returns is 1024 by 1024, and so is the
    branded one. *)
Lemma generate_image_size (g : Generator) (prompt : string) (w w' : World)
    (img : Image) :
  generate_image_with_gemini g prompt w = (Ok (Some img), w') ->
  image_size (branded g img w') = (1024, 1024)%Z.
Proof.
  rewrite branded_size.
  unfold generate_image_with_gemini, create_base_image, try_except.
  destruct (brand_colors g) as [|color rest]; [discriminate|].
  unfold bind, draw_placeholder, ret.
  destruct (render_fault w (provider_calls w)); [discriminate|].
  now intros [= <- _].
Qed.

(** [process_prompt], step by step. *)
Lemma process_prompt_unfold (g : Generator) (prompt : string)
    (name : option string) (w : World) :
  process_prompt g prompt name w
  = match generate_image_with_gemini g prompt w with
    | (Ok None, w1) => (Ok None, w1)
    | (Ok (Some img), w1) =>
        match generate_variants g (branded g img w1)
                (resolve_name prompt name) w1 with
        | (Ok variants, w2) =>
            match datetime_now w2 with
            | (Ok now, w3) =>
                (Ok (Some {| gr_prompt := prompt;
                             gr_timestamp := isoformat now;
                             gr_variants := variants |}), w3)
            | (Raise e, w3) => (Raise e, w3)
            end
        | (Raise e, w2) => (Raise e, w2)
        end
    | (Raise e, w1) => (Raise e, w1)
    end.
Proof.
  unfold process_prompt. unfold bind at 1.
  destruct (generate_image_with_gemini g prompt w) as [[[img|]|e] w1];
    try reflexivity.
  unfold bind at 1. rewrite apply_branding_returns.
  unfold bind at 1.
  destruct (generate_variants _ _ _ w1) as [[variants|e] w2]; [|reflexivity].
  unfold bind, ret. destruct (datetime_now w2) as [[now|e] w3]; reflexivity.
Qed.

(** What [process_prompt] returns when it returns a result. *)
Lemma process_prompt_result (g : Generator) (prompt : string)
    (name : option string) (w w' : World) (r : GenerationResult) :
  process_prompt g prompt name w = (Ok (Some r), w') ->
  r = expected_result g w 0 prompt name
  /\ advances w w' 2 (match brand_colors g with [] => 0 | _ => 1 end)
       (length (sizes (image_variants (config g)))).
Proof.
  rewrite process_prompt_unfold.
  destruct (generate_image_outcome g prompt w) as (o & w1 & -> & _ & Hadv & _).
  destruct o as [img|]; [|discriminate].
  destruct (generate_variants _ _ _ w1) as [[variants|e] w2] eqn:Egv;
    [|discriminate].
  apply generate_variants_result in Egv as [-> Hadv2].
  pose proof (advances_trans _ _ _ _ _ _ _ _ _ Hadv Hadv2) as Hadv12.
  cbn [Nat.add] in Hadv12. rewrite Nat.add_0_r in Hadv12.
  unfold datetime_now. intros [= <- <-].
  destruct Hadv as (Hnow1 & Hcwd1 & _ & _ & _ & _ & _ & Hclock1 & _).
  destruct Hadv2 as (Hnow2 & _ & _ & _ & _ & _ & _ & Hclock2 & _).
  rewrite Nat.add_0_r in Hclock1.
  split.
  - unfold expected_result. f_equal.
    + rewrite Hnow2, Hnow1, Hclock2, Hclock1, Nat.add_0_r. reflexivity.
    + rewrite Hnow1, Hcwd1, Hclock1, Nat.add_0_r. reflexivity.
  - unfold advances in *. cbn.
    destruct Hadv12 as (A1 & A2 & A3 & A4 & A5 & A6 & A7 & A8 & A9 & A10).
    repeat split; try assumption. lia.
Qed.

(** With sizes that [resize] accepts for a 1024x1024 image and no
    failing save, [process_prompt] never raises: it returns the expected
    result when the base image is provided, and nothing otherwise. *)
Lemma process_prompt_outcome (g : Generator) (prompt : string)
    (name : option string) (w : World) :
  Forall (resizable (1024, 1024)%Z) (sizes (image_variants (config g))) ->
  (forall n, save_fault w n = None) ->
  exists w' dc ds,
    process_prompt g prompt name w
    = (Ok (if provision_ok g w 0
           then Some (expected_result g w 0 prompt name) else None), w')
    /\ dc = (if provision_ok g w 0 then 2 else 0)
    /\ advances w w' dc (match brand_colors g with [] => 0 | _ => 1 end) ds.
Proof.
  intros Hpos Hsave.
  destruct (process_prompt g prompt name w) as [o w'] eqn:E.
  pose proof E as E0. rewrite process_prompt_unfold in E0.
  destruct (generate_image_outcome g prompt w) as (o1 & w1 & E1 & Ho & Hadv & _).
  rewrite E1 in E0.
  destruct (provision_ok g w 0).
  - destruct Ho as [img ->].
    rewrite <- (generate_image_size g prompt w w1 img E1) in Hpos.
    destruct (generate_variants_ok g (branded g img w1)
                (resolve_name prompt name) w1 Hpos) as (vs & w2 & Egv).
    { intros j _.
      destruct Hadv as (_ & _ & _ & _ & _ & _ & -> & _). apply Hsave. }
    rewrite Egv in E0. unfold datetime_now in E0. injection E0 as <- <-.
    apply process_prompt_result in E as [-> Hadv'].
    eexists; eexists; eexists. split; [reflexivity|]. split; [reflexivity|].
    exact Hadv'.
  - subst o1. injection E0 as <- <-.
    exists w1, 0, 0. split; [reflexivity|]. split; [reflexivity|]. exact Hadv.
Qed.

Lemma entry_prompt_name_prompt (i : nat) (entry : prompt_data) :
  fst (entry_prompt_name i entry) = prompt_text entry.
Proof. destruct entry as [p|p [n|]]; reflexivity. Qed.

Lemma entry_prompt_name_unnamed (i : nat) (entry : prompt_data) :
  unnamed entry ->
  entry_prompt_name i entry = (prompt_text entry, "prompt_" ++ Py.str_nat i).
Proof. destruct entry as [p|p [n|]]; cbn; intros H; [reflexivity|contradiction|reflexivity]. Qed.

(** One round of the loop of [batch_process]. *)
Lemma batch_loop_cons (g : Generator) (i : nat) (entry : prompt_data)
    (rest : list prompt_data) (results : list GenerationResult) (w : World) :
  batch_loop g i (entry :: rest) results w
  = bind (process_prompt g (fst (entry_prompt_name i entry))
            (Some (snd (entry_prompt_name i entry))))
      (fun result => batch_loop g (S i) rest (collect results result)) w.
Proof.
  cbn [batch_loop]. destruct (entry_prompt_name i entry) as [prompt name].
  reflexivity.
Qed.

(** The loop over a concatenation: the first part, then the second
    with the index moved on. *)
Lemma batch_loop_app (g : Generator) (before after : list prompt_data) :
  forall i results w,
    batch_loop g i (before ++ after)%list results w
    = bind (batch_loop g i before results)
        (fun rs => batch_loop g (i + length before) after rs) w.
Proof.
  induction before as [|entry before IH]; intros i results w.
  - cbn. unfold bind, ret. now rewrite Nat.add_0_r.
  - cbn [app batch_loop length].
    destruct (entry_prompt_name i entry) as [prompt name].
    unfold bind in *.
    destruct (process_prompt g prompt (Some name) w) as [[result|e] w1];
      [|reflexivity].
    rewrite IH.
    replace (i + S (length before)) with (S i + length before) by lia.
    reflexivity.
Qed.

Lemma provision_ok_shift (g : Generator) (w w' : World) (d k : nat) :
  render_fault w' = render_fault w ->
  provider_calls w'
  = provider_calls w + match brand_colors g with [] => 0 | _ => d end ->
  provision_ok g w' k = provision_ok g w (d + k).
Proof.
  intros Hrf Hpc. unfold provision_ok.
  destruct (brand_colors g); [reflexivity|].
  rewrite Hrf, Hpc. now rewrite Nat.add_assoc.
Qed.

Lemma provisioned_shift (g : Generator) (w w' : World) (d : nat)
    (prompts : list prompt_data) :
  render_fault w' = render_fault w ->
  provider_calls w'
  = provider_calls w + match brand_colors g with [] => 0 | _ => d end ->
  forall k, provisioned g w' k prompts = provisioned g w (d + k) prompts.
Proof.
  intros Hrf Hpc. induction prompts as [|entry rest IH]; intros k.
  - reflexivity.
  - cbn [provisioned]. rewrite (provision_ok_shift g w w' d k Hrf Hpc).
    rewrite (IH (S k)). now rewrite Nat.add_succ_r.
Qed.

Lemma expected_result_shift (g : Generator) (w0 w : World) (c p s : nat)
    (prompt : string) (name : option string) :
  advances w0 w c p s ->
  expected_result g w 0 prompt name = expected_result g w0 c prompt name.
Proof.
  intros (Hnow & Hcwd & _ & _ & _ & _ & _ & Hclock & _).
  unfold expected_result. now rewrite Hnow, Hcwd, Hclock, !Nat.add_0_r.
Qed.

(** With sizes that [resize] accepts and no failing save, the loop
    returns, having appended the expected results: one for each entry
    whose base image was provided, in the order of the entries. *)
Lemma batch_loop_exact (g : Generator) (w0 : World)
    (prompts : list prompt_data) :
  Forall (resizable (1024, 1024)%Z) (sizes (image_variants (config g))) ->
  (forall n, save_fault w0 n = None) ->
  forall i k c s results w,
    advances w0 w c (match brand_colors g with [] => 0 | _ => k end) s ->
    exists w',
      batch_loop g i prompts results w
      = (Ok (results ++ expected_results g w0 i k c prompts)%list, w').
Proof.
  intros Hpos Hsave.
  induction prompts as [|entry rest IH]; intros i k c s results w Hadv.
  - exists w. cbn. now rewrite app_nil_r.
  - rewrite batch_loop_cons. unfold bind.
    destruct (process_prompt_outcome g (fst (entry_prompt_name i entry))
                (Some (snd (entry_prompt_name i entry))) w Hpos)
      as (w1 & dc & ds & -> & Hdc & Hadv1).
    { intros n. destruct Hadv as (_ & _ & _ & _ & _ & _ & -> & _). apply Hsave. }
    pose proof (advances_trans _ _ _ _ _ _ _ _ _ Hadv Hadv1) as Hadv01.
    assert (provision_ok g w 0 = provision_ok g w0 k) as Hprov.
    { rewrite <- (Nat.add_0_r k).
      destruct Hadv as (_ & _ & _ & _ & _ & Hrf & _ & _ & Hpc & _).
      exact (provision_ok_shift g w0 w k 0 Hrf Hpc). }
    rewrite (expected_result_shift g w0 w c _ s _ _ Hadv).
    rewrite Hprov in *. cbn [expected_results].
    destruct (IH (S i) (S k) (c + dc) (s + ds)
                (collect results
                   (if provision_ok g w0 k
                    then Some (expected_result g w0 c
                                 (fst (entry_prompt_name i entry))
                                 (Some (snd (entry_prompt_name i entry))))
                    else None))
                w1) as (w' & ->).
    { replace (match brand_colors g with [] => 0 | _ :: _ => S k end)
        with (match brand_colors g with [] => 0 | _ :: _ => k end
              + match brand_colors g with [] => 0 | _ :: _ => 1 end)
        by (destruct (brand_colors g); lia).
      exact Hadv01. }
    exists w'. subst dc.
    destruct (provision_ok g w0 k); cbn [collect].
    + now rewrite <- app_assoc.
    + now rewrite Nat.add_0_r.
Qed.

Lemma expected_results_prompts (g : Generator) (w : World)
    (prompts : list prompt_data) :
  forall i k c,
    map gr_prompt (expected_results g w i k c prompts)
    = map prompt_text (provisioned g w k prompts).
Proof.
  induction prompts as [|entry rest IH]; intros i k c; [reflexivity|].
  cbn [expected_results provisioned].
  destruct (provision_ok g w k); [|apply IH].
  cbn [map gr_prompt expected_result]. rewrite IH, entry_prompt_name_prompt.
  reflexivity.
Qed.

Lemma expected_results_variants (g : Generator) (w : World)
    (prompts : list prompt_data) :
  forall i k c,
    Forall (fun r => map vr_name (gr_variants r)
                     = map size_name (sizes (image_variants (config g))))
           (expected_results g w i k c prompts).
Proof.
  induction prompts as [|entry rest IH]; intros i k c; [constructor|].
  cbn [expected_results].
  destruct (provision_ok g w k); [|apply IH].
  constructor; [|apply IH].
  cbn [gr_variants expected_result]. now rewrite map_map.
Qed.

Lemma provisioned_no_colors (g : Generator) (w : World)
    (prompts : list prompt_data) :
  brand_colors g = [] -> forall k, provisioned g w k prompts = [].
Proof.
  intros Hc. induction prompts as [|entry rest IH]; intros k; [reflexivity|].
  cbn [provisioned]. unfold provision_ok. rewrite Hc. apply IH.
Qed.

End Orchestrator.

(** ** C2: a batch collects the prompts that were provided *)

(** C2, as the code has it. For every batch, when every configured
    size is one [resize] accepts for the 1024x1024 image of the pipeline
    (that size, or sides from 1 to 2147483647 that the library has the
    memory for) and no save fails: [batch_process] returns, and its
    results are exactly those of the entries whose base image was
    provided, in input order; an entry whose provider call fails
    contributes nothing and the batch goes on.  Each result carries one
    variant per configured size.  Without these conditions the batch can
    raise and return nothing, as the run below shows. *)
Theorem batch_process_collects `{PIL : Imaging}
    (g : Generator) (prompts : list prompt_data) (w : World) :
  Forall (resizable (1024, 1024)%Z) (sizes (image_variants (config g))) ->
  (forall n, save_fault w n = None) ->
  exists results w',
    batch_process g prompts w = (Ok results, w')
    /\ results = expected_results g w 1 0 0 prompts
    /\ map gr_prompt results = map prompt_text (provisioned g w 0 prompts)
    /\ length results = length (provisioned g w 0 prompts)
    /\ Forall (fun r => map vr_name (gr_variants r)
                       = map size_name (sizes (image_variants (config g))))
              results.
Proof.
  intros Hpos Hsave.
  destruct (batch_loop_exact g w prompts Hpos Hsave 1 0 0 0 [] w) as (w' & E).
  { replace (match brand_colors g with [] => 0 | _ :: _ => 0 end) with 0
      by (now destruct (brand_colors g)).
    apply advances_refl. }
  exists (expected_results g w 1 0 0 prompts), w'.
  split; [exact E|]. split; [reflexivity|].
  split; [apply expected_results_prompts|].
  split; [|apply expected_results_variants].
  rewrite <- (length_map gr_prompt), expected_results_prompts.
  apply length_map.
Qed.

(** ** C3: a failing save *)

(** C3, as the code has it. If the save of one variant fails while a
    prompt is exported, [generate_variants] raises: no variant list is
    returned for that prompt, the files written before the failure stay.
    Nothing catches the exception: it leaves [process_prompt] and
    [batch_process], so the batch stops at that prompt, returns no result
    at all and starts none of the remaining prompts.  The failing save is
    reached when the sizes up to it are ones [resize] accepts for the
    1024x1024 image of the pipeline. *)
Theorem export_failure_aborts_batch `{PIL : Imaging}
    (g : Generator) (before : list prompt_data) (entry : prompt_data)
    (after : list prompt_data) (w w1 : World)
    (results : list GenerationResult)
    (done : list SizeConfig) (sc : SizeConfig) (todo : list SizeConfig)
    (e : exn) :
  sizes (image_variants (config g)) = (done ++ sc :: todo)%list ->
  Forall (resizable (1024, 1024)%Z) done -> resizable (1024, 1024)%Z sc ->
  batch_loop g 1 before [] w = (Ok results, w1) ->
  provision_ok g w1 0 = true ->
  (forall j, j < length done -> save_fault w1 (save_calls w1 + j) = None) ->
  save_fault w1 (save_calls w1 + length done) = Some e ->
  (forall img prompt_name,
      image_size img = (1024, 1024)%Z ->
      exists w2,
        generate_variants g img prompt_name w1 = (Raise e, w2)
        /\ length (saved w2) = length (saved w1) + length done)
  /\ exists w2,
      batch_process g (before ++ entry :: after) w = (Raise e, w2)
      /\ length (saved w2) = length (saved w1) + length done
      /\ provider_calls w2 = provider_calls w1 + 1.
Proof.
  intros Hsizes Hdone Hsc Hbefore Hprov Hok Hfault. split.
  - intros img prompt_name Himg. rewrite <- Himg in Hdone, Hsc.
    destruct (generate_variants_fault g img prompt_name w1 done sc todo e
                Hsizes Hdone Hsc Hok Hfault) as (w2 & E & Hlen & _).
    exists w2. split; assumption.
  - unfold batch_process. rewrite batch_loop_app. unfold bind at 1.
    rewrite Hbefore, batch_loop_cons. unfold bind at 1.
    rewrite process_prompt_unfold.
    destruct (generate_image_outcome g (fst (entry_prompt_name (1 + length before) entry)) w1)
      as (o & wp & Eimg & Ho & Hadv & Hsaved).
    rewrite Eimg.
    rewrite Hprov in Ho. destruct Ho as [img ->].
    rewrite <- (generate_image_size g _ w1 wp img Eimg) in Hdone, Hsc.
    assert (brand_colors g <> []) as Hcolors.
    { unfold provision_ok in Hprov. now destruct (brand_colors g). }
    destruct Hadv as (A1 & A2 & A3 & A4 & A5 & A6 & A7 & A8 & A9 & A10).
    rewrite Nat.add_0_r in A10.
    destruct (generate_variants_fault g (branded g img wp)
                (resolve_name (fst (entry_prompt_name (1 + length before) entry))
                   (Some (snd (entry_prompt_name (1 + length before) entry))))
                wp done sc todo e Hsizes Hdone Hsc)
      as (w2 & -> & Hlen & Hadv2).
    { intros j Hj. rewrite A7, A10. now apply Hok. }
    { now rewrite A7, A10. }
    exists w2. split; [reflexivity|].
    destruct Hadv2 as (B1 & B2 & B3 & B4 & B5 & B6 & B7 & B8 & B9 & B10).
    split.
    + now rewrite Hlen, Hsaved.
    + rewrite B9, A9. destruct (brand_colors g); [contradiction|lia].
Qed.

(** ** C10: the name of an entry that gives none *)

Lemma bind_ext `{PIL : Imaging} {A B} (m : M A) (k k' : A -> M B) (w : World) :
  (forall a w', k a w' = k' a w') -> bind m k w = bind m k' w.
Proof.
  intros H. unfold bind. destruct (m w) as [[a|e] w']; [apply H|reflexivity].
Qed.

(** C10, as the code has it. For every batch and every entry in it that
    is a bare string or a dict without ['name'], the entry at 1-based
    position [i] is handed to [process_prompt] under the name
    ["prompt_i"]; [process_prompt] keeps that name, so every variant of
    its result is stored under a file name starting with it.  The name
    derived from the prompt text is used whenever [process_prompt] gets
    no name or an empty one: on a direct call with the name omitted, and
    also inside a batch, where a dict entry whose ['name'] is the empty
    string is processed exactly as such a call. *)
Theorem batch_process_default_name `{PIL : Imaging}
    (g : Generator) (before : list prompt_data) (entry : prompt_data)
    (after : list prompt_data) (w : World) :
  unnamed entry ->
  let i := length before + 1 in
  let name := "prompt_" ++ Py.str_nat i in
  batch_process g (before ++ entry :: after) w
  = bind (batch_loop g 1 before [])
      (fun results =>
         bind (process_prompt g (prompt_text entry) (Some name))
           (fun result => batch_loop g (S i) after (collect results result))) w
  /\ resolve_name (prompt_text entry) (Some name) = name
  /\ (forall w0 w1 r,
        process_prompt g (prompt_text entry) (Some name) w0 = (Ok (Some r), w1) ->
        Forall2
          (fun sc v =>
             vr_path v
             = OsPath.join (output_dir g)
                 [size_name sc;
                  name ++ "_" ++ size_name sc ++ "_"
                  ++ strftime_compact (now_at w0 (clock_reads w0))
                  ++ "." ++ format (image_variants (config g))])
          (sizes (image_variants (config g))) (gr_variants r))
  /\ (forall prompt,
        resolve_name prompt None = derived_name prompt
        /\ resolve_name prompt (Some "") = derived_name prompt
        /\ forall n, Py.truthy n = true -> resolve_name prompt (Some n) = n)
  /\ (forall earlier prompt later w0,
        batch_process g (earlier ++ PromptDict prompt (Some "") :: later) w0
        = bind (batch_loop g 1 earlier [])
            (fun results =>
               bind (process_prompt g prompt None)
                 (fun result =>
                    batch_loop g (S (length earlier + 1)) later
                      (collect results result))) w0).
Proof.
  intros Hentry i name.
  assert (resolve_name (prompt_text entry) (Some name) = name) as Hname
      by reflexivity.
  split; [|split; [exact Hname|split; [|split]]].
  - unfold batch_process. rewrite batch_loop_app. apply bind_ext.
    intros results w1. rewrite batch_loop_cons.
    replace (1 + length before) with i by (subst i; lia).
    rewrite (entry_prompt_name_unnamed i entry Hentry). reflexivity.
  - intros w0 w1 r H. apply process_prompt_result in H as [-> _].
    cbn [gr_variants expected_result]. rewrite Hname, Nat.add_0_r.
    apply Forall2_map_self. intros sc _. reflexivity.
  - intros prompt. repeat split. intros n Hn. cbn. now rewrite Hn.
  - intros earlier prompt later w0.
    unfold batch_process. rewrite batch_loop_app. apply bind_ext.
    intros results w1. rewrite batch_loop_cons.
    replace (1 + length earlier) with (length earlier + 1) by lia.
    reflexivity.
Qed.

(** ** C4: loading a configuration *)

(** C4, as the code has it. [load_config] validates nothing: whenever
    the file parses and has [brand.colors] and
    [storage.output_directory], it returns without raising, whatever the
    colours (an empty list included) and whatever the variant sizes
    (duplicated names included), and keeps the values as they are in the
    file.  Processing then goes ahead on the loaded configuration: with
    sizes that [resize] accepts for the 1024x1024 image of the pipeline
    and no failing save, [batch_process] returns (with no colour at all,
    an empty list). *)
Theorem load_config_accepts `{PIL : Imaging}
    (config_path : string) (w : World)
    (cfg brand_section colors_v storage_section output_dir_v : json) :
  json_file w config_path = Ok cfg ->
  Json.getitem cfg "brand" = Ok brand_section ->
  Json.getitem brand_section "colors" = Ok colors_v ->
  Json.getitem cfg "storage" = Ok storage_section ->
  Json.getitem storage_section "output_directory" = Ok output_dir_v ->
  exists loaded,
    load_config config_path w = (Ok loaded, w)
    /\ loaded_config loaded = cfg
    /\ loaded_brand_colors loaded = colors_v
    /\ loaded_output_dir loaded = output_dir_v
    /\ Json.get brand_section "logo_path" = Ok (loaded_logo_path loaded)
    /\ forall g prompts,
         Decode.generator loaded = Some g ->
         Forall (resizable (1024, 1024)%Z)
                (sizes (image_variants (config g))) ->
         (forall n, save_fault w n = None) ->
         exists results w',
           batch_process g prompts w = (Ok results, w')
           /\ (brand_colors g = [] -> results = []).
Proof.
  intros Hfile Hbrand Hcolors Hstorage Hdir.
  assert (exists v, Json.get brand_section "logo_path" = Ok v) as [logo_path_v Hlogo].
  { destruct brand_section; try discriminate. cbn.
    destruct (Json.assoc "logo_path" fields); eauto. }
  exists {| loaded_config := cfg; loaded_brand_colors := colors_v;
            loaded_output_dir := output_dir_v;
            loaded_logo_path := logo_path_v |}.
  split.
  { unfold load_config, bind, json_load, lift, ret.
    now rewrite Hfile, Hbrand, Hcolors, Hstorage, Hdir, Hlogo. }
  repeat (split; [reflexivity || exact Hlogo|]).
  intros g prompts _ Hpos Hsave.
  destruct (batch_loop_exact g w prompts Hpos Hsave 1 0 0 0 [] w) as (w' & E).
  { replace (match brand_colors g with [] => 0 | _ :: _ => 0 end) with 0
      by (now destruct (brand_colors g)).
    apply advances_refl. }
  exists (expected_results g w 1 0 0 prompts), w'. split; [exact E|].
  intros Hnone.
  pose proof (expected_results_prompts g w prompts 1 0 0) as Hp.
  rewrite (provisioned_no_colors g w prompts Hnone) in Hp.
  now destruct (expected_results g w 1 0 0 prompts).
Qed.

(** * The properties on concrete runs *)

Lemma enhance_prompt_with_brand_witness :
  brand_colors Scenario.summer <> []
  /\ Py.startswith (enhance_prompt_with_brand Scenario.summer "Summer sale")
       "Summer sale" = true
  /\ Py.occurs_in "#00A3E0"
       (enhance_prompt_with_brand Scenario.summer "Summer sale").
Proof.
  assert (brand_colors Scenario.summer <> []) as H by discriminate.
  split; [exact H|].
  destruct (proj1 enhance_prompt_with_brand_spec Scenario.summer "Summer sale" H)
    as (_ & Hprefix & Hcolors).
  split; [exact Hprefix|]. apply Hcolors. cbn. auto.
Defined.

Lemma apply_branding_without_logo_witness :
  apply_branding (Scenario.with_logo "missing.png")
    (Scenario.canvas 1024 1024) Scenario.logo_world
  = (Ok (Scenario.canvas 1024 1024), Scenario.logo_world)
  /\ apply_branding (Scenario.with_logo "assets/logo.png")
       (Scenario.canvas 1024 1024) Scenario.plain_world
     = (Ok (Scenario.canvas 1024 1024), Scenario.plain_world).
Proof.
  split.
  - apply (apply_branding_without_logo (Scenario.with_logo "missing.png")).
    right. exists "missing.png". split; [reflexivity|].
    right. left. reflexivity.
  - apply (apply_branding_without_logo (Scenario.with_logo "assets/logo.png")).
    right. exists "assets/logo.png". split; [reflexivity|].
    right. right. exists OSError. reflexivity.
Defined.

Lemma apply_branding_keeps_size_witness :
  exists out,
    apply_branding (Scenario.with_logo "assets/logo.png")
      (Scenario.canvas 1024 1024) Scenario.logo_world
    = (Ok out, Scenario.logo_world)
    /\ width out = 1024%Z /\ height out = 1024%Z
    /\ out = composed (Scenario.canvas 1024 1024)
               (@Build_Image Scenario.imaging 102 102 RGBA "resampled logo")
               (102, 102)%Z.
Proof.
  destruct (apply_branding_keeps_size (Scenario.with_logo "assets/logo.png")
              (Scenario.canvas 1024 1024) Scenario.logo_world)
    as (out & E & Hw & Hh & Hc).
  exists out. split; [exact E|]. split; [exact Hw|]. split; [exact Hh|].
  apply (Hc "assets/logo.png" (Scenario.logo 200 200)); reflexivity.
Defined.

(** On the 1024-pixel canvas that [create_base_image] draws, the logo
    is 102 pixels wide, not 102.4; and a 400x15 logo on a 1000-pixel base
    gets height 3, the truncation of 3.75, not the nearest integer 4. *)
Lemma logo_target_size_counterexample :
  logo_target_size (Scenario.canvas 1024 1024)
    (convert RGBA (Scenario.logo 200 200)) = Ok (102, 102)%Z
  /\ (10 * 102 <> 1024)%Z
  /\ logo_target_size (Scenario.canvas 1000 1000)
       (convert RGBA (Scenario.logo 400 15)) = Ok (100, 3)%Z
  /\ ~ nearest 3 (15 * 100) 400
  /\ nearest 4 (15 * 100) 400.
Proof.
  split; [vm_compute; reflexivity|]. split; [discriminate|].
  split; [vm_compute; reflexivity|].
  unfold nearest. split; cbn; lia.
Qed.

Lemma logo_target_size_spec_witness :
  width (Scenario.logo 200 200) <> 0%Z
  /\ logo_target_size (Scenario.canvas 1024 1024)
       (convert RGBA (Scenario.logo 200 200)) = Ok (102, 102)%Z
  /\ apply_branding (Scenario.with_logo "assets/logo.png")
       (Scenario.canvas 1024 1024) Scenario.logo_world
     = (Ok (composed (Scenario.canvas 1024 1024)
              (@Build_Image Scenario.imaging 102 102 RGBA "resampled logo")
              (102, 102)%Z),
        Scenario.logo_world).
Proof.
  assert (width (Scenario.logo 200 200) <> 0%Z) as H by discriminate.
  split; [exact H|].
  destruct (logo_target_size_spec (Scenario.with_logo "assets/logo.png")
              (Scenario.canvas 1024 1024) (Scenario.logo 200 200)
              Scenario.logo_world "assets/logo.png"
              eq_refl eq_refl eq_refl eq_refl H)
    as (_ & ratio & Hratio & Hrest).
  vm_compute in Hratio. injection Hratio as <-.
  destruct Hrest as (Htarget & _ & Hcomposed).
  split; [exact Htarget|]. exact (proj2 (proj2 Hcomposed)).
Defined.

Lemma batch_process_collects_witness :
  exists results w',
    batch_process Scenario.summer Scenario.batch3 Scenario.second_render_fails
    = (Ok results, w')
    /\ map gr_prompt results = ["Summer sale"; "Web banner"]
    /\ length results = 2
    /\ map gr_timestamp results
       = ["2024-06-01T12:00:01"; "2024-06-01T12:00:03"].
Proof.
  destruct (batch_process_collects Scenario.summer Scenario.batch3
              Scenario.second_render_fails)
    as (results & w' & E & Hexact & Hprompts & Hlen & _).
  - resizable_sizes.
  - intros n. reflexivity.
  - exists results, w'. split; [exact E|]. split; [exact Hprompts|].
    split; [exact Hlen|]. rewrite Hexact. vm_compute. reflexivity.
Defined.

(** Both base images are provided, but a configured size is one
    [resize] refuses, or a save fails: with a height of 0 the first
    export raises [ValueError], with a width of 2147483648 it raises
    [OverflowError], with a failing save [OSError]; each time the batch
    returns nothing, not the results of the two provided prompts. *)
Lemma batch_process_collects_counterexample :
  map prompt_text
    (provisioned
       (Cases.with_sizes [Scenario.size "thumb" 400 400;
                          Scenario.size "strip" 600 0])
       Scenario.plain_world 0
       [PromptText "Summer sale"; PromptText "Web banner"])
  = ["Summer sale"; "Web banner"]
  /\ fst (batch_process
            (Cases.with_sizes [Scenario.size "thumb" 400 400;
                               Scenario.size "strip" 600 0])
            [PromptText "Summer sale"; PromptText "Web banner"]
            Scenario.plain_world) = Raise ValueError
  /\ fst (batch_process
            (Cases.with_sizes [Scenario.size "wide" 2147483648 1])
            [PromptText "Summer sale"; PromptText "Web banner"]
            Scenario.plain_world) = Raise OverflowError
  /\ fst (batch_process Scenario.two_sizes
            [PromptText "Summer sale"; PromptText "Web banner"]
            (Scenario.save_fails_at 1)) = Raise OSError.
Proof. repeat split; vm_compute; reflexivity. Qed.

(** The first prompt's only save fails: the batch raises, and the second
    prompt is never started. *)
Lemma export_failure_counterexample :
  fst (batch_process Scenario.summer
         [PromptText "Summer sale"; PromptText "Web banner"]
         (Scenario.save_fails_at 0)) = Raise OSError
  /\ provider_calls
       (snd (batch_process Scenario.summer
               [PromptText "Summer sale"; PromptText "Web banner"]
               (Scenario.save_fails_at 0))) = 1.
Proof. split; vm_compute; reflexivity. Qed.

Lemma export_failure_aborts_batch_witness :
  exists w2,
    batch_process Scenario.two_sizes Scenario.batch3 (Scenario.save_fails_at 3)
    = (Raise OSError, w2)
    /\ length (saved w2) = 3
    /\ provider_calls w2 = 2.
Proof.
  pose (run := batch_loop Scenario.two_sizes 1 [PromptText "Summer sale"] []
                 (Scenario.save_fails_at 3)).
  destruct (export_failure_aborts_batch Scenario.two_sizes
              [PromptText "Summer sale"]
              (PromptDict "Product launch" (Some "launch"))
              [PromptDict "Web banner" None]
              (Scenario.save_fails_at 3) (snd run)
              (match fst run with Ok rs => rs | Raise _ => [] end)
              [Scenario.size "thumb" 400 400] (Scenario.size "banner" 1920 1080)
              [] OSError) as (_ & w2 & E & Hsaved & Hcalls).
  - reflexivity.
  - resizable_sizes.
  - resizable_size.
  - vm_compute. reflexivity.
  - reflexivity.
  - intros j Hj. destruct j as [|j]; [reflexivity|cbn in Hj; lia].
  - reflexivity.
  - exists w2. split; [exact E|]. split; [exact Hsaved|exact Hcalls].
Defined.

Lemma generate_variants_shared_timestamp_witness :
  exists variants w',
    generate_variants Scenario.two_sizes (Scenario.canvas 1024 1024)
      "summer_sale" Scenario.plain_world = (Ok variants, w')
    /\ map vr_path variants
       = ["generated_images/thumb/summer_sale_thumb_20240601_120000.jpg";
          "generated_images/banner/summer_sale_banner_20240601_120000.jpg"].
Proof.
  destruct (generate_variants_shared_timestamp Scenario.two_sizes
              (Scenario.canvas 1024 1024) "summer_sale" Scenario.plain_world)
    as [Hshape Hreturns].
  destruct Hreturns as (variants & w' & E & _).
  - resizable_sizes.
  - intros j _. reflexivity.
  - exists variants, w'. split; [exact E|].
    destruct (Hshape variants w' E) as [Hall _].
    inversion Hall as [|sc1 v1 l1 l1' [_ H1] Hrest]; subst.
    inversion Hrest as [|sc2 v2 l2 l2' [_ H2] Hnil]; subst.
    inversion Hnil; subst.
    cbn [map]. rewrite H1, H2. reflexivity.
Defined.

(** With the output directory of the shipped configuration, the path
    field is relative: it is not the absolute path, and the URL is not
    built from the path field as it stands. *)
Lemma variant_result_path_counterexample :
  exists w',
    generate_variants Scenario.summer (Scenario.canvas 1024 1024)
      "summer_sale" Scenario.plain_world
    = (Ok [{| vr_name := "thumb";
              vr_size := "400x400";
              vr_path := "generated_images/thumb/summer_sale_thumb_20240601_120000.jpg";
              vr_url := "file:///srv/app/generated_images/thumb/summer_sale_thumb_20240601_120000.jpg" |}],
       w')
  /\ OsPath.isabs "generated_images/thumb/summer_sale_thumb_20240601_120000.jpg"
     = false
  /\ "generated_images/thumb/summer_sale_thumb_20240601_120000.jpg"
     <> "/srv/app/generated_images/thumb/summer_sale_thumb_20240601_120000.jpg".
Proof.
  eexists. split; [vm_compute; reflexivity|]. split; [reflexivity|discriminate].
Qed.

Lemma variant_result_path_and_url_witness :
  exists variants,
    fst (generate_variants Scenario.summer (Scenario.canvas 1024 1024)
           "summer_sale" Scenario.plain_world) = Ok variants
    /\ OsPath.isabs (getcwd Scenario.plain_world) = true
    /\ Forall2
         (fun _ v =>
            vr_url v = "file://" ++ OsPath.abspath "/srv/app" (vr_path v)
            /\ OsPath.isabs (OsPath.abspath "/srv/app" (vr_path v)) = true)
         (sizes (image_variants (config Scenario.summer))) variants.
Proof.
  pose (run := generate_variants Scenario.summer (Scenario.canvas 1024 1024)
                 "summer_sale" Scenario.plain_world).
  assert (OsPath.isabs (getcwd Scenario.plain_world) = true) as Hcwd
      by reflexivity.
  pose proof (variant_result_path_and_url Scenario.summer
                (Scenario.canvas 1024 1024) "summer_sale" Scenario.plain_world
                (snd run) (match fst run with Ok vs => vs | Raise _ => [] end)
                ltac:(vm_compute; reflexivity) Hcwd) as Hall.
  exists (match fst run with Ok vs => vs | Raise _ => [] end).
  split; [vm_compute; reflexivity|]. split; [exact Hcwd|].
  revert Hall. apply Forall2_impl.
  intros sc v (_ & _ & Hurl & Habs). split; assumption.
Defined.

Lemma batch_process_default_name_witness :
  unnamed (PromptDict "Web banner" None)
  /\ resolve_name "Web banner" (Some "prompt_3") = "prompt_3"
  /\ batch_process Scenario.summer Scenario.batch3 Scenario.plain_world
     = bind (batch_loop Scenario.summer 1
               [PromptText "Summer sale";
                PromptDict "Product launch" (Some "launch")] [])
         (fun results =>
            bind (process_prompt Scenario.summer "Web banner" (Some "prompt_3"))
              (fun result =>
                 batch_loop Scenario.summer 4 [] (collect results result)))
         Scenario.plain_world.
Proof.
  assert (unnamed (PromptDict "Web banner" None)) as H by exact I.
  split; [exact H|].
  destruct (batch_process_default_name Scenario.summer
              [PromptText "Summer sale";
               PromptDict "Product launch" (Some "launch")]
              (PromptDict "Web banner" None) [] Scenario.plain_world H)
    as (Hrun & Hname & _).
  split; [exact Hname|exact Hrun].
Defined.

(** Inside a batch, not on a direct call: the dict entry carries the
    empty string as its name, and its file is stored under the name
    derived from the prompt text. *)
Lemma batch_process_default_name_counterexample :
  exists results w',
    batch_process Scenario.summer [PromptDict "Web banner" (Some "")]
      Scenario.plain_world = (Ok results, w')
    /\ map (fun r => map vr_path (gr_variants r)) results
       = [["generated_images/thumb/Web_banner_thumb_20240601_120000.jpg"]]
    /\ derived_name "Web banner" = "Web_banner".
Proof.
  eexists. eexists. split; [vm_compute; reflexivity|].
  split; reflexivity.
Qed.

(** A configuration without colours and one with two variants named
    ["thumb"] both load without any error; with the second, a prompt is
    then processed and both variants are written, to the same path. *)
Lemma load_config_counterexample :
  (exists loaded g,
      load_config "config.json" Scenario.plain_world
      = (Ok loaded, Scenario.plain_world)
      /\ Decode.generator loaded = Some g
      /\ brand_colors g = [])
  /\ (exists loaded g results w',
        load_config "config.json" Scenario.logo_world
        = (Ok loaded, Scenario.logo_world)
        /\ Decode.generator loaded = Some g
        /\ map size_name (sizes (image_variants (config g))) = ["thumb"; "thumb"]
        /\ batch_process g [PromptText "Summer sale"] Scenario.logo_world
           = (Ok results, w')
        /\ map (fun r => map vr_path (gr_variants r)) results
           = [["generated_images/thumb/prompt_1_thumb_20240601_120000.jpg";
               "generated_images/thumb/prompt_1_thumb_20240601_120000.jpg"]]
        /\ length (saved w') = 2).
Proof.
  split.
  - eexists. eexists. split; [vm_compute; reflexivity|].
    split; [vm_compute; reflexivity|reflexivity].
  - eexists. eexists. eexists. eexists. split; [vm_compute; reflexivity|].
    split; [vm_compute; reflexivity|].
    split; [reflexivity|].
    split; [vm_compute; reflexivity|].
    split; reflexivity.
Qed.

Lemma load_config_accepts_witness :
  exists loaded g w',
    load_config "config.json" Scenario.plain_world
    = (Ok loaded, Scenario.plain_world)
    /\ loaded_brand_colors loaded = JArr []
    /\ Decode.generator loaded = Some g
    /\ batch_process g Scenario.batch3 Scenario.plain_world = (Ok [], w').
Proof.
  destruct (load_config_accepts (PIL := Scenario.imaging) "config.json"
              Scenario.plain_world Scenario.no_colors_json
              (JObj [("name", JStr "TechBrand Inc.");
                     ("colors", JArr []);
                     ("style_keywords",
                      JStr "modern, clean, professional, minimalist");
                     ("logo_path", JStr "assets/logo.png")])
              (JArr [])
              (JObj [("output_directory", JStr "generated_images");
                     ("organize_by_date", JBool true)])
              (JStr "generated_images")
              eq_refl eq_refl eq_refl eq_refl eq_refl)
    as (loaded & E & Hcfg & Hcolors & Hdir & Hlogo & Hbatch).
  assert (Decode.generator loaded
          = Some {| config :=
                      {| brand :=
                           {| colors := [];
                              style_keywords :=
                                "modern, clean, professional, minimalist" |};
                         image_variants :=
                           {| format := "jpg";
                              sizes := [Scenario.size "thumbnail" 400 400] |} |};
                    brand_colors := [];
                    output_dir := "generated_images";
                    logo_path := Some "assets/logo.png" |}) as Hgen.
  { destruct loaded as [c bc od lp]. cbn in Hcfg, Hcolors, Hdir, Hlogo.
    subst c bc od. injection Hlogo as <-. reflexivity. }
  destruct (Hbatch _ Scenario.batch3 Hgen) as (results & w' & Erun & Hnone).
  - resizable_sizes.
  - intros n. reflexivity.
  - eexists. eexists. exists w'. split; [exact E|]. split; [exact Hcolors|].
    split; [exact Hgen|]. rewrite Erun, (Hnone eq_refl). reflexivity.
Defined.

Example str_nat_samples :
  Py.str_nat 0 = "0" /\ Py.str_nat 7 = "7" /\ Py.str_nat 10 = "10"
  /\ Py.str_nat 1080 = "1080" /\ Py.zfill 2 5 = "05" /\ Py.zfill 4 2024 = "2024".
Proof. repeat split; reflexivity. Qed.

Example ospath_samples :
  OsPath.join "generated_images" ["thumb"; "a.jpg"] = "generated_images/thumb/a.jpg"
  /\ OsPath.join "out/" ["/abs"; "a.jpg"] = "/abs/a.jpg"
  /\ OsPath.join "" ["thumb"; "a.jpg"] = "thumb/a.jpg"
  /\ OsPath.normpath "/home//u/./x/../y/" = "/home/u/y"
  /\ OsPath.normpath "//a/.." = "//"
  /\ OsPath.normpath "///a" = "/a"
  /\ OsPath.normpath "../a/../.." = "../.."
  /\ OsPath.normpath "a/.." = "."
  /\ OsPath.abspath "/srv/app" "generated_images/thumb/a.jpg"
     = "/srv/app/generated_images/thumb/a.jpg".
Proof. repeat split; reflexivity. Qed.

Example derived_name_samples :
  derived_name "Summer sale promotion with beach vibes and tropical elements"
  = "Summer_sale_promotion_with_bea"
  /\ derived_name "Web banner" = "Web_banner"
  /\ resolve_name "Web banner" (Some "") = "Web_banner"
  /\ resolve_name "Web banner" (Some "web_banner") = "web_banner".
Proof. repeat split; reflexivity. Qed.

Example timestamp_samples :
  strftime_compact (Scenario.clock 5) = "20240601_120005"
  /\ isoformat (Scenario.clock 5) = "2024-06-01T12:00:05"
  /\ isoformat {| year := 2024; month := 6; day := 1; hour := 9; minute := 3;
                  second := 0; microsecond := 1250 |}
     = "2024-06-01T09:03:00.001250".
Proof. repeat split; reflexivity. Qed.

Example float_samples :
  logo_target_size (Scenario.canvas 1000 1) (Scenario.logo 400 15) = Ok (100, 3)%Z
  /\ logo_target_size (Scenario.canvas 1020 1) (Scenario.logo 300 300)
     = Ok (102, 102)%Z
  /\ logo_target_size (Scenario.canvas 10 1) (Scenario.logo 49 49) = Ok (1, 0)%Z
  /\ logo_target_size (Scenario.canvas 10 1) (Scenario.logo 0 49)
     = Raise ZeroDivisionError.
Proof. repeat split; vm_compute; reflexivity. Qed.

(** * Further properties of the pipeline *)

(** ** [load_config]: what is required and what is not *)

(** [load_config] fails with a [KeyError] naming the first key it does
    not find among [brand], [colors], [storage], [output_directory], and
    with whatever reading the file raised when the file cannot be read.
    A load that fails keeps the assignments made before the failure:
    [self.config] once the file is read, [self.brand_colors] once the
    colours are found; the other attributes are as they were.
    [logo_path] is optional: without it the attribute is [None].  A load
    that returns has set the four attributes to what [load_config]
    returns as a record.  No other key is looked at. *)
Theorem load_config_required_keys `{PIL : Imaging}
    (config_path : string) (self : Attributes) (w : World) :
  (forall e, json_file w config_path = Raise e ->
             Self.load_config config_path self w = (Raise e, self))
  /\ forall fields,
      json_file w config_path = Ok (JObj fields) ->
      let read :=
        {| self_config := Some (JObj fields);
           self_brand_colors := self_brand_colors self;
           self_output_dir := self_output_dir self;
           self_logo_path := self_logo_path self |} in
      (Json.assoc "brand" fields = None ->
       Self.load_config config_path self w = (Raise (KeyError "brand"), read))
      /\ forall brand_fields,
          Json.assoc "brand" fields = Some (JObj brand_fields) ->
          (Json.assoc "colors" brand_fields = None ->
           Self.load_config config_path self w
           = (Raise (KeyError "colors"), read))
          /\ forall colors_v,
              Json.assoc "colors" brand_fields = Some colors_v ->
              let coloured :=
                {| self_config := Some (JObj fields);
                   self_brand_colors := Some colors_v;
                   self_output_dir := self_output_dir self;
                   self_logo_path := self_logo_path self |} in
              (Json.assoc "storage" fields = None ->
               Self.load_config config_path self w
               = (Raise (KeyError "storage"), coloured))
              /\ forall storage_fields,
                  Json.assoc "storage" fields = Some (JObj storage_fields) ->
                  (Json.assoc "output_directory" storage_fields = None ->
                   Self.load_config config_path self w
                   = (Raise (KeyError "output_directory"), coloured))
                  /\ forall output_dir_v,
                      Json.assoc "output_directory" storage_fields
                      = Some output_dir_v ->
                      let loaded :=
                        {| loaded_config := JObj fields;
                           loaded_brand_colors := colors_v;
                           loaded_output_dir := output_dir_v;
                           loaded_logo_path :=
                             match Json.assoc "logo_path" brand_fields with
                             | Some v => v
                             | None => JNull
                             end |} in
                      Self.load_config config_path self w
                      = (Ok tt, attributes_of loaded)
                      /\ load_config config_path w = (Ok loaded, w).
Proof.
  unfold Self.load_config, load_config, bind, json_load, lift, ret. split.
  - intros e ->. reflexivity.
  - intros fields ->. cbn [Json.getitem]. cbv zeta. split.
    + intros ->. reflexivity.
    + intros brand_fields ->. cbn [Json.getitem]. split.
      * intros ->. reflexivity.
      * intros colors_v ->. split.
        -- intros ->. reflexivity.
        -- intros storage_fields ->. cbn [Json.getitem]. split.
           ++ intros ->. reflexivity.
           ++ intros output_dir_v ->. cbn [Json.get].
              destruct (Json.assoc "logo_path" brand_fields);
                split; reflexivity.
Qed.

Lemma load_config_required_keys_witness :
  Self.load_config "config.json" Cases.unset
    (Scenario.world (JObj [("brand", JObj [("colors", JArr [])])])
       (Raise OSError) Scenario.no_fault Scenario.no_fault)
  = (Raise (KeyError "storage"),
     {| self_config := Some (JObj [("brand", JObj [("colors", JArr [])])]);
        self_brand_colors := Some (JArr []);
        self_output_dir := None;
        self_logo_path := None |})
  /\ Self.load_config "other.json" Cases.unset Scenario.plain_world
     = (Raise OSError, Cases.unset).
Proof.
  split.
  - destruct (load_config_required_keys (PIL := Scenario.imaging) "config.json"
                Cases.unset
                (Scenario.world (JObj [("brand", JObj [("colors", JArr [])])])
                   (Raise OSError) Scenario.no_fault Scenario.no_fault))
      as [_ H].
    destruct (H _ eq_refl) as [_ H1].
    destruct (H1 _ eq_refl) as [_ H2].
    destruct (H2 _ eq_refl) as [H3 _].
    exact (H3 eq_refl).
  - exact (proj1 (load_config_required_keys (PIL := Scenario.imaging)
                    "other.json" Cases.unset Scenario.plain_world)
             OSError eq_refl).
Defined.

(** ** The name derived from a prompt *)

Lemma length_replace_space (s : string) :
  String.length (Py.replace_space s) = String.length s.
Proof. induction s as [|c s IH]; cbn; [reflexivity|now rewrite IH]. Qed.

Lemma length_take (n : nat) (s : string) :
  String.length (Py.take n s) = Nat.min n (String.length s).
Proof.
  revert s. induction n as [|n IH]; intros [|c s]; cbn; try reflexivity.
  now rewrite IH.
Qed.

Lemma take_replace_space (n : nat) (s : string) :
  Py.take n (Py.replace_space s) = Py.replace_space (Py.take n s).
Proof.
  revert s. induction n as [|n IH]; intros [|c s]; cbn; try reflexivity.
  now rewrite IH.
Qed.

Lemma take_take (n : nat) (s : string) : Py.take n (Py.take n s) = Py.take n s.
Proof.
  revert s. induction n as [|n IH]; intros [|c s]; cbn; try reflexivity.
  now rewrite IH.
Qed.

Lemma replace_space_no_space (s : string) :
  ~ In " "%char (list_ascii_of_string (Py.replace_space s)).
Proof.
  induction s as [|c s IH]; cbn; [tauto|].
  intros [H|H]; [|now apply IH].
  destruct (Ascii.eqb c " ") eqn:E; [discriminate|].
  apply Ascii.eqb_neq in E. congruence.
Qed.

Lemma take_subset (n : nat) (s : string) (c : ascii) :
  In c (list_ascii_of_string (Py.take n s)) -> In c (list_ascii_of_string s).
Proof.
  revert s. induction n as [|n IH]; intros [|d s]; cbn; try tauto.
  intros [H|H]; [now left|right; now apply IH].
Qed.

(** The name [process_prompt] derives when it is given none: as long as
    the prompt up to 30 characters, without any space, and determined by
    the first 30 characters of the prompt alone, so prompts that agree
    on those get the same name. *)
Theorem derived_name_shape (prompt : string) :
  String.length (derived_name prompt) = Nat.min 30 (String.length prompt)
  /\ ~ In " "%char (list_ascii_of_string (derived_name prompt))
  /\ derived_name (Py.take 30 prompt) = derived_name prompt
  /\ forall other,
      Py.take 30 other = Py.take 30 prompt ->
      derived_name other = derived_name prompt.
Proof.
  unfold derived_name. repeat split.
  - now rewrite length_take, length_replace_space.
  - intros H. apply take_subset in H. now apply replace_space_no_space in H.
  - now rewrite !take_replace_space, take_take.
  - intros other H. now rewrite !take_replace_space, H.
Qed.

Lemma derived_name_shape_witness :
  Py.take 30 "Summer sale promotion with beach umbrellas"
  = Py.take 30 "Summer sale promotion with beach vibes"
  /\ derived_name "Summer sale promotion with beach umbrellas"
     = derived_name "Summer sale promotion with beach vibes".
Proof.
  assert (Py.take 30 "Summer sale promotion with beach umbrellas"
          = Py.take 30 "Summer sale promotion with beach vibes") as H
      by reflexivity.
  split; [exact H|].
  exact (proj2 (proj2 (proj2
           (derived_name_shape "Summer sale promotion with beach vibes")))
           "Summer sale promotion with beach umbrellas" H).
Defined.

(** ** What an export writes *)

Section ExportedFiles.

Context {PIL : Imaging}.

Lemma save_written (img : Image) (filepath : string) (w w' : World) :
  save img filepath w = (Ok tt, w') -> saved w' = (filepath, img) :: saved w.
Proof.
  unfold save. destruct (save_fault w (save_calls w)); [discriminate|].
  now intros [= <-].
Qed.

Lemma resize_mode (size : Z * Z) (img out : Image) :
  resize size img = Ok out -> image_mode out = image_mode img.
Proof.
  destruct size as [w h]. unfold resize.
  destruct (_ && _); [now intros [= <-]|].
  destruct (negb _); [discriminate|].
  destruct (_ || _); [discriminate|].
  destruct (resample_fault _ _); [discriminate|]. now intros [= <-].
Qed.

(** The file found at a path is the last one written there. *)
Lemma stored_in_last (earlier later rest : list (string * Image))
    (f : string * Image) :
  (forall f', In f' later -> fst f' <> fst f) ->
  stored_in (rev (earlier ++ f :: later) ++ rest) (fst f) = Some (snd f).
Proof.
  intros Hlater. rewrite rev_app_distr. cbn [rev].
  rewrite <- !app_assoc. cbn [app].
  assert (forall l : list (string * Image),
             (forall f', In f' l -> fst f' <> fst f) ->
             forall tail, stored_in (l ++ tail) (fst f)
                          = stored_in tail (fst f)) as Hskip.
  { induction l as [|[p i] l IH]; intros Hl tail; [reflexivity|].
    cbn [app stored_in].
    destruct (String.eqb_spec p (fst f)) as [E|_].
    - exfalso. apply (Hl (p, i)); [now left|exact E].
    - apply IH. intros f' Hf'. apply Hl. now right. }
  rewrite Hskip.
  - destruct f as [p i]. cbn [stored_in fst snd]. now rewrite String.eqb_refl.
  - intros f' Hf'. apply Hlater. now apply in_rev.
Qed.

(** The files of one run of the loop, oldest first: one per size, each
    the input image resized to that size, under that size's path. *)
Lemma generate_variants_loop_saved (g : Generator) (img : Image)
    (prompt_name timestamp : string) (todo : list SizeConfig) :
  forall variants w vs w',
    generate_variants_loop g img prompt_name timestamp todo variants w
    = (Ok vs, w') ->
    exists files,
      saved w' = (rev files ++ saved w)%list
      /\ Forall2
           (fun sc f =>
              fst f = variant_path g prompt_name timestamp sc
              /\ resize (size_width sc, size_height sc) img = Ok (snd f))
           todo files.
Proof.
  induction todo as [|sc todo IH]; intros variants w vs w'.
  - cbn. intros [= _ <-]. exists []. split; [reflexivity|constructor].
  - cbn [generate_variants_loop]. unfold bind, lift, gets.
    destruct (resize _ img) as [resized|e] eqn:Eresize; [|discriminate].
    destruct (save resized _ w) as [[[]|e] w1] eqn:Esave; [|discriminate].
    intros H. apply IH in H as (files & Hsaved & Hall).
    apply save_written in Esave.
    exists ((variant_path g prompt_name timestamp sc, resized) :: files).
    split.
    + rewrite Hsaved, Esave. cbn [rev]. now rewrite <- app_assoc.
    + constructor; [split; [reflexivity|exact Eresize]|exact Hall].
Qed.

End ExportedFiles.

(** When [generate_variants] returns, it has written exactly one file
    per configured size, in the configured order, under the path its
    variant reports; each file is the image it was given (not the previous
    variant) resized to exactly the configured width and height, in the
    mode of that image. *)
Theorem generate_variants_files `{PIL : Imaging}
    (g : Generator) (img : Image) (prompt_name : string) (w w' : World)
    (variants : list VariantResult) :
  generate_variants g img prompt_name w = (Ok variants, w') ->
  exists files,
    saved w' = (rev files ++ saved w)%list
    /\ map fst files = map vr_path variants
    /\ Forall2
         (fun sc f =>
            resize (size_width sc, size_height sc) img = Ok (snd f)
            /\ width (snd f) = size_width sc
            /\ height (snd f) = size_height sc
            /\ image_mode (snd f) = image_mode img)
         (sizes (image_variants (config g))) files.
Proof.
  intros H. pose proof H as Hres.
  apply generate_variants_result in Hres as [-> _].
  unfold generate_variants, bind, datetime_now in H.
  apply generate_variants_loop_saved in H as (files & Hsaved & Hall).
  exists files. split; [exact Hsaved|]. split.
  - rewrite map_map. cbn [vr_path variant_result].
    clear Hsaved. induction Hall as [|sc f l l' [Hpath _] _ IH];
      [reflexivity|]. cbn [map]. now rewrite Hpath, IH.
  - clear Hsaved. induction Hall as [|sc f l l' [_ Hresize] _ IH];
      constructor; [|exact IH].
    pose proof (resize_size _ _ _ Hresize) as Hsize.
    pose proof (resize_mode _ _ _ Hresize) as Hmode.
    unfold image_size in Hsize. injection Hsize as Hw Hh. auto.
Qed.

Lemma generate_variants_files_witness :
  exists variants w',
    generate_variants Scenario.two_sizes (Scenario.canvas 1024 1024)
      "summer_sale" Scenario.plain_world = (Ok variants, w')
    /\ map (fun f => (fst f, image_size (snd f))) (saved w')
       = [("generated_images/banner/summer_sale_banner_20240601_120000.jpg",
           (1920, 1080)%Z);
          ("generated_images/thumb/summer_sale_thumb_20240601_120000.jpg",
           (400, 400)%Z)].
Proof.
  pose (run := generate_variants Scenario.two_sizes (Scenario.canvas 1024 1024)
                 "summer_sale" Scenario.plain_world).
  destruct (generate_variants_files Scenario.two_sizes
              (Scenario.canvas 1024 1024) "summer_sale" Scenario.plain_world
              (snd run) (match fst run with Ok vs => vs | Raise _ => [] end)
              ltac:(vm_compute; reflexivity)) as (files & Hsaved & _).
  eexists. exists (snd run). split; [vm_compute; reflexivity|].
  vm_compute. reflexivity.
Defined.

(** Two variants with the same name are stored under the same path and
    have the same URL, so the file written later replaces the one written
    earlier: when two configured sizes share a name and no size after the
    second is stored at their path, the file found there after the call
    is the image resized to the second size. *)
Theorem same_name_same_path `{PIL : Imaging}
    (g : Generator) (img : Image) (prompt_name : string) (w w' : World)
    (variants : list VariantResult) :
  generate_variants g img prompt_name w = (Ok variants, w') ->
  (forall v1 v2,
      In v1 variants -> In v2 variants -> vr_name v1 = vr_name v2 ->
      vr_path v1 = vr_path v2 /\ vr_url v1 = vr_url v2)
  /\ forall before sc1 between sc2 after,
      sizes (image_variants (config g))
      = (before ++ sc1 :: between ++ sc2 :: after)%list ->
      size_name sc1 = size_name sc2 ->
      let path_of :=
        variant_path g prompt_name
          (strftime_compact (now_at w (clock_reads w))) in
      (forall sc, In sc after -> path_of sc <> path_of sc2) ->
      path_of sc1 = path_of sc2
      /\ exists second,
          resize (size_width sc2, size_height sc2) img = Ok second
          /\ stored w' (path_of sc1) = Some second.
Proof.
  intros H. split.
  - intros v1 v2 H1 H2 Hname.
    apply generate_variants_result in H as [-> _].
    apply in_map_iff in H1 as (sc1 & <- & _).
    apply in_map_iff in H2 as (sc2 & <- & _).
    cbn [vr_name variant_result] in Hname.
    cbn [vr_path vr_url variant_result]. unfold variant_path.
    rewrite Hname. split; reflexivity.
  - intros before sc1 between sc2 after Hsizes Hname path_of Hafter.
    assert (path_of sc1 = path_of sc2) as Hpath.
    { subst path_of. cbv beta. unfold variant_path. now rewrite Hname. }
    split; [exact Hpath|].
    unfold generate_variants, bind, datetime_now in H.
    apply generate_variants_loop_saved in H as (files & Hsaved & Hall).
    cbn [saved clock_reads now_at] in Hsaved.
    rewrite Hsizes in Hall.
    change (before ++ sc1 :: between ++ sc2 :: after)%list
      with (before ++ (sc1 :: between) ++ sc2 :: after)%list in Hall.
    rewrite app_assoc in Hall.
    apply Forall2_app_inv_l in Hall as (fs1 & fs2 & _ & Hall & ->).
    inversion Hall as [|? f ? fs3 [Hf Hresize] Hrest]; subst.
    exists (snd f). split; [exact Hresize|].
    unfold stored. rewrite Hsaved, Hpath. fold path_of in Hf. rewrite <- Hf.
    apply stored_in_last.
    clear - Hrest Hafter Hf. revert Hafter.
    induction Hrest as [|sc f0 l l' [Hf0 _] Hrest IH]; intros Hafter f' Hf';
      [contradiction|].
    destruct Hf' as [<-|Hf'].
    + rewrite Hf0, Hf. apply Hafter. now left.
    + exact (IH (fun sc' Hsc' => Hafter sc' (or_intror Hsc')) f' Hf').
Qed.

Lemma same_name_same_path_witness :
  exists v1 v2 w',
    generate_variants Cases.duplicate_thumb (Scenario.canvas 1024 1024) "sale"
      Scenario.plain_world = (Ok [v1; v2], w')
    /\ vr_size v1 = "400x400" /\ vr_size v2 = "600x200"
    /\ vr_path v1 = vr_path v2
    /\ option_map image_size (stored w' (vr_path v1)) = Some (600, 200)%Z.
Proof.
  pose (run := generate_variants Cases.duplicate_thumb
                 (Scenario.canvas 1024 1024) "sale" Scenario.plain_world).
  pose (vs := match fst run with Ok vs => vs | Raise _ => [] end).
  assert (run = (Ok vs, snd run)) as E by (vm_compute; reflexivity).
  pose (d := {| vr_name := ""; vr_size := ""; vr_path := ""; vr_url := "" |}).
  exists (nth 0 vs d), (nth 1 vs d), (snd run).
  split; [vm_compute; reflexivity|]. split; [reflexivity|].
  split; [reflexivity|].
  destruct (same_name_same_path Cases.duplicate_thumb
              (Scenario.canvas 1024 1024) "sale" Scenario.plain_world
              (snd run) vs E) as [Hsame Hlast].
  split.
  - apply Hsame.
    + vm_compute. left. reflexivity.
    + vm_compute. right. left. reflexivity.
    + reflexivity.
  - destruct (Hlast [] (Scenario.size "thumb" 400 400) []
                (Scenario.size "thumb" 600 200) [] eq_refl eq_refl)
      as (_ & second & Hresize & Hstored).
    + intros sc [].
    + vm_compute in Hresize. injection Hresize as <-.
      vm_compute in Hstored |- *. reflexivity.
Defined.

(** ** The provider *)

Section Provider.

Context {PIL : Imaging}.

Lemma generate_image_shape (g : Generator) (prompt : string) (w w' : World)
    (img : Image) :
  generate_image_with_gemini g prompt w = (Ok (Some img), w') ->
  width img = 1024%Z /\ height img = 1024%Z /\ image_mode img = RGB.
Proof.
  unfold generate_image_with_gemini, create_base_image, try_except.
  destruct (brand_colors g) as [|color rest]; [discriminate|].
  unfold bind, draw_placeholder, ret.
  destruct (render_fault w (provider_calls w)); [discriminate|].
  intros [= <- _]. repeat split.
Qed.

(** A size with a side below 1 or beyond a C [int] is refused, with an
    [OverflowError] when a side does not fit a C [int] and a
    [ValueError] otherwise. *)
Lemma resize_rejects (size : Z * Z) (img : Image) :
  (fst size < 1 \/ snd size < 1
   \/ 2147483647 < fst size \/ 2147483647 < snd size)%Z ->
  (1 <= width img <= 2147483647)%Z -> (1 <= height img <= 2147483647)%Z ->
  resize size img
  = Raise (if c_int (fst size) && c_int (snd size)
           then ValueError else OverflowError).
Proof.
  destruct size as [sw sh]. cbn [fst snd]. intros Hbad Hw Hh. unfold resize.
  assert (Z.eqb sw (width img) && Z.eqb sh (height img) = false) as ->.
  { apply andb_false_iff.
    destruct (Z.eqb_spec sw (width img)); [|now left].
    destruct (Z.eqb_spec sh (height img)); [|now right]. lia. }
  destruct (c_int sw && c_int sh) eqn:C; cbn [negb]; [|reflexivity].
  apply andb_prop in C as [Cw Ch]. apply c_int_range in Cw, Ch.
  destruct (Z.ltb_spec sw 1); [reflexivity|].
  destruct (Z.ltb_spec sh 1); [reflexivity|]. lia.
Qed.

End Provider.

(** [generate_image_with_gemini] never raises.  It returns no image
    exactly when there is no first brand colour or the rendering fails;
    an image it returns is 1024 by 1024 in mode RGB.  It makes one
    rendering call (none without a colour), reads no clock and writes no
    file; what it returns does not depend on the prompt. *)
Theorem generate_image_never_raises `{PIL : Imaging}
    (g : Generator) (prompt : string) (w : World) :
  exists o w',
    generate_image_with_gemini g prompt w = (Ok o, w')
    /\ (o = None <-> provision_ok g w 0 = false)
    /\ (forall img, o = Some img ->
          width img = 1024%Z /\ height img = 1024%Z /\ image_mode img = RGB)
    /\ advances w w' 0 (match brand_colors g with [] => 0 | _ => 1 end) 0
    /\ saved w' = saved w
    /\ forall other,
         generate_image_with_gemini g other w
         = generate_image_with_gemini g prompt w.
Proof.
  destruct (generate_image_outcome g prompt w) as (o & w' & E & Ho & Hadv & Hs).
  exists o, w'. split; [exact E|]. split; [|split; [|split; [|split]]].
  - destruct (provision_ok g w 0).
    + destruct Ho as [img ->]. split; discriminate.
    + subst o. split; reflexivity.
  - intros img ->. exact (generate_image_shape g prompt w w' img E).
  - exact Hadv.
  - exact Hs.
  - intros other. reflexivity.
Qed.

(** When the base image is not provided, [process_prompt] returns
    [None] without raising; it has read no clock and written no file. *)
Theorem process_prompt_without_image `{PIL : Imaging}
    (g : Generator) (prompt : string) (name : option string) (w : World) :
  provision_ok g w 0 = false ->
  exists w',
    process_prompt g prompt name w = (Ok None, w')
    /\ advances w w' 0 (match brand_colors g with [] => 0 | _ => 1 end) 0
    /\ saved w' = saved w.
Proof.
  intros Hno. rewrite process_prompt_unfold.
  destruct (generate_image_outcome g prompt w) as (o & w' & -> & Ho & Hadv & Hs).
  rewrite Hno in Ho. subst o. exists w'.
  split; [reflexivity|]. split; [exact Hadv|exact Hs].
Qed.

Lemma process_prompt_without_image_witness :
  provision_ok Scenario.summer Cases.first_render_fails 0 = false
  /\ exists w',
      process_prompt Scenario.summer "Summer sale" None Cases.first_render_fails
      = (Ok None, w')
      /\ saved w' = [] /\ clock_reads w' = 0 /\ provider_calls w' = 1.
Proof.
  split; [reflexivity|].
  destruct (process_prompt_without_image Scenario.summer "Summer sale" None
              Cases.first_render_fails eq_refl)
    as (w' & E & Hadv & Hsaved).
  exists w'. split; [exact E|]. split; [exact Hsaved|].
  destruct Hadv as (_ & _ & _ & _ & _ & _ & _ & Hclock & Hcalls & _).
  split; [exact Hclock|exact Hcalls].
Defined.

(** ** Branding small images *)

Lemma logo_target_size_narrow `{PIL : Imaging} (img logo : Image) :
  (0 <= width img < 10)%Z ->
  logo_target_size img logo = Ok (0, 0)%Z
  \/ exists e, logo_target_size img logo = Raise e.
Proof.
  intros Hw. unfold logo_target_size, PyFloat.true_div.
  rewrite (Z.div_small _ _ Hw).
  destruct (Z.eqb (width logo) 0); [right; eauto|].
  change (PyFloat.of_int 0) with (S754_zero false).
  unfold PyFloat.mul.
  destruct (PyFloat.of_int (width logo)) as [s| s| |s m e];
    destruct (PyFloat.of_int (height logo)) as [s'| s'| |s' m' e'];
    cbn; eauto.
Qed.

(** A base image narrower than 10 pixels is never branded: the logo
    width comes out as 0, scaling is refused, and [apply_branding] returns
    the image it was given, whatever the logo. *)
Theorem apply_branding_narrow_image `{PIL : Imaging}
    (g : Generator) (img : Image) (w : World) :
  (0 <= width img < 10)%Z ->
  apply_branding g img w = (Ok img, w).
Proof.
  intros Hw. rewrite apply_branding_returns. f_equal. f_equal.
  unfold branded.
  destruct (logo_path g) as [path|]; [|reflexivity].
  destruct (Py.truthy path && path_exists w path); [|reflexivity].
  destruct (image_file w path) as [opened|e]; [|reflexivity].
  destruct (logo_target_size_narrow img (convert RGBA opened) Hw)
    as [E|[e E]]; rewrite E; [|reflexivity].
  pose proof E as E'. unfold logo_target_size, PyFloat.true_div in E'.
  destruct (Z.eqb_spec (width (convert RGBA opened)) 0) as [|Hnz];
    [discriminate|].
  unfold resize.
  destruct (Z.eqb_spec 0 (width (convert RGBA opened))) as [Hz|_];
    [congruence|reflexivity].
Qed.

Lemma apply_branding_narrow_image_witness :
  (0 <= width (Scenario.canvas 9 9) < 10)%Z
  /\ apply_branding (Scenario.with_logo "assets/logo.png") (Scenario.canvas 9 9)
       Scenario.logo_world
     = (Ok (Scenario.canvas 9 9), Scenario.logo_world).
Proof.
  assert (0 <= width (Scenario.canvas 9 9) < 10)%Z as H by (cbn; lia).
  split; [exact H|].
  exact (apply_branding_narrow_image (Scenario.with_logo "assets/logo.png")
           (Scenario.canvas 9 9) Scenario.logo_world H).
Defined.

(** ** A configured size that is refused *)

Lemma generate_variants_bad_size `{PIL : Imaging}
    (g : Generator) (img : Image) (prompt_name : string) (w : World)
    (done : list SizeConfig) (sc : SizeConfig) (todo : list SizeConfig) :
  sizes (image_variants (config g)) = (done ++ sc :: todo)%list ->
  Forall (resizable (image_size img)) done ->
  (size_width sc < 1 \/ size_height sc < 1
   \/ 2147483647 < size_width sc \/ 2147483647 < size_height sc)%Z ->
  (1 <= width img <= 2147483647)%Z -> (1 <= height img <= 2147483647)%Z ->
  (forall j, j < length done -> save_fault w (save_calls w + j) = None) ->
  exists w',
    generate_variants g img prompt_name w
    = (Raise (if c_int (size_width sc) && c_int (size_height sc)
              then ValueError else OverflowError), w')
    /\ length (saved w') = length (saved w) + length done
    /\ advances w w' 1 0 (length done).
Proof.
  intros Hsizes Hdone Hbad Hw Hh Hbefore.
  unfold generate_variants, bind at 1, datetime_now. rewrite Hsizes.
  rewrite generate_variants_loop_app. unfold bind at 1.
  match goal with
  | |- context [generate_variants_loop _ _ _ ?ts done ?v ?w1] =>
      destruct (generate_variants_loop_ok g img prompt_name ts done v w1 Hdone)
        as (vs & w2 & E & Hlen)
  end.
  { exact Hbefore. }
  rewrite E. apply generate_variants_loop_result in E as [_ Hadv].
  cbn [generate_variants_loop]. unfold bind, lift.
  rewrite (resize_rejects (size_width sc, size_height sc) img Hbad Hw Hh).
  cbn [fst snd].
  exists w2. split; [reflexivity|]. split; [exact Hlen|].
  destruct Hadv as (A1 & A2 & A3 & A4 & A5 & A6 & A7 & A8 & A9 & A10).
  cbn in A1, A2, A3, A4, A5, A6, A7, A8, A9, A10.
  unfold advances. repeat split; try assumption; lia.
Qed.

(** If a configured size has a side below 1 or beyond the range of a C
    [int], every prompt whose base image is provided fails when the
    export reaches that size, with an [OverflowError] when a side does
    not fit a C [int] and a [ValueError] otherwise: the variants before
    it, of sizes [resize] accepts, have been written, its own save is not
    attempted, and nothing is returned. *)
Theorem process_prompt_rejects_size `{PIL : Imaging}
    (g : Generator) (prompt : string) (name : option string) (w : World)
    (done : list SizeConfig) (sc : SizeConfig) (todo : list SizeConfig) :
  sizes (image_variants (config g)) = (done ++ sc :: todo)%list ->
  Forall (resizable (1024, 1024)%Z) done ->
  (size_width sc < 1 \/ size_height sc < 1
   \/ 2147483647 < size_width sc \/ 2147483647 < size_height sc)%Z ->
  provision_ok g w 0 = true ->
  (forall j, j < length done -> save_fault w (save_calls w + j) = None) ->
  exists w',
    process_prompt g prompt name w
    = (Raise (if c_int (size_width sc) && c_int (size_height sc)
              then ValueError else OverflowError), w')
    /\ length (saved w') = length (saved w) + length done
    /\ save_calls w' = save_calls w + length done.
Proof.
  intros Hsizes Hdone Hbad Hprov Hbefore. rewrite process_prompt_unfold.
  destruct (generate_image_outcome g prompt w)
    as (o & w1 & E & Ho & Hadv & Hsaved).
  rewrite Hprov in Ho. destruct Ho as [img ->]. rewrite E.
  pose proof (generate_image_size g prompt w w1 img E) as Hsize.
  rewrite <- Hsize in Hdone.
  unfold image_size in Hsize. injection Hsize as Hbw Hbh.
  destruct Hadv as (A1 & A2 & A3 & A4 & A5 & A6 & A7 & A8 & A9 & A10).
  rewrite Nat.add_0_r in A10.
  destruct (generate_variants_bad_size g (branded g img w1)
              (resolve_name prompt name) w1 done sc todo Hsizes Hdone Hbad)
    as (w2 & -> & Hlen & Hadv2).
  { lia. }
  { lia. }
  { intros j Hj. rewrite A7, A10. now apply Hbefore. }
  exists w2. split; [reflexivity|].
  destruct Hadv2 as (_ & _ & _ & _ & _ & _ & _ & _ & _ & B10).
  split; [now rewrite Hlen, Hsaved|]. now rewrite B10, A10.
Qed.

Lemma process_prompt_rejects_size_witness :
  (exists w',
      process_prompt
        (Cases.with_sizes [Scenario.size "thumb" 400 400;
                           Scenario.size "strip" 600 0])
        "Summer sale" None Scenario.plain_world
      = (Raise ValueError, w')
      /\ length (saved w') = 1 /\ save_calls w' = 1)
  /\ exists w',
      process_prompt
        (Cases.with_sizes [Scenario.size "wide" 2147483648 1;
                           Scenario.size "strip" 600 0])
        "Summer sale" None Scenario.plain_world
      = (Raise OverflowError, w')
      /\ length (saved w') = 0 /\ save_calls w' = 0.
Proof.
  split.
  - destruct (process_prompt_rejects_size
                (Cases.with_sizes [Scenario.size "thumb" 400 400;
                                   Scenario.size "strip" 600 0])
                "Summer sale" None Scenario.plain_world
                [Scenario.size "thumb" 400 400] (Scenario.size "strip" 600 0)
                [])
      as (w' & E & Hsaved & Hcalls).
    + reflexivity.
    + resizable_sizes.
    + right. left. cbn. lia.
    + reflexivity.
    + intros j _. reflexivity.
    + exists w'. split; [exact E|]. split; [exact Hsaved|exact Hcalls].
  - destruct (process_prompt_rejects_size
                (Cases.with_sizes [Scenario.size "wide" 2147483648 1;
                                   Scenario.size "strip" 600 0])
                "Summer sale" None Scenario.plain_world
                [] (Scenario.size "wide" 2147483648 1)
                [Scenario.size "strip" 600 0])
      as (w' & E & Hsaved & Hcalls).
    + reflexivity.
    + resizable_sizes.
    + right. right. left. cbn. lia.
    + reflexivity.
    + intros j Hj. cbn in Hj. lia.
    + exists w'. split; [exact E|]. split; [exact Hsaved|exact Hcalls].
Defined.

(** ** What a batch that returns has done *)

Section Accounting.

Context {PIL : Imaging}.

Lemma generate_variants_saved_length (g : Generator) (img : Image)
    (prompt_name : string) (w w' : World) (vs : list VariantResult) :
  generate_variants g img prompt_name w = (Ok vs, w') ->
  length (saved w')
  = length (saved w) + length (sizes (image_variants (config g))).
Proof.
  unfold generate_variants, bind, datetime_now. intros H.
  apply generate_variants_loop_saved in H as (files & -> & Hall).
  rewrite length_app, length_rev. cbn [saved].
  apply Forall2_length in Hall. lia.
Qed.

(** The two ways in which [process_prompt] returns. *)
Lemma process_prompt_inversion (g : Generator) (prompt : string)
    (name : option string) (w w' : World) (o : option GenerationResult) :
  process_prompt g prompt name w = (Ok o, w') ->
  (provision_ok g w 0 = true
   /\ o = Some (expected_result g w 0 prompt name)
   /\ advances w w' 2 (match brand_colors g with [] => 0 | _ => 1 end)
        (length (sizes (image_variants (config g))))
   /\ length (saved w')
      = length (saved w) + length (sizes (image_variants (config g))))
  \/ (provision_ok g w 0 = false
      /\ o = None
      /\ advances w w' 0 (match brand_colors g with [] => 0 | _ => 1 end) 0
      /\ saved w' = saved w).
Proof.
  intros H. pose proof H as H0. rewrite process_prompt_unfold in H0.
  destruct (generate_image_outcome g prompt w)
    as (o1 & w1 & E1 & Ho & Hadv & Hsaved).
  rewrite E1 in H0.
  destruct (provision_ok g w 0).
  - left. destruct Ho as [img ->].
    destruct (generate_variants _ _ _ w1) as [[vs|e] w2] eqn:Egv;
      [|discriminate].
    unfold datetime_now in H0. injection H0 as <- <-.
    apply process_prompt_result in H as [Hr Hadv'].
    apply generate_variants_saved_length in Egv.
    split; [reflexivity|]. split; [now rewrite Hr|]. split; [exact Hadv'|].
    cbn [saved]. now rewrite Egv, Hsaved.
  - right. subst o1. injection H0 as <- <-.
    split; [reflexivity|]. split; [reflexivity|]. split; assumption.
Qed.

Lemma expected_results_length (g : Generator) (w : World)
    (prompts : list prompt_data) :
  forall i k c, length (expected_results g w i k c prompts) <= length prompts.
Proof.
  induction prompts as [|entry rest IH]; intros i k c; [reflexivity|].
  cbn [expected_results length].
  destruct (provision_ok g w k); cbn [length]; specialize (IH (S i) (S k));
    [specialize (IH (c + 2))|specialize (IH c)]; lia.
Qed.

(** Whenever the loop returns, it has appended the expected results and
    moved the world on by two clock readings and one file per size for
    each of them, and by one rendering for each entry. *)
Lemma batch_loop_inversion (g : Generator) (w0 : World)
    (prompts : list prompt_data) :
  forall i k c s results w rs w',
    advances w0 w c (match brand_colors g with [] => 0 | _ => k end) s ->
    batch_loop g i prompts results w = (Ok rs, w') ->
    let n := length (expected_results g w0 i k c prompts) in
    rs = (results ++ expected_results g w0 i k c prompts)%list
    /\ advances w0 w' (c + 2 * n)
         (match brand_colors g with [] => 0 | _ => k + length prompts end)
         (s + n * length (sizes (image_variants (config g))))
    /\ length (saved w')
       = length (saved w) + n * length (sizes (image_variants (config g))).
Proof.
  induction prompts as [|entry rest IH]; intros i k c s results w rs w' Hadv.
  - cbn [batch_loop expected_results length]. unfold ret.
    intros [= <- <-]. split; [now rewrite app_nil_r|]. split; [|lia].
    replace (c + 2 * 0) with c by lia.
    replace (k + 0) with k by lia.
    replace (s + 0 * length (sizes (image_variants (config g)))) with s by lia.
    exact Hadv.
  - rewrite batch_loop_cons. unfold bind.
    destruct (process_prompt g _ _ w) as [[o|e] w1] eqn:Eprompt; [|discriminate].
    intros Hrest.
    assert (provision_ok g w 0 = provision_ok g w0 k) as Hprov.
    { rewrite <- (Nat.add_0_r k).
      destruct Hadv as (_ & _ & _ & _ & _ & Hrf & _ & _ & Hpc & _).
      exact (provision_ok_shift g w0 w k 0 Hrf Hpc). }
    apply process_prompt_inversion in Eprompt
      as [(Hok & -> & Hadv1 & Hsaved1)|(Hno & -> & Hadv1 & Hsaved1)];
      pose proof (advances_trans _ _ _ _ _ _ _ _ _ Hadv Hadv1) as Hadv01;
      replace (match brand_colors g with [] => 0 | _ :: _ => k end
               + match brand_colors g with [] => 0 | _ :: _ => 1 end)
        with (match brand_colors g with [] => 0 | _ :: _ => S k end) in Hadv01
        by (destruct (brand_colors g); lia);
      apply (IH (S i) (S k) _ _ _ w1 rs w' Hadv01) in Hrest
        as (Hrs & Hadv' & Hsaved');
      cbn [expected_results length]; rewrite <- Hprov.
    + rewrite Hok. cbn [collect] in Hrs. cbn [length].
      rewrite (expected_result_shift g w0 w c _ s _ _ Hadv) in Hrs.
      split; [now rewrite Hrs, <- app_assoc|].
      split.
      * replace (c + 2 * S (length (expected_results g w0 (S i) (S k) (c + 2) rest)))
          with (c + 2 + 2 * length (expected_results g w0 (S i) (S k) (c + 2) rest))
          by lia.
        replace (k + S (length rest)) with (S k + length rest) by lia.
        replace (s + S (length (expected_results g w0 (S i) (S k) (c + 2) rest))
                     * length (sizes (image_variants (config g))))
          with (s + length (sizes (image_variants (config g)))
                + length (expected_results g w0 (S i) (S k) (c + 2) rest)
                  * length (sizes (image_variants (config g))))
          by lia.
        exact Hadv'.
      * rewrite Hsaved', Hsaved1. lia.
    + rewrite Hno. cbn [collect] in Hrs.
      rewrite ?Nat.add_0_r in Hrs, Hsaved'.
      replace (c + 0) with c in Hadv' by lia.
      replace (s + 0) with s in Hadv' by lia.
      split; [exact Hrs|].
      split.
      * replace (k + S (length rest)) with (S k + length rest) by lia.
        exact Hadv'.
      * now rewrite Hsaved', Hsaved1.
Qed.

End Accounting.

(** Whenever [batch_process] returns, whatever failed or not on the
    way: its results are the expected ones, at most one per entry; it has
    asked for one rendering per entry (none when there is no brand
    colour), read the clock twice per result, and written one file per
    result and configured size. *)
Theorem batch_process_accounting `{PIL : Imaging}
    (g : Generator) (prompts : list prompt_data) (w w' : World)
    (results : list GenerationResult) :
  batch_process g prompts w = (Ok results, w') ->
  results = expected_results g w 1 0 0 prompts
  /\ length results <= length prompts
  /\ provider_calls w'
     = provider_calls w
       + match brand_colors g with [] => 0 | _ => length prompts end
  /\ clock_reads w' = clock_reads w + 2 * length results
  /\ save_calls w'
     = save_calls w
       + length results * length (sizes (image_variants (config g)))
  /\ length (saved w')
     = length (saved w)
       + length results * length (sizes (image_variants (config g))).
Proof.
  intros H. unfold batch_process in H.
  apply (batch_loop_inversion g w prompts 1 0 0 0 [] w results w') in H
    as (Hrs & Hadv & Hsaved).
  - cbn [app] in Hrs. rewrite <- Hrs in Hadv, Hsaved.
    destruct Hadv as (_ & _ & _ & _ & _ & _ & _ & Hc & Hp & Hs).
    split; [exact Hrs|]. split; [rewrite Hrs; apply expected_results_length|].
    repeat split; assumption.
  - replace (match brand_colors g with [] => 0 | _ :: _ => 0 end) with 0
      by (now destruct (brand_colors g)).
    apply advances_refl.
Qed.

Lemma batch_process_accounting_witness :
  exists results w',
    batch_process Scenario.two_sizes Scenario.batch3 Scenario.second_render_fails
    = (Ok results, w')
    /\ length results = 2 /\ provider_calls w' = 3
    /\ clock_reads w' = 4 /\ length (saved w') = 4.
Proof.
  pose (run := batch_process Scenario.two_sizes Scenario.batch3
                 Scenario.second_render_fails).
  pose (rs := match fst run with Ok rs => rs | Raise _ => [] end).
  assert (run = (Ok rs, snd run)) as E by (vm_compute; reflexivity).
  destruct (batch_process_accounting Scenario.two_sizes Scenario.batch3
              Scenario.second_render_fails (snd run) rs E)
    as (Hrs & _ & Hp & Hc & _ & Hsaved).
  exists rs, (snd run). split; [exact E|].
  assert (length rs = 2) as Hlen by (rewrite Hrs; vm_compute; reflexivity).
  split; [exact Hlen|]. split; [exact Hp|].
  split; [rewrite Hc, Hlen; reflexivity|]. rewrite Hsaved, Hlen. reflexivity.
Defined.

(** ** The name of an entry that gives one *)

(** A dict entry with a ['name'] is handed to [process_prompt] under
    that name, at whatever position it stands.  A non-empty name is the
    one the files are stored under; an empty name is replaced by the name
    derived from the prompt text, not by ["prompt_i"]. *)
Theorem batch_process_given_name `{PIL : Imaging}
    (g : Generator) (before : list prompt_data) (prompt name : string)
    (after : list prompt_data) (w : World) :
  let i := length before + 1 in
  let used := if Py.truthy name then name else derived_name prompt in
  batch_process g (before ++ PromptDict prompt (Some name) :: after) w
  = bind (batch_loop g 1 before [])
      (fun results =>
         bind (process_prompt g prompt (Some name))
           (fun result => batch_loop g (S i) after (collect results result))) w
  /\ forall w0 w1 r,
      process_prompt g prompt (Some name) w0 = (Ok (Some r), w1) ->
      Forall2
        (fun sc v =>
           vr_path v
           = OsPath.join (output_dir g)
               [size_name sc;
                used ++ "_" ++ size_name sc ++ "_"
                ++ strftime_compact (now_at w0 (clock_reads w0))
                ++ "." ++ format (image_variants (config g))])
        (sizes (image_variants (config g))) (gr_variants r).
Proof.
  intros i used. split.
  - unfold batch_process. rewrite batch_loop_app. apply bind_ext.
    intros results w1. rewrite batch_loop_cons.
    replace (1 + length before) with i by (subst i; lia). reflexivity.
  - intros w0 w1 r H. apply process_prompt_result in H as [-> _].
    cbn [gr_variants expected_result]. rewrite Nat.add_0_r.
    apply Forall2_map_self. intros sc _. reflexivity.
Qed.

Lemma batch_process_given_name_witness :
  exists r w1,
    process_prompt Scenario.summer "Web banner" (Some "") Scenario.plain_world
    = (Ok (Some r), w1)
    /\ Forall2
         (fun sc v =>
            vr_path v
            = OsPath.join "generated_images"
                [size_name sc;
                 "Web_banner_" ++ size_name sc ++ "_20240601_120000.jpg"])
         [Scenario.size "thumb" 400 400] (gr_variants r).
Proof.
  pose (run := process_prompt Scenario.summer "Web banner" (Some "")
                 Scenario.plain_world).
  pose (r := match fst run with
             | Ok (Some r) => r
             | _ => {| gr_prompt := ""; gr_timestamp := ""; gr_variants := [] |}
             end).
  assert (run = (Ok (Some r), snd run)) as E by (vm_compute; reflexivity).
  exists r, (snd run). split; [exact E|].
  exact (proj2 (batch_process_given_name Scenario.summer [] "Web banner" "" []
                  Scenario.plain_world)
           Scenario.plain_world (snd run) r E).
Defined.

(** * Startup *)

(** ** [setup_gemini] *)

(** The key comes from the environment when [GEMINI_API_KEY] is set and
    not empty, and then the configuration is not looked at, so a missing
    [api] section goes unnoticed.  Otherwise it comes from
    [api.gemini_api_key]: a missing key raises [KeyError], an empty value
    [ValueError], and any other value is accepted as it is.  The key that
    is configured is never empty. *)
Theorem setup_gemini_key_source
    (getenv : string -> option string) (cfg : json) :
  (forall s, getenv "GEMINI_API_KEY" = Some s -> Py.truthy s = true ->
             setup_gemini getenv cfg = Ok (JStr s))
  /\ ((getenv "GEMINI_API_KEY" = None \/ getenv "GEMINI_API_KEY" = Some "") ->
      (forall fields, cfg = JObj fields -> Json.assoc "api" fields = None ->
         setup_gemini getenv cfg = Raise (KeyError "api"))
      /\ (forall fields api_fields,
            cfg = JObj fields ->
            Json.assoc "api" fields = Some (JObj api_fields) ->
            (Json.assoc "gemini_api_key" api_fields = None ->
             setup_gemini getenv cfg = Raise (KeyError "gemini_api_key"))
            /\ forall key,
                Json.assoc "gemini_api_key" api_fields = Some key ->
                setup_gemini getenv cfg
                = if PyVal.truthy key then Ok key else Raise ValueError))
  /\ forall key, setup_gemini getenv cfg = Ok key -> PyVal.truthy key = true.
Proof.
  unfold setup_gemini, PyVal.or_else. split; [|split].
  - intros s -> Hs. cbn [PyVal.truthy]. rewrite Hs. cbn. now rewrite Hs.
  - intros Henv.
    assert (PyVal.truthy
              match getenv "GEMINI_API_KEY" with
              | Some s => JStr s
              | None => JNull
              end = false) as -> by (destruct Henv as [->| ->]; reflexivity).
    split.
    + intros fields -> Hapi. cbn [Json.getitem]. now rewrite Hapi.
    + intros fields api_fields -> Hapi. cbn [Json.getitem]. rewrite Hapi.
      cbn [Json.getitem]. split.
      * intros ->. reflexivity.
      * intros key ->. now destruct (PyVal.truthy key).
  - intros key.
    destruct (PyVal.truthy _) eqn:Eenv.
    + rewrite Eenv. cbn [negb]. now intros [= <-].
    + destruct (match Json.getitem cfg "api" with
                | Ok api => Json.getitem api "gemini_api_key"
                | Raise e => Raise e
                end) as [k|e]; [|discriminate].
      destruct (PyVal.truthy k) eqn:Ek; cbn [negb]; [|discriminate].
      now intros [= <-].
Qed.

Lemma setup_gemini_key_source_witness :
  setup_gemini (fun _ => Some "AIza-from-env") (JObj []) = Ok (JStr "AIza-from-env")
  /\ setup_gemini (fun _ => None) (JObj []) = Raise (KeyError "api")
  /\ setup_gemini (fun _ => Some "")
       (JObj [("api", JObj [("gemini_api_key", JStr "")])])
     = Raise ValueError
  /\ setup_gemini (fun _ => None)
       (JObj [("api",
               JObj [("gemini_api_key", JStr "YOUR_GEMINI_API_KEY_HERE")])])
     = Ok (JStr "YOUR_GEMINI_API_KEY_HERE").
Proof.
  split; [|split; [|split]].
  - exact (proj1 (setup_gemini_key_source (fun _ => Some "AIza-from-env")
                    (JObj [])) "AIza-from-env" eq_refl eq_refl).
  - exact (proj1 (proj1 (proj2 (setup_gemini_key_source (fun _ => None)
                                  (JObj [])))
                    (or_introl eq_refl)) [] eq_refl eq_refl).
  - exact (proj2 (proj2 (proj1 (proj2
             (setup_gemini_key_source (fun _ => Some "")
                (JObj [("api", JObj [("gemini_api_key", JStr "")])])))
             (or_intror eq_refl)) _ _ eq_refl eq_refl) (JStr "") eq_refl).
  - exact (proj2 (proj2 (proj1 (proj2
             (setup_gemini_key_source (fun _ => None)
                (JObj [("api",
                        JObj [("gemini_api_key",
                               JStr "YOUR_GEMINI_API_KEY_HERE")])])))
             (or_introl eq_refl)) _ _ eq_refl eq_refl)
             (JStr "YOUR_GEMINI_API_KEY_HERE") eq_refl).
Defined.

(** ** Where the variants go *)

Lemma join_step_relative (path b : string) :
  OsPath.isabs b = false -> exists rest, OsPath.join_step path b = path ++ rest.
Proof.
  intros Hb. unfold OsPath.join_step. fold (OsPath.isabs b). rewrite Hb.
  destruct (negb (Py.truthy path) || Py.ends_with_slash path); eauto.
Qed.

Lemma join_step_absolute (path b : string) :
  OsPath.isabs b = true -> OsPath.join_step path b = b.
Proof.
  intros Hb. unfold OsPath.join_step. fold (OsPath.isabs b). now rewrite Hb.
Qed.

Lemma isabs_variant_filename (g : Generator) (prompt_name name timestamp : string) :
  OsPath.isabs (variant_filename g prompt_name name timestamp)
  = OsPath.isabs prompt_name.
Proof.
  unfold variant_filename. rewrite isabs_app.
  destruct prompt_name as [|c rest]; reflexivity.
Qed.

(** Where a variant is stored depends on whether the names are
    absolute.  A prompt name starting with ["/"] makes the path the file
    name alone; otherwise a variant name starting with ["/"] makes it that
    name followed by the file name; in both cases the output directory
    plays no part.  With neither, the path begins with the output
    directory. *)
Theorem variant_path_and_output_dir `{PIL : Imaging}
    (g : Generator) (img : Image) (prompt_name : string) (w w' : World)
    (variants : list VariantResult) :
  generate_variants g img prompt_name w = (Ok variants, w') ->
  let timestamp := strftime_compact (now_at w (clock_reads w)) in
  Forall2
    (fun sc v =>
       let filename := variant_filename g prompt_name (size_name sc) timestamp in
       (OsPath.isabs prompt_name = true -> vr_path v = filename)
       /\ (OsPath.isabs prompt_name = false ->
           OsPath.isabs (size_name sc) = true ->
           vr_path v = OsPath.join (size_name sc) [filename])
       /\ (OsPath.isabs prompt_name = false ->
           OsPath.isabs (size_name sc) = false ->
           Py.startswith (vr_path v) (output_dir g) = true))
    (sizes (image_variants (config g))) variants.
Proof.
  intros H timestamp. apply generate_variants_result in H as [-> _].
  apply Forall2_map_self. intros sc _. cbv zeta.
  cbn [vr_path variant_result]. unfold variant_path.
  cbn [OsPath.join fold_left].
  pose proof (isabs_variant_filename g prompt_name (size_name sc) timestamp)
    as Hfile.
  fold timestamp. split; [|split].
  - intros Hp. apply join_step_absolute. now rewrite Hfile.
  - intros _ Hn. now rewrite (join_step_absolute _ _ Hn).
  - intros Hp Hn. rewrite Hp in Hfile.
    destruct (join_step_relative (output_dir g) (size_name sc) Hn) as [r1 ->].
    destruct (join_step_relative (output_dir g ++ r1)
                (variant_filename g prompt_name (size_name sc) timestamp) Hfile)
      as [r2 ->].
    unfold Py.startswith. rewrite app_assoc_string. apply prefix_app.
Qed.

Lemma variant_path_and_output_dir_witness :
  exists v w',
    generate_variants Scenario.summer (Scenario.canvas 1024 1024)
      "/tmp/banner" Scenario.plain_world = (Ok [v], w')
    /\ vr_path v = "/tmp/banner_thumb_20240601_120000.jpg".
Proof.
  pose (run := generate_variants Scenario.summer (Scenario.canvas 1024 1024)
                 "/tmp/banner" Scenario.plain_world).
  pose (vs := match fst run with Ok vs => vs | Raise _ => [] end).
  assert (run = (Ok vs, snd run)) as E by (vm_compute; reflexivity).
  pose proof (variant_path_and_output_dir Scenario.summer
                (Scenario.canvas 1024 1024) "/tmp/banner" Scenario.plain_world
                (snd run) vs E) as Hall.
  pose (d := {| vr_name := ""; vr_size := ""; vr_path := ""; vr_url := "" |}).
  exists (nth 0 vs d), (snd run). split; [vm_compute; reflexivity|].
  assert (vs = [nth 0 vs d]) as Hvs by (vm_compute; reflexivity).
  rewrite Hvs in Hall.
  inversion Hall as [|sc v l l' (Habs & _) Hrest Hsc Hv]; subst.
  apply Habs. reflexivity.
Defined.

(** ** [create_directories] *)

Lemma create_size_directories_ok (g : Generator) (todo : list SizeConfig) :
  forall d,
    (forall n, mkdir_fault d n = None) ->
    exists d',
      create_size_directories g todo d = (Ok tt, d')
      /\ mkdir_fault d' = mkdir_fault d
      /\ mkdir_calls d' = mkdir_calls d + length todo
      /\ made d' = (rev (map (size_directory g) todo) ++ made d)%list.
Proof.
  induction todo as [|sc rest IH]; intros d Hok.
  - exists d. cbn. repeat split. lia.
  - cbn [create_size_directories]. unfold mkdir. rewrite Hok.
    destruct (IH {| mkdir_fault := mkdir_fault d;
                    mkdir_calls := S (mkdir_calls d);
                    made := size_directory g sc :: made d |} Hok)
      as (d' & -> & Hf & Hc & Hm).
    exists d'. cbn in Hf, Hc, Hm. split; [reflexivity|].
    split; [exact Hf|]. split; [cbn; lia|].
    rewrite Hm. cbn [map rev]. now rewrite <- app_assoc.
Qed.

Lemma join_in_size_directory (g : Generator) (sc : SizeConfig) (file : string) :
  Py.truthy (output_dir g) = true ->
  Py.ends_with_slash (output_dir g) = false ->
  OsPath.isabs (size_name sc) = false ->
  OsPath.join (output_dir g) [size_name sc; file]
  = OsPath.join (size_directory g sc) [file].
Proof.
  intros Ht Hs Hn. cbn [OsPath.join fold_left]. f_equal.
  unfold OsPath.join_step at 1. fold (OsPath.isabs (size_name sc)).
  rewrite Hn, Ht, Hs. reflexivity.
Qed.

Lemma has_slash_app (a b : string) :
  has_slash (a ++ b) = has_slash a || has_slash b.
Proof.
  induction a as [|c a IH]; [reflexivity|].
  cbn [append has_slash]. now rewrite IH, orb_assoc.
Qed.

Lemma has_slash_isabs (s : string) :
  has_slash s = false -> OsPath.isabs s = false.
Proof.
  destruct s as [|c s]; [reflexivity|].
  rewrite isabs_cons. cbn [has_slash]. intros H.
  now apply orb_false_iff in H as [-> _].
Qed.

Lemma ends_with_slash_app (a b : string) :
  Py.truthy b = true -> has_slash b = false ->
  Py.ends_with_slash (a ++ b) = false.
Proof.
  intros Ht Hb.
  assert (Py.ends_with_slash b = false) as Hend.
  { clear Ht. induction b as [|c b IH]; [reflexivity|].
    cbn [has_slash] in Hb. apply orb_false_iff in Hb as [Hc Hb].
    cbn [Py.ends_with_slash]. destruct b; [exact Hc|now apply IH]. }
  induction a as [|c a IH]; [exact Hend|].
  cbn [append Py.ends_with_slash].
  destruct (a ++ b) eqn:E; [|exact IH].
  destruct a; [|discriminate]. cbn in E. subst b. discriminate.
Qed.

Lemma has_slash_digit (n : nat) : Ascii.eqb (Py.digit (n mod 10)) "/" = false.
Proof.
  pose proof (Nat.mod_upper_bound n 10 ltac:(lia)) as H.
  remember (n mod 10) as k eqn:E. clear E.
  do 10 (destruct k as [|k]; [reflexivity|]). lia.
Qed.

Lemma has_slash_digits_aux (fuel : nat) :
  forall n acc,
    has_slash acc = false -> has_slash (Py.digits_aux fuel n acc) = false.
Proof.
  induction fuel as [|f IH]; intros n acc Hacc; [exact Hacc|].
  cbn [Py.digits_aux].
  assert (has_slash (String (Py.digit (n mod 10)) acc) = false) as H.
  { cbn [has_slash]. now rewrite has_slash_digit. }
  destruct (n <? 10)%nat; [exact H|now apply IH].
Qed.

Lemma has_slash_zfill (w n : nat) : has_slash (Py.zfill w n) = false.
Proof.
  unfold Py.zfill.
  assert (has_slash (Py.str_nat n) = false) as H
      by (now apply has_slash_digits_aux).
  induction (w - String.length (Py.str_nat n)) as [|k IH]; [exact H|].
  cbn [Py.zfill_aux has_slash]. exact IH.
Qed.

Lemma has_slash_strftime_compact (d : datetime) :
  has_slash (strftime_compact d) = false.
Proof.
  unfold strftime_compact.
  now rewrite !has_slash_app, !has_slash_zfill.
Qed.

(** When no [mkdir] fails, [create_directories] asks for the output
    directory and then for one directory per configured size, in order.
    If the output directory is not empty and does not end with a slash,
    the variant names are not empty, and neither they nor the prompt name
    nor the format contain a slash, every file [generate_variants] stores
    lies directly in the directory asked for its size: its path is that
    directory, a slash, and a file name without a slash. *)
Theorem create_directories_cover_exports `{PIL : Imaging}
    (g : Generator) (d : Disk) (img : Image) (prompt_name : string)
    (w w' : World) (variants : list VariantResult) :
  (forall n, mkdir_fault d n = None) ->
  Py.truthy (output_dir g) = true ->
  Py.ends_with_slash (output_dir g) = false ->
  has_slash prompt_name = false ->
  has_slash (format (image_variants (config g))) = false ->
  Forall (fun sc => Py.truthy (size_name sc) = true
                    /\ has_slash (size_name sc) = false)
         (sizes (image_variants (config g))) ->
  generate_variants g img prompt_name w = (Ok variants, w') ->
  exists d',
    create_directories g d = (Ok tt, d')
    /\ made d'
       = (rev (output_dir g
               :: map (size_directory g) (sizes (image_variants (config g))))
          ++ made d)%list
    /\ Forall2
         (fun sc v =>
            let filename :=
              variant_filename g prompt_name (size_name sc)
                (strftime_compact (now_at w (clock_reads w))) in
            In (size_directory g sc) (made d')
            /\ has_slash filename = false
            /\ vr_path v = size_directory g sc ++ "/" ++ filename)
         (sizes (image_variants (config g))) variants.
Proof.
  intros Hok Ht Hs Hprompt Hformat Hnames H.
  apply generate_variants_result in H as [-> _].
  unfold create_directories, mkdir. rewrite Hok.
  destruct (create_size_directories_ok g (sizes (image_variants (config g)))
              {| mkdir_fault := mkdir_fault d;
                 mkdir_calls := S (mkdir_calls d);
                 made := output_dir g :: made d |} Hok)
    as (d' & -> & _ & _ & Hm).
  cbn [made] in Hm.
  assert (made d'
          = (rev (output_dir g
                  :: map (size_directory g) (sizes (image_variants (config g))))
             ++ made d)%list) as Hmade.
  { rewrite Hm. cbn [rev]. now rewrite <- app_assoc. }
  exists d'. split; [reflexivity|]. split; [exact Hmade|].
  apply Forall2_map_self. intros sc Hsc. cbv zeta.
  rewrite Forall_forall in Hnames. destruct (Hnames sc Hsc) as [Hnt Hns].
  assert (has_slash
            (variant_filename g prompt_name (size_name sc)
               (strftime_compact (now_at w (clock_reads w)))) = false)
    as Hfile.
  { unfold variant_filename.
    now rewrite !has_slash_app, Hprompt, Hns, Hformat,
      has_slash_strftime_compact. }
  split; [|split; [exact Hfile|]].
  - rewrite Hmade. apply in_or_app. left. apply in_rev. rewrite rev_involutive.
    right. now apply in_map.
  - cbn [vr_path variant_result]. unfold variant_path.
    rewrite (join_in_size_directory g sc _ Ht Hs (has_slash_isabs _ Hns)).
    cbn [OsPath.join fold_left]. unfold OsPath.join_step.
    fold (OsPath.isabs
            (variant_filename g prompt_name (size_name sc)
               (strftime_compact (now_at w (clock_reads w))))).
    rewrite (has_slash_isabs _ Hfile).
    assert (Py.ends_with_slash (size_directory g sc) = false) as ->.
    { unfold size_directory. rewrite <- app_assoc_string.
      now apply ends_with_slash_app. }
    assert (Py.truthy (size_directory g sc) = true) as ->.
    { unfold size_directory. destruct (output_dir g); [discriminate|reflexivity]. }
    reflexivity.
Qed.

Lemma create_directories_cover_exports_witness :
  exists d' variants w',
    create_directories Scenario.two_sizes
      {| mkdir_fault := fun _ => None; mkdir_calls := 0; made := [] |}
    = (Ok tt, d')
    /\ made d' = ["generated_images/banner"; "generated_images/thumb";
                  "generated_images"]
    /\ generate_variants Scenario.two_sizes (Scenario.canvas 1024 1024)
         "summer_sale" Scenario.plain_world = (Ok variants, w')
    /\ map vr_path variants
       = ["generated_images/thumb/summer_sale_thumb_20240601_120000.jpg";
          "generated_images/banner/summer_sale_banner_20240601_120000.jpg"].
Proof.
  pose (run := generate_variants Scenario.two_sizes (Scenario.canvas 1024 1024)
                 "summer_sale" Scenario.plain_world).
  pose (vs := match fst run with Ok vs => vs | Raise _ => [] end).
  assert (run = (Ok vs, snd run)) as E by (vm_compute; reflexivity).
  destruct (create_directories_cover_exports Scenario.two_sizes
              {| mkdir_fault := fun _ => None; mkdir_calls := 0; made := [] |}
              (Scenario.canvas 1024 1024) "summer_sale" Scenario.plain_world
              (snd run) vs)
    as (d' & Ed & Hmade & _).
  - intros n. reflexivity.
  - reflexivity.
  - reflexivity.
  - reflexivity.
  - reflexivity.
  - repeat constructor.
  - exact E.
  - exists d', vs, (snd run). split; [exact Ed|]. split; [exact Hmade|].
    split; [exact E|]. vm_compute. reflexivity.
Defined.

(** * Notification *)

Lemma concat_empty_cons (x : string) (l : list string) :
  String.concat "" (x :: l) = x ++ String.concat "" l.
Proof. destruct l; cbn; [now rewrite app_empty_r|reflexivity]. Qed.

Lemma concat_empty_app (a b : list string) :
  String.concat "" (a ++ b) = String.concat "" a ++ String.concat "" b.
Proof.
  induction a as [|x a IH]; [reflexivity|].
  cbn [app]. now rewrite !concat_empty_cons, IH, app_assoc_string.
Qed.

Lemma fold_add_variant (variants : list VariantResult) :
  forall message,
    fold_left add_variant variants message
    = message ++ String.concat "" (map variant_line variants).
Proof.
  induction variants as [|v rest IH]; intros message.
  - cbn. now rewrite app_empty_r.
  - cbn [fold_left map]. rewrite IH, concat_empty_cons.
    unfold add_variant, variant_line. now rewrite !app_assoc_string.
Qed.

Lemma add_result_block (message : string) (result : GenerationResult) :
  add_result message result = message ++ result_block result.
Proof.
  unfold add_result, result_block. rewrite fold_add_variant.
  now rewrite !app_assoc_string.
Qed.

Lemma fold_add_result (results : list GenerationResult) :
  forall message,
    fold_left add_result results message
    = message ++ String.concat "" (map result_block results).
Proof.
  induction results as [|r rest IH]; intros message.
  - cbn. now rewrite app_empty_r.
  - cbn [fold_left map]. rewrite IH, concat_empty_cons, add_result_block.
    now rewrite app_assoc_string.
Qed.

Lemma occurs_in_concat (t : string) (l : list string) :
  In t l -> Py.occurs_in t (String.concat "" l).
Proof.
  intros H. apply in_split in H as (l1 & l2 & ->).
  rewrite concat_empty_app, concat_empty_cons.
  now exists (String.concat "" l1), (String.concat "" l2).
Qed.

Lemma occurs_in_trans (a b c : string) :
  Py.occurs_in a b -> Py.occurs_in b c -> Py.occurs_in a c.
Proof.
  intros (b1 & a1 & ->) (b2 & a2 & ->).
  exists (b2 ++ b1), (a1 ++ a2). now rewrite !app_assoc_string.
Qed.

Lemma occurs_in_app_l (t a b : string) :
  Py.occurs_in t a -> Py.occurs_in t (a ++ b).
Proof.
  intros (b1 & a1 & ->). exists b1, (a1 ++ b). now rewrite !app_assoc_string.
Qed.

Lemma occurs_in_app_r (t a b : string) :
  Py.occurs_in t b -> Py.occurs_in t (a ++ b).
Proof.
  intros (b1 & a1 & ->). exists (a ++ b1), a1. now rewrite !app_assoc_string.
Qed.

Lemma occurs_in_self (t : string) : Py.occurs_in t t.
Proof. exists "", "". cbn. now rewrite app_empty_r. Qed.

Lemma prompt_line_in_block (r : GenerationResult) :
  Py.occurs_in ("Prompt: " ++ gr_prompt r ++ PyVal.newline) (result_block r).
Proof.
  exists "".
  exists ("Generated at: " ++ gr_timestamp r ++ PyVal.newline
          ++ "Variants:" ++ PyVal.newline
          ++ String.concat "" (map variant_line (gr_variants r))
          ++ PyVal.newline).
  unfold result_block. change ("" ++ ?x) with x.
  now rewrite !app_assoc_string.
Qed.

Lemma variant_line_in_block (r : GenerationResult) (v : VariantResult) :
  In v (gr_variants r) -> Py.occurs_in (variant_line v) (result_block r).
Proof.
  intros Hv. unfold result_block.
  do 8 apply occurs_in_app_r. apply occurs_in_app_l.
  apply occurs_in_concat. now apply in_map.
Qed.

(** The message is the header followed by one block per result, in
    order; a longer list of results only adds blocks at the end.  Every
    result's prompt and every variant's name and URL appear in it. *)
Theorem notification_message_blocks (results : list GenerationResult) :
  notification_message results
  = notification_header ++ String.concat "" (map result_block results)
  /\ (forall more,
        notification_message (results ++ more)
        = notification_message results
          ++ String.concat "" (map result_block more))
  /\ forall r v,
      In r results -> In v (gr_variants r) ->
      Py.occurs_in ("Prompt: " ++ gr_prompt r ++ PyVal.newline)
        (notification_message results)
      /\ Py.occurs_in
           ("  - " ++ vr_name v ++ ": " ++ vr_url v ++ PyVal.newline)
           (notification_message results).
Proof.
  unfold notification_message. split; [apply fold_add_result|]. split.
  - intros more. rewrite !fold_add_result, map_app, concat_empty_app.
    now rewrite app_assoc_string.
  - intros r v Hr Hv. rewrite fold_add_result.
    assert (Py.occurs_in (result_block r)
              (notification_header
               ++ String.concat "" (map result_block results))) as Hblock
        by (apply occurs_in_app_r, occurs_in_concat; now apply in_map).
    split.
    + exact (occurs_in_trans _ _ _ (prompt_line_in_block r) Hblock).
    + exact (occurs_in_trans _ _ _ (variant_line_in_block r v Hv) Hblock).
Qed.

Lemma notification_message_blocks_witness :
  In Cases.sample_result [Cases.sample_result]
  /\ In Cases.sample_variant (gr_variants Cases.sample_result)
  /\ Py.occurs_in
       ("  - thumb: file:///srv/app/generated_images/thumb/a.jpg"
        ++ PyVal.newline)
       (notification_message [Cases.sample_result]).
Proof.
  assert (In Cases.sample_result [Cases.sample_result]) as Hr
      by (left; reflexivity).
  assert (In Cases.sample_variant (gr_variants Cases.sample_result)) as Hv
      by (left; reflexivity).
  split; [exact Hr|]. split; [exact Hv|].
  exact (proj2 (proj2 (proj2 (notification_message_blocks
                                [Cases.sample_result]))
                  Cases.sample_result Cases.sample_variant Hr Hv)).
Defined.

(** [send_notification] on a configuration whose [notification] section
    is absent or an object never raises, whatever the webhook answers.  It
    posts exactly when [enabled] and [webhook_url] are both set to
    something truthy, once, with the message and the results it was given;
    when disabled it prints one line, otherwise the banner and the
    message, and after a post one line of report.  A [notification]
    section that is anything but an object raises [AttributeError] before
    anything is printed. *)
Theorem send_notification_outcome
    (cfg : json) (results : list GenerationResult) (o : Outbox) :
  (forall fields,
      PyVal.get cfg "notification" (JObj []) = Ok (JObj fields) ->
      let enabled :=
        PyVal.truthy match Json.assoc "enabled" fields with
                     | Some v => v
                     | None => JBool false
                     end in
      let url :=
        match Json.assoc "webhook_url" fields with
        | Some v => v
        | None => JNull
        end in
      let message := notification_message results in
      exists o',
        send_notification cfg results o = (Ok tt, o')
        /\ post_reply o' = post_reply o
        /\ post_calls o'
           = post_calls o + (if enabled && PyVal.truthy url then 1 else 0)
        /\ posted o'
           = ((if enabled && PyVal.truthy url
               then [(url, message, results)] else []) ++ posted o)%list
        /\ (enabled = false ->
            printed o'
            = (PyVal.newline ++ "Notifications disabled") :: printed o)
        /\ (enabled = true ->
            exists report,
              printed o'
              = (report
                 ++ [message; rule; "NOTIFICATION";
                     (PyVal.newline ++ rule)%string]
                 ++ printed o)%list
              /\ length report = if PyVal.truthy url then 1 else 0))
  /\ forall nc,
      PyVal.get cfg "notification" (JObj []) = Ok nc ->
      (forall fields, nc <> JObj fields) ->
      send_notification cfg results o = (Raise AttributeError, o).
Proof.
  split.
  - intros fields Hget enabled url message. unfold send_notification.
    rewrite Hget. cbn [PyVal.get].
    replace (match Json.assoc "enabled" fields with
             | Some v => Ok v
             | None => Ok (JBool false)
             end)
      with (Ok match Json.assoc "enabled" fields with
               | Some v => v
               | None => JBool false
               end)
      by (now destruct (Json.assoc "enabled" fields)).
    fold enabled.
    replace (match Json.assoc "webhook_url" fields with
             | Some v => Ok v
             | None => Ok JNull
             end)
      with (Ok url) by (subst url; now destruct (Json.assoc "webhook_url" fields)).
    destruct enabled; cbn [negb andb].
    + fold message. destruct (PyVal.truthy url).
      * unfold post_webhook.
        destruct (post_reply _ _) as [status_code|text]; eexists;
          (split; [reflexivity|]); unfold print;
          cbn [printed post_reply post_calls posted app];
          (split; [reflexivity|]); (split; [lia|]); (split; [reflexivity|]);
          (split; [discriminate|]); intros _.
        -- exists ["Webhook notification sent: " ++ Py.str status_code].
           split; reflexivity.
        -- exists ["Error sending webhook: " ++ text]. split; reflexivity.
      * eexists. split; [reflexivity|]. unfold print.
        cbn [printed post_reply post_calls posted app].
        split; [reflexivity|]. split; [lia|]. split; [reflexivity|].
        split; [discriminate|]. intros _. exists []. split; reflexivity.
    + eexists. split; [reflexivity|]. unfold print.
      cbn [printed post_reply post_calls posted app].
      split; [reflexivity|]. split; [lia|]. split; [reflexivity|].
      split; [reflexivity|discriminate].
  - intros nc Hget Hnot. unfold send_notification. rewrite Hget.
    destruct nc; try reflexivity. now contradiction (Hnot fields).
Qed.

Lemma send_notification_outcome_witness :
  send_notification
    (JObj [("notification",
            JObj [("enabled", JBool true); ("webhook_url", JStr "")])])
    [Cases.sample_result]
    {| printed := []; post_reply := fun _ => Refused "no route";
       post_calls := 0; posted := [] |}
  = (Ok tt,
     {| printed := [notification_message [Cases.sample_result]; rule;
                    "NOTIFICATION"; PyVal.newline ++ rule];
        post_reply := fun _ => Refused "no route";
        post_calls := 0; posted := [] |})
  /\ exists o',
      send_notification
        (JObj [("notification",
                JObj [("enabled", JBool true);
                      ("webhook_url", JStr "https://example.org/hook")])])
        [Cases.sample_result]
        {| printed := []; post_reply := fun _ => Refused "no route";
           post_calls := 0; posted := [] |}
      = (Ok tt, o')
      /\ posted o'
         = [(JStr "https://example.org/hook",
             notification_message [Cases.sample_result],
             [Cases.sample_result])].
Proof.
  split; [reflexivity|].
  destruct (proj1 (send_notification_outcome
                     (JObj [("notification",
                             JObj [("enabled", JBool true);
                                   ("webhook_url",
                                    JStr "https://example.org/hook")])])
                     [Cases.sample_result]
                     {| printed := []; post_reply := fun _ => Refused "no route";
                        post_calls := 0; posted := [] |})
              _ eq_refl) as (o' & E & _ & _ & Hposted & _).
  exists o'. split; [exact E|exact Hposted].
Defined.

(** * The setup script *)

Section SetupSteps.

Import SetupScript.

Lemma setup_step_refl (paths : list string) (d : Desk) : setup_step paths d d.
Proof.
  unfold setup_step. repeat split; try (intros; assumption).
  - now exists [].
  - exists []. split; [reflexivity|constructor].
  - now exists [].
Qed.

Lemma setup_step_trans (p1 p2 : list string) (d1 d2 d3 : Desk) :
  setup_step p1 d1 d2 -> setup_step p2 d2 d3 ->
  setup_step (p1 ++ p2) d1 d3.
Proof.
  intros (A1 & A2 & A3 & A4 & (u1 & A5) & (n1 & A6 & A6') & (m1 & A7))
         (B1 & B2 & B3 & B4 & (u2 & B5) & (n2 & B6 & B6') & (m2 & B7)).
  unfold setup_step. repeat split; try congruence.
  - intros q Hq. auto.
  - exists (u1 ++ u2)%list. now rewrite A5, B5, app_assoc.
  - exists (n2 ++ n1)%list. split; [now rewrite B6, A6, app_assoc|].
    apply Forall_app. split.
    + revert B6'. apply Forall_impl. intros f Hf. apply in_or_app. now right.
    + revert A6'. apply Forall_impl. intros f Hf. apply in_or_app. now left.
  - exists (m2 ++ m1)%list. now rewrite B7, A7, app_assoc.
Qed.

Lemma setup_step_weaken (p1 p2 : list string) (d d' : Desk) :
  (forall q, In q p1 -> In q p2) -> setup_step p1 d d' -> setup_step p2 d d'.
Proof.
  intros Hsub (A1 & A2 & A3 & A4 & A5 & (n & A6 & A6') & A7).
  unfold setup_step. repeat split; try assumption.
  exists n. split; [exact A6|]. revert A6'. apply Forall_impl.
  intros f. apply Hsub.
Qed.

Lemma now_present_keeps (path : string) (d : Desk) (q : string) :
  present d q = true -> now_present path d q = true.
Proof. unfold now_present. intros ->. apply orb_true_r. Qed.

Lemma write_file_step (path : string) (c : content) (d d' : Desk) (e : ended) :
  write_file path c d = (e, d') -> setup_step [path] d d'.
Proof.
  unfold write_file. destruct (open_fault d path).
  - intros [= _ <-]. apply setup_step_refl.
  - intros [= _ <-]. unfold setup_step. cbn. repeat split.
    + apply now_present_keeps.
    + now exists [].
    + exists [(path, c)]. split; [reflexivity|]. repeat constructor.
    + now exists [].
Qed.

Lemma input_step (d d' : Desk) (r : option string) :
  input d = (r, d') -> setup_step [] d d' /\ written d' = written d.
Proof.
  unfold input. destruct (answers d) as [|a rest] eqn:E.
  - intros [= _ <-]. split; [apply setup_step_refl|reflexivity].
  - intros [= _ <-]. split; [|reflexivity]. unfold setup_step. cbn.
    repeat split; try (intros; assumption).
    + exists [a]. now rewrite E.
    + exists []. split; [reflexivity|constructor].
    + now exists [].
Qed.

Lemma create_or_ask_step (path : string) (create : Desk -> ended * Desk)
    (d d' : Desk) (e : ended) :
  (forall d0 e0 d1, create d0 = (e0, d1) -> setup_step [path] d0 d1) ->
  create_or_ask path create d = (e, d') -> setup_step [path] d d'.
Proof.
  intros Hcreate. unfold create_or_ask.
  destruct (present d path); [|apply Hcreate].
  destruct (input d) as [[response|] d1] eqn:Ein;
    apply input_step in Ein as [Hin _].
  - destruct (negb (lower response =? "y")).
    + intros [= _ <-].
      exact (setup_step_weaken [] [path] _ _ ltac:(intros q []) Hin).
    + intros H. apply Hcreate in H.
      exact (setup_step_trans [] [path] _ _ _ Hin H).
  - intros [= _ <-].
    exact (setup_step_weaken [] [path] _ _ ltac:(intros q []) Hin).
Qed.


Lemma make_directories_step (todo : list string) :
  forall d d' e,
    make_directories todo d = (e, d') ->
    setup_step [] d d' /\ written d' = written d
    /\ (e = Returned -> directories d' = (rev todo ++ directories d)%list)
    /\ (forall why, e = Stopped why ->
          exists p err, In p todo /\ make_fault d p = Some err
                        /\ why = Uncaught err).
Proof.
  induction todo as [|p rest IH]; intros d d' e.
  - cbn. intros [= <- <-]. split; [apply setup_step_refl|].
    split; [reflexivity|]. split; [reflexivity|discriminate].
  - cbn [make_directories]. unfold make_directory.
    destruct (make_fault d p) as [err|] eqn:Ef.
    + intros [= <- <-]. split; [apply setup_step_refl|].
      split; [reflexivity|]. split; [discriminate|].
      intros why [= <-]. exists p, err. split; [now left|]. now split.
    + intros H. apply IH in H as (Hstep & Hw & Hd & Hstop). cbn in Hw, Hd, Hstop.
      split; [|split; [exact Hw|split]].
      * refine (setup_step_trans [] [] d _ d' _ Hstep).
        unfold setup_step. cbn. repeat split.
        -- apply now_present_keeps.
        -- now exists [].
        -- exists []. split; [reflexivity|constructor].
        -- now exists [p].
      * intros He. rewrite (Hd He). cbn [rev]. now rewrite <- app_assoc.
      * intros why He. destruct (Hstop why He) as (q & err & Hq & Hf & ->).
        exists q, err. split; [now right|]. now split.
Qed.

Lemma create_placeholder_logo_step (d d' : Desk) (e : ended) :
  create_placeholder_logo d = (e, d') ->
  e = Returned /\ setup_step ["assets/logo.png"] d d'.
Proof.
  unfold create_placeholder_logo. destruct (logo_fault d) eqn:Elogo.
  - intros [= <- <-]. split; [reflexivity|apply setup_step_refl].
  - intros [= <- <-]. split; [reflexivity|]. unfold setup_step. cbn.
    rewrite Elogo. repeat split.
    + apply now_present_keeps.
    + now exists [].
    + exists [("assets/logo.png", LogoFile)]. split; [reflexivity|].
      repeat constructor.
    + now exists [].
Qed.


End SetupSteps.

Section SetupMain.

Import SetupScript.

Lemma setup_step_other_path (paths : list string) (d d' : Desk)
    (p : string) (c : content) :
  setup_step paths d d' -> ~ In p paths ->
  In (p, c) (written d') -> In (p, c) (written d).
Proof.
  intros (_ & _ & _ & _ & _ & (new & -> & Hnew) & _) Hp Hin.
  apply in_app_or in Hin as [Hin|Hin]; [|exact Hin].
  rewrite Forall_forall in Hnew. apply Hnew in Hin. contradiction.
Qed.

(** One block of [main], for the file [path] with content [c]. *)
Lemma create_or_ask_cases (path : string) (c : content) (d d' : Desk)
    (e : ended) :
  create_or_ask path (write_file path c) d = (e, d') ->
  setup_step [path] d d'
  /\ directories d' = directories d
  /\ (forall q, q <> path -> present d' q = present d q)
  /\ (e = Returned ->
      if present d path then exists a, answers d = a :: answers d'
      else answers d' = answers d)
  /\ (forall why, e = Stopped why ->
        (why = EndOfInput /\ present d path = true /\ answers d = [])
        \/ exists err, why = Uncaught err /\ open_fault d path = Some err).
Proof.
  intros H. split.
  { revert H. apply create_or_ask_step. intros d0 e0 d1.
    apply write_file_step. }
  revert H. unfold create_or_ask, input, write_file.
  assert (forall q, q <> path -> now_present path d q = present d q) as Hnow.
  { intros q Hq. unfold now_present.
    destruct (String.eqb_spec q path); [contradiction|reflexivity]. }
  destruct (present d path) eqn:Ethere.
  - destruct (answers d) as [|a rest] eqn:Ea.
    + intros [= <- <-]. repeat split; try discriminate.
      intros why [= <-]. left. repeat split; assumption.
    + destruct (negb (lower a =? "y")).
      * intros [= <- <-]. cbn. repeat split; try discriminate.
        intros _. now exists a.
      * cbn [open_fault]. destruct (open_fault d path) as [err|] eqn:Eo.
        -- intros [= <- <-]. cbn. repeat split; try discriminate.
           intros why [= <-]. right. now exists err.
        -- intros [= <- <-]. cbn. repeat split; try discriminate.
           ++ exact Hnow.
           ++ intros _. now exists a.
  - destruct (open_fault d path) as [err|] eqn:Eo.
    + intros [= <- <-]. repeat split; try discriminate.
      intros why [= <-]. right. now exists err.
    + intros [= <- <-]. cbn. repeat split; try discriminate. exact Hnow.
Qed.

(** [main], stage by stage. *)
Lemma main_stages (d d' : Desk) (e : ended) :
  main d = (e, d') ->
  exists e1 d1 e2 d2 e3 d3,
    create_or_ask "config.json" create_config d = (e1, d1)
    /\ (e1 = Returned /\ create_or_ask ".env" create_env_file d1 = (e2, d2)
        \/ e1 = e /\ e2 = e /\ d2 = d1 /\ e <> Returned)
    /\ (e2 = Returned /\ create_directories d2 = (e3, d3)
        \/ e2 = e /\ e3 = e /\ d3 = d2 /\ e <> Returned)
    /\ (e3 = Returned /\ present d3 "assets/logo.png" = false
        /\ create_placeholder_logo d3 = (e, d')
        \/ e3 = e /\ d' = d3
           /\ (e3 = Returned -> present d3 "assets/logo.png" = true)).
Proof.
  unfold main.
  destruct (create_or_ask "config.json" create_config d) as [e1 d1] eqn:E1.
  destruct e1 as [|why1].
  - destruct (create_or_ask ".env" create_env_file d1) as [e2 d2] eqn:E2.
    destruct e2 as [|why2].
    + destruct (create_directories d2) as [e3 d3] eqn:E3.
      destruct e3 as [|why3].
      * destruct (present d3 "assets/logo.png") eqn:El; cbn [negb].
        -- intros [= <- <-].
           exists Returned, d1, Returned, d2, Returned, d3.
           split; [reflexivity|]. split; [left; now split|].
           split; [left; now split|]. right. repeat split; congruence.
        -- intros H.
           exists Returned, d1, Returned, d2, Returned, d3.
           split; [reflexivity|]. split; [left; now split|].
           split; [left; now split|]. left. now repeat split.
      * intros [= <- <-].
        exists Returned, d1, Returned, d2, (Stopped why3), d3.
        split; [reflexivity|]. split; [left; now split|].
        split; [left; now split|]. right. repeat split; congruence.
    + intros [= <- <-].
      exists Returned, d1, (Stopped why2), d2, (Stopped why2), d2.
      split; [reflexivity|]. split; [left; now split|].
      split; [right; repeat split; discriminate|]. right.
      repeat split; discriminate.
  - intros [= <- <-].
    exists (Stopped why1), d1, (Stopped why1), d1, (Stopped why1), d1.
    split; [reflexivity|]. split; [right; repeat split; discriminate|].
    split; [right; repeat split; discriminate|]. right.
      repeat split; discriminate.
Qed.

End SetupMain.

Section SetupProperties.

Import SetupScript.





End SetupProperties.

Section SetupOutcome.

Import SetupScript.

Lemma make_directories_present (todo : list string) :
  forall d d' e,
    make_directories todo d = (e, d') ->
    forall q, ~ In q todo -> present d' q = present d q.
Proof.
  induction todo as [|p rest IH]; intros d d' e.
  - cbn. now intros [= _ <-].
  - cbn [make_directories]. unfold make_directory.
    destruct (make_fault d p).
    + now intros [= _ <-].
    + intros H q Hq. rewrite (IH _ _ _ H q); [|intros Hin; apply Hq; now right].
      cbn. unfold now_present.
      destruct (String.eqb_spec q p) as [->|_]; [|reflexivity].
      exfalso. apply Hq. now left.
Qed.

Lemma create_or_ask_missing (path : string) (c : content) (d d' : Desk) :
  present d path = false ->
  create_or_ask path (write_file path c) d = (Returned, d') ->
  written d' = (path, c) :: written d.
Proof.
  intros Hno. unfold create_or_ask, write_file. rewrite Hno.
  destruct (open_fault d path); [discriminate|]. now intros [= <-].
Qed.

Lemma setup_step_grows (paths : list string) (d d' : Desk)
    (f : string * content) :
  setup_step paths d d' -> In f (written d) -> In f (written d').
Proof.
  intros (_ & _ & _ & _ & _ & (new & -> & _) & _) Hin.
  apply in_or_app. now right.
Qed.

(** The script stops early only because the input ran out at a question
    about a file that is there, or because writing [config.json] or [.env]
    or making one of its directories failed; a logo that cannot be drawn
    never stops it. *)
Theorem setup_stops_only_for (d d' : Desk) (why : stop) :
  main d = (Stopped why, d') ->
  (why = EndOfInput
   /\ (present d "config.json" = true \/ present d ".env" = true))
  \/ exists err,
      why = Uncaught err
      /\ (open_fault d "config.json" = Some err
          \/ open_fault d ".env" = Some err
          \/ exists p, In p dirs /\ make_fault d p = Some err).
Proof.
  intros H. apply main_stages in H
    as (e1 & d1 & e2 & d2 & e3 & d3 & H1 & H2 & H3 & H4).
  pose proof (create_or_ask_cases _ _ _ _ _ H1) as (S1 & _ & P1 & _ & Stop1).
  destruct H2 as [[-> H2]|(-> & _ & _ & _)].
  - pose proof (create_or_ask_cases _ _ _ _ _ H2) as (S2 & _ & _ & _ & Stop2).
    destruct S1 as (O1 & M1 & _). destruct S2 as (O2 & M2 & _).
    destruct H3 as [[-> H3]|(-> & _ & _ & _)].
    + apply make_directories_step in H3 as (_ & _ & _ & Stop3).
      destruct H4 as [(_ & _ & H4)|(-> & _ & _)].
      * apply create_placeholder_logo_step in H4 as [H4 _]. discriminate.
      * destruct (Stop3 why eq_refl) as (p & err & Hp & Hf & ->).
        right. exists err. split; [reflexivity|]. right. right.
        exists p. split; [exact Hp|]. now rewrite <- M1, <- M2.
    + destruct (Stop2 why eq_refl) as [(-> & Hthere & _)|(err & -> & Hf)].
      * left. split; [reflexivity|]. right.
        now rewrite <- (P1 ".env" ltac:(discriminate)).
      * right. exists err. split; [reflexivity|]. right. left.
        now rewrite <- O1.
  - destruct (Stop1 why eq_refl) as [(-> & Hthere & _)|(err & -> & Hf)].
    + left. split; [reflexivity|]. now left.
    + right. exists err. split; [reflexivity|]. now left.
Qed.

Lemma setup_stops_only_for_witness :
  main {| present := fun p => p =? ".env"; answers := [];
          open_fault := fun _ => None; make_fault := fun _ => None;
          logo_fault := Some OSError; written := []; directories := [] |}
  = (Stopped EndOfInput,
     {| present := fun p => (p =? "config.json") || (p =? ".env");
        answers := [];
        open_fault := fun _ => None; make_fault := fun _ => None;
        logo_fault := Some OSError;
        written := [("config.json", ConfigFile config)]; directories := [] |})
  /\ present {| present := fun p => p =? ".env"; answers := [];
                open_fault := fun _ => None; make_fault := fun _ => None;
                logo_fault := Some OSError; written := [];
                directories := [] |} ".env" = true.
Proof.
  assert (main {| present := fun p => p =? ".env"; answers := [];
                  open_fault := fun _ => None; make_fault := fun _ => None;
                  logo_fault := Some OSError; written := [];
                  directories := [] |}
          = (Stopped EndOfInput,
             {| present := fun p => (p =? "config.json") || (p =? ".env");
                answers := [];
                open_fault := fun _ => None; make_fault := fun _ => None;
                logo_fault := Some OSError;
                written := [("config.json", ConfigFile config)];
                directories := [] |})) as E by reflexivity.
  split; [exact E|].
  destruct (setup_stops_only_for _ _ _ E) as [[_ [H|H]]|(err & H & _)].
  - discriminate H.
  - exact H.
  - discriminate H.
Defined.

Lemma make_directories_answers (todo : list string) :
  forall d d' e,
    make_directories todo d = (e, d') -> answers d' = answers d.
Proof.
  induction todo as [|p rest IH]; intros d d' e.
  - cbn. now intros [= _ <-].
  - cbn [make_directories]. unfold make_directory.
    destruct (make_fault d p); [now intros [= _ <-]|].
    intros H. now rewrite (IH _ _ _ H).
Qed.

Lemma create_placeholder_logo_cases (d d' : Desk) (e : ended) :
  create_placeholder_logo d = (e, d') ->
  answers d' = answers d /\ directories d' = directories d
  /\ written d'
     = match logo_fault d with
       | Some _ => written d
       | None => ("assets/logo.png", LogoFile) :: written d
       end.
Proof.
  unfold create_placeholder_logo.
  destruct (logo_fault d); intros [= _ <-]; repeat split.
Qed.

(** When the script returns, it has asked for its seven directories in
    order, it has asked one question for each of [config.json] and [.env]
    that was there, it has written each of the two that was missing, and
    it has written the logo exactly when the logo was missing and could
    be drawn. *)
Theorem setup_returns (d d' : Desk) :
  main d = (Returned, d') ->
  directories d' = (rev dirs ++ directories d)%list
  /\ length (answers d)
     = length (answers d')
       + (if present d "config.json" then 1 else 0)
       + (if present d ".env" then 1 else 0)
  /\ (present d "config.json" = false ->
      In ("config.json", ConfigFile config) (written d'))
  /\ (present d ".env" = false ->
      In (".env", EnvFile env_content) (written d'))
  /\ (In ("assets/logo.png", LogoFile) (written d')
      <-> In ("assets/logo.png", LogoFile) (written d)
          \/ present d "assets/logo.png" = false /\ logo_fault d = None).
Proof.
  intros H. apply main_stages in H
    as (e1 & d1 & e2 & d2 & e3 & d3 & H1 & H2 & H3 & H4).
  destruct H2 as [[-> H2]|(_ & _ & _ & Hne)]; [|contradiction].
  destruct H3 as [[-> H3]|(_ & _ & _ & Hne)]; [|contradiction].
  assert (e3 = Returned) as -> by (destruct H4 as [[He _]|[He _]]; exact He).
  pose proof (create_or_ask_cases _ _ _ _ _ H1) as (S1 & D1 & P1 & A1 & _).
  pose proof (create_or_ask_cases _ _ _ _ _ H2) as (S2 & D2 & P2 & A2 & _).
  specialize (A1 eq_refl). specialize (A2 eq_refl).
  pose proof (make_directories_present _ _ _ _ H3) as P3.
  pose proof (make_directories_answers _ _ _ _ H3) as A3.
  pose proof H3 as H3'.
  apply make_directories_step in H3' as (S3 & W3 & D3 & _).
  specialize (D3 eq_refl).
  assert (present d3 "assets/logo.png" = present d "assets/logo.png") as Plogo.
  { rewrite P3, P2, P1; try discriminate; [reflexivity|].
    cbn. intuition discriminate. }
  assert (logo_fault d3 = logo_fault d) as Flogo.
  { destruct S1 as (_ & _ & F1 & _), S2 as (_ & _ & F2 & _),
      S3 as (_ & _ & F3 & _). congruence. }
  assert (directories d3 = (rev dirs ++ directories d)%list) as Hdirs
      by (rewrite D3, D2, D1; reflexivity).
  assert (length (answers d)
          = length (answers d3)
            + (if present d "config.json" then 1 else 0)
            + (if present d ".env" then 1 else 0)) as Hanswers.
  { rewrite A3. rewrite (P1 ".env" ltac:(discriminate)) in A2.
    destruct (present d "config.json"), (present d ".env").
    - destruct A1 as [a1 A1], A2 as [a2 A2]. rewrite A1, A2. cbn [length]. lia.
    - destruct A1 as [a1 A1]. rewrite A1, A2. cbn [length]. lia.
    - destruct A2 as [a2 A2]. rewrite <- A1, A2. cbn [length]. lia.
    - rewrite A2, A1. lia. }
  assert (present d "config.json" = false ->
          In ("config.json", ConfigFile config) (written d3)) as Hconfig.
  { intros Hno. rewrite W3. apply (setup_step_grows _ _ _ _ S2).
    rewrite (create_or_ask_missing _ _ _ _ Hno H1). now left. }
  assert (present d ".env" = false ->
          In (".env", EnvFile env_content) (written d3)) as Henv.
  { intros Hno. rewrite W3.
    rewrite <- (P1 ".env" ltac:(discriminate)) in Hno.
    rewrite (create_or_ask_missing _ _ _ _ Hno H2). now left. }
  assert (In ("assets/logo.png", LogoFile) (written d3)
          <-> In ("assets/logo.png", LogoFile) (written d)) as Hold.
  { rewrite W3. split.
    - intros Hin.
      apply (setup_step_other_path _ _ _ _ _ S2) in Hin;
        [|intros [Heq|[]]; discriminate].
      apply (setup_step_other_path _ _ _ _ _ S1) in Hin; [exact Hin|].
      intros [Heq|[]]. discriminate.
    - intros Hin. apply (setup_step_grows _ _ _ _ S2).
      now apply (setup_step_grows _ _ _ _ S1). }
  destruct H4 as [(_ & Hno & H4)|(_ & -> & Hyes)].
  - apply create_placeholder_logo_cases in H4 as (A4 & D4 & W4).
    rewrite D4, A4. split; [exact Hdirs|]. split; [exact Hanswers|].
    rewrite Plogo in Hno. rewrite Flogo in W4. rewrite W4.
    destruct (logo_fault d) as [err|].
    + split; [exact Hconfig|]. split; [exact Henv|].
      rewrite Hold. split; [now left|].
      intros [Hin|[_ Hf]]; [exact Hin|discriminate].
    + split; [intros Hc; right; now apply Hconfig|].
      split; [intros Hc; right; now apply Henv|].
      split; [intros _; right; now split|intros _; now left].
  - split; [exact Hdirs|]. split; [exact Hanswers|].
    split; [exact Hconfig|]. split; [exact Henv|].
    rewrite Hold. split; [now left|].
    intros [Hin|[Hno _]]; [exact Hin|].
    specialize (Hyes eq_refl). congruence.
Qed.

Lemma setup_returns_witness :
  main Cases.empty_desk
  = (Returned, snd (main Cases.empty_desk))
  /\ directories (snd (main Cases.empty_desk)) = rev dirs
  /\ In ("config.json", ConfigFile config)
       (written (snd (main Cases.empty_desk)))
  /\ ~ In ("assets/logo.png", LogoFile)
         (written (snd (main Cases.empty_desk))).
Proof.
  assert (main Cases.empty_desk = (Returned, snd (main Cases.empty_desk)))
    as E by reflexivity.
  split; [exact E|].
  destruct (setup_returns _ _ E) as (Hdirs & _ & Hconfig & _ & Hlogo).
  split; [rewrite Hdirs; apply app_nil_r|]. split; [now apply Hconfig|].
  intros Hin. destruct (proj1 Hlogo Hin) as [Hold|[_ Hf]].
  - exact Hold.
  - discriminate Hf.
Defined.

End SetupOutcome.

(** * The setup script and the generator together *)

(** The [config.json] the setup script writes is one the generator
    starts on: [load_config] accepts it, and its values have the types
    the pipeline expects, with three colours and five sizes of distinct
    names, all at least 1x1.  The directories the script makes are
    [assets], where it puts the logo the configuration names, and exactly
    those [create_directories] asks for.  The placeholder API key is
    accepted by [setup_gemini] when the environment gives none.
    Notifications are enabled but, the webhook URL being empty, nothing is
    ever posted. *)
Theorem shipped_configuration `{PIL : Imaging} (w : World) :
  json_file w "config.json" = Ok SetupScript.config ->
  exists loaded g,
    load_config "config.json" w = (Ok loaded, w)
    /\ loaded_config loaded = SetupScript.config
    /\ Decode.generator loaded = Some g
    /\ brand_colors g = ["#0066CC"; "#00A3E0"; "#FFFFFF"]
    /\ length (sizes (image_variants (config g))) = 5
    /\ NoDup (map size_name (sizes (image_variants (config g))))
    /\ Forall positive_size (sizes (image_variants (config g)))
    /\ logo_path g = Some "assets/logo.png"
    /\ SetupScript.dirs
       = "assets" :: output_dir g
         :: map (size_directory g) (sizes (image_variants (config g)))
    /\ setup_gemini (fun _ => None) SetupScript.config
       = Ok (JStr "YOUR_GEMINI_API_KEY_HERE")
    /\ forall results o,
        exists o',
          send_notification SetupScript.config results o = (Ok tt, o')
          /\ posted o' = posted o
          /\ hd "" (printed o') = notification_message results.
Proof.
  intros Hfile.
  destruct (Decode.generator
              {| loaded_config := SetupScript.config;
                 loaded_brand_colors :=
                   JArr [JStr "#0066CC"; JStr "#00A3E0"; JStr "#FFFFFF"];
                 loaded_output_dir := JStr "generated_images";
                 loaded_logo_path := JStr "assets/logo.png" |}) as [g|] eqn:Eg;
    [|discriminate Eg].
  eexists. exists g. split.
  { unfold load_config, bind, json_load, lift, ret. rewrite Hfile. reflexivity. }
  split; [reflexivity|]. split; [exact Eg|].
  vm_compute in Eg. injection Eg as <-.
  split; [reflexivity|]. split; [reflexivity|]. split.
  { cbn. repeat constructor; cbn; intuition discriminate. }
  split; [repeat constructor; cbn; lia|].
  split; [reflexivity|]. split; [reflexivity|]. split; [reflexivity|].
  intros results o. eexists. split; [reflexivity|]. split; reflexivity.
Qed.

Lemma shipped_configuration_witness :
  exists g,
    json_file
      (Scenario.world SetupScript.config (Raise OSError)
         Scenario.no_fault Scenario.no_fault) "config.json"
    = Ok SetupScript.config
    /\ map size_name (sizes (image_variants (config g)))
       = ["social_square"; "social_story"; "web_banner"; "email_header";
          "thumbnail"]
    /\ NoDup (map size_name (sizes (image_variants (config g)))).
Proof.
  destruct (shipped_configuration (PIL := Scenario.imaging)
              (Scenario.world SetupScript.config (Raise OSError)
                 Scenario.no_fault Scenario.no_fault) eq_refl)
    as (loaded & g & E & Hcfg & Hg & _ & _ & Hnodup & _).
  exists g. split; [reflexivity|]. split; [|exact Hnodup].
  destruct loaded as [c bc od lp].
  unfold load_config, bind, json_load, lift, ret in E. cbn in E.
  injection E as <- <- <- <-. vm_compute in Hg. injection Hg as <-.
  reflexivity.
Defined.
